(** * Kundli: response normalisation, dasha chain and sandbox-date retry

    A shallow embedding of [app.py] (the flattening helpers, the period
    lookup and the dasha chain) and of [kundli_services.py] (the date
    substitution and the four endpoint wrappers), followed by the
    properties the specification states about them.

    Python values are modelled by the JSON fragment the code handles;
    exceptions are explicit results. *)

From Stdlib Require Import ZArith NArith String Ascii Bool Lia DecimalString.
From Stdlib Require Import List Permutation Sorted.
Import ListNotations.

Set Warnings "-register-all".

Local Open Scope Z_scope.
Local Open Scope string_scope.
Local Open Scope list_scope.

(* ================================================================== *)
(** * The Python runtime fragment used by the program                  *)
(* ================================================================== *)

Module Py.

(** JSON values as [json.loads] builds them.  A [str] is kept as its
    UTF-8 text: equality and the code-point order of two strings are the
    equality and the byte order of their encodings.  Numbers are the
    integers; floats are outside the model.  A dict keeps its insertion
    order, which [values()] iterates, and holds each key once. *)
Inductive value : Type :=
| VNone
| VBool (b : bool)
| VInt (z : Z)
| VStr (s : string)
| VList (l : list value)
| VDict (d : list (string * value)).

(** The exceptions the modelled code can meet.  [HTTPError] is the one
    the endpoint wrappers raise themselves: its message is the f-string
    of the status, the reason and the detail (the parsed body, or the
    raw text as a [str]).  [StatusError] is the [HTTPError] of
    [raise_for_status]. *)
Inductive exn : Type :=
| AttributeError   (* [x.get] on something that is not a dict *)
| TypeError        (* unordered operands, iteration over a scalar *)
| ValueError       (* text that cannot be read as what is asked for *)
| JSONDecodeError  (* [resp.json()] on a body that is not JSON *)
| ConnectionError  (* the transport failed *)
| StatusError (status : Z)
| HTTPError (status : Z) (reason : string) (detail : value).

(** A computation either returns or raises. *)
Inductive result (A : Type) : Type :=
| Ok (a : A)
| Raise (e : exn).
Arguments Ok {A} a.
Arguments Raise {A} e.

Definition bind {A B} (m : result A) (k : A -> result B) : result B :=
  match m with
  | Ok a => k a
  | Raise e => Raise e
  end.

Declare Scope py_scope.
Delimit Scope py_scope with py.
Notation "x <- m ;; k" := (bind m (fun x => k))
  (at level 61, m at next level, right associativity) : py_scope.
Notation "' p <- m ;; k" := (bind m (fun x => match x with p => k end))
  (at level 61, p pattern, m at next level, right associativity) : py_scope.

(** [try: m except Exception: h]. *)
Definition try_except {A} (m : result A) (h : result A) : result A :=
  match m with
  | Ok a => Ok a
  | Raise _ => h
  end.

(** Truth value of an object, as [or], [not] and [if] use it. *)
Definition truthy (v : value) : bool :=
  match v with
  | VNone => false
  | VBool b => b
  | VInt z => negb (z =? 0)%Z
  | VStr s => negb (s =? "")%string
  | VList l => match l with [] => false | _ => true end
  | VDict d => match d with [] => false | _ => true end
  end.

Definition is_none (v : value) : bool :=
  match v with VNone => true | _ => false end.

Definition isinstance_list (v : value) : bool :=
  match v with VList _ => true | _ => false end.

Definition isinstance_dict (v : value) : bool :=
  match v with VDict _ => true | _ => false end.

(** Lookup in a dict body. *)
Fixpoint lookup (k : string) (d : list (string * value)) : option value :=
  match d with
  | [] => None
  | (k', v) :: d' => if (k =? k')%string then Some v else lookup k d'
  end.

(** [x.get(k, default)]: only a dict has the method; a key that is
    present wins even when its value is [None]. *)
Definition get_default (x : value) (k : string) (default : value) : result value :=
  match x with
  | VDict d => Ok (match lookup k d with Some v => v | None => default end)
  | _ => Raise AttributeError
  end.

(** [x.get(k)]. *)
Definition get (x : value) (k : string) : result value :=
  get_default x k VNone.

(** [a or b]: [b] is looked at only when [a] is falsy, so an exception
    in [b] goes unnoticed when [a] is truthy. *)
Definition or_else (a b : result value) : result value :=
  (x <- a ;; if truthy x then Ok x else b)%py.

Notation "a 'or' b" := (or_else a b)
  (at level 72, right associativity) : py_scope.

(** The items a [for] loop (or a generator) draws from an object: the
    elements of a list, the keys of a dict, the characters of a string
    (one item per byte here: the code never looks into such an item, it
    only fails on it); other JSON values are not iterable. *)
Definition iter (v : value) : result (list value) :=
  match v with
  | VList l => Ok l
  | VDict d => Ok (map (fun kv => VStr (fst kv)) d)
  | VStr s => Ok (map (fun c => VStr (String c EmptyString)) (list_ascii_of_string s))
  | _ => Raise TypeError
  end.

(** A loop body run over the items in order; the first exception ends
    the loop. *)
Fixpoint for_each {A B} (f : A -> result B) (l : list A) : result (list B) :=
  match l with
  | [] => Ok []
  | x :: l' => (y <- f x ;; ys <- for_each f l' ;; Ok (y :: ys))%py
  end.

End Py.

Import Py.
Local Open Scope py_scope.

(* ================================================================== *)
(** * Comparison, [str] and [list.sort] of the runtime                 *)
(* ================================================================== *)

Module PyOrder.

(** [bool] is a subclass of [int]: [True] counts as 1 in comparisons. *)
Definition as_int (v : value) : option Z :=
  match v with
  | VBool b => Some (Z.b2z b)
  | VInt z => Some z
  | _ => None
  end.

(** [a == b] on JSON values; it never raises.  Dicts are equal when
    they hold the same keys with equal values, in any order. *)
Fixpoint py_eq (a b : value) : bool :=
  match a, b with
  | VNone, VNone => true
  | VBool x, VBool y => Bool.eqb x y
  | VBool x, VInt y => (Z.b2z x =? y)%Z
  | VInt x, VBool y => (x =? Z.b2z y)%Z
  | VInt x, VInt y => (x =? y)%Z
  | VStr x, VStr y => (x =? y)%string
  | VList l1, VList l2 =>
      (fix eq_items (l1 l2 : list value) : bool :=
         match l1, l2 with
         | [], [] => true
         | x :: l1', y :: l2' => py_eq x y && eq_items l1' l2'
         | _, _ => false
         end) l1 l2
  | VDict d1, VDict d2 =>
      (List.length d1 =? List.length d2)%nat &&
      (fix sub (d : list (string * value)) : bool :=
         match d with
         | [] => true
         | (k, v) :: d' =>
             match lookup k d2 with
             | Some w => py_eq v w
             | None => false
             end && sub d'
         end) d1
  | _, _ => false
  end.

(** [a < b] on strings: lexicographic on code points. *)
Definition str_lt (x y : string) : bool := String.ltb x y.

(** [a < b] on JSON values.  Numbers order numerically, strings
    lexicographically, lists by their first differing item; every other
    pairing is a [TypeError]. *)
Fixpoint py_lt (a b : value) : result bool :=
  match a, b with
  | VBool x, VBool y => Ok (Z.b2z x <? Z.b2z y)%Z
  | VBool x, VInt y => Ok (Z.b2z x <? y)%Z
  | VInt x, VBool y => Ok (x <? Z.b2z y)%Z
  | VInt x, VInt y => Ok (x <? y)%Z
  | VStr x, VStr y => Ok (str_lt x y)
  | VList l1, VList l2 =>
      (fix lt_items (l1 l2 : list value) : result bool :=
         match l1, l2 with
         | [], [] => Ok false
         | [], _ :: _ => Ok true
         | _ :: _, [] => Ok false
         | x :: l1', y :: l2' =>
             if py_eq x y then lt_items l1' l2' else py_lt x y
         end) l1 l2
  | _, _ => Raise TypeError
  end.

(** [(a1, a2) < (b1, b2)] for the 2-tuples used as sort keys: the first
    components decide unless they are equal. *)
Definition tuple_lt (a b : value * string) : result bool :=
  if py_eq (fst a) (fst b)
  then Ok (str_lt (snd a) (snd b))
  else py_lt (fst a) (fst b).

(** ** [str] and [repr] *)

Definition hex_digit (n : N) : ascii :=
  match n with
  | 0%N => "0" | 1%N => "1" | 2%N => "2" | 3%N => "3" | 4%N => "4"
  | 5%N => "5" | 6%N => "6" | 7%N => "7" | 8%N => "8" | 9%N => "9"
  | 10%N => "a" | 11%N => "b" | 12%N => "c" | 13%N => "d" | 14%N => "e"
  | _ => "f"
  end%char.

Fixpoint contains (c : ascii) (s : string) : bool :=
  match s with
  | EmptyString => false
  | String c' s' => (c =? c')%char || contains c s'
  end.

(** The body of the [repr] of a string, for a chosen quote character.
    Bytes of multi-byte characters are copied: the characters they
    encode are taken to be printable. *)
Fixpoint repr_body (quote : ascii) (s : string) : string :=
  match s with
  | EmptyString => EmptyString
  | String c s' =>
      let n := N_of_ascii c in
      (if (c =? quote)%char || (c =? "\")%char
       then String "\" (String c EmptyString)
       else if (n =? 9)%N then "\t"
       else if (n =? 10)%N then "\n"
       else if (n =? 13)%N then "\r"
       else if (n <? 32)%N || (n =? 127)%N
       then String "\" (String "x" (String (hex_digit (n / 16))
                                       (String (hex_digit (n mod 16)) EmptyString)))
       else String c EmptyString) ++ repr_body quote s'
  end%string.

(** [repr(s)]: single quotes, unless the text has a single quote and no
    double quote. *)
Definition double_quote : ascii := ascii_of_N 34.

Definition repr_str (s : string) : string :=
  let quote := if contains "'" s && negb (contains double_quote s)
               then double_quote else "'"%char in
  String quote (repr_body quote s ++ String quote EmptyString)%string.

Definition str_of_int (z : Z) : string := NilZero.string_of_int (Z.to_int z).

(** [repr(v)], which is also [str(v)] except on a string. *)
Fixpoint repr (v : value) : string :=
  match v with
  | VNone => "None"
  | VBool true => "True"
  | VBool false => "False"
  | VInt z => str_of_int z
  | VStr s => repr_str s
  | VList l =>
      "[" ++ (fix items (l : list value) : string :=
                match l with
                | [] => ""
                | [x] => repr x
                | x :: l' => repr x ++ ", " ++ items l'
                end) l ++ "]"
  | VDict d =>
      "{" ++ (fix items (d : list (string * value)) : string :=
                match d with
                | [] => ""
                | [(k, x)] => repr_str k ++ ": " ++ repr x
                | (k, x) :: d' => repr_str k ++ ": " ++ repr x ++ ", " ++ items d'
                end) d ++ "}"
  end%string.

(** [str(v)]. *)
Definition str (v : value) : string :=
  match v with
  | VStr s => s
  | _ => repr v
  end.

End PyOrder.

(** ** [list.sort(key=...)]

    The keys are computed first, then keys and items are permuted together.
    What follows is the path CPython (3.11) takes for a list shorter
    than 64 items (one natural run, extended by binary insertion).  Longer lists
    are cut into several such runs that are merged afterwards: that
    returns the same list whenever no comparison raises, and is not
    modelled.  A comparison that raises stops the sort at once and
    leaves the list as permuted so far. *)

Module ListSort.

Section Sort.
Context {K A : Type}.
Variable lt : K -> K -> result bool.

(** How far a strictly descending run continues after a key [prev]. *)
Fixpoint run_desc (prev : K) (l : list (K * A)) : result nat :=
  match l with
  | [] => Ok O
  | x :: l' =>
      c <- lt (fst x) prev ;;
      if c then (n <- run_desc (fst x) l' ;; Ok (S n)) else Ok O
  end.

(** How far a non-descending run continues after a key [prev]. *)
Fixpoint run_asc (prev : K) (l : list (K * A)) : result nat :=
  match l with
  | [] => Ok O
  | x :: l' =>
      c <- lt (fst x) prev ;;
      if c then Ok O else (n <- run_asc (fst x) l' ;; Ok (S n))
  end.

(** [count_run]: the length of the run the list starts with, and
    whether it is a descending one. *)
Definition count_run (l : list (K * A)) : result (nat * bool) :=
  match l with
  | [] => Ok (O, false)
  | [_] => Ok (1%nat, false)
  | x0 :: x1 :: l' =>
      c <- lt (fst x1) (fst x0) ;;
      if c
      then (n <- run_desc (fst x1) l' ;; Ok (S (S n), true))
      else (n <- run_asc (fst x1) l' ;; Ok (S (S n), false))
  end.

(** The binary search of [binarysort]: the place of [pivot] among the
    sorted items [a], between [l] and [r]. *)
Fixpoint bisect (fuel : nat) (pivot : K) (a : list (K * A)) (l r : nat)
  : result nat :=
  match fuel with
  | O => Ok l
  | S fuel' =>
      if (l <? r)%nat then
        let p := (l + (r - l) / 2)%nat in
        match nth_error a p with
        | Some x =>
            c <- lt pivot (fst x) ;;
            if c then bisect fuel' pivot a l p
            else bisect fuel' pivot a (S p) r
        | None => Ok l
        end
      else Ok l
  end.

(** [binarysort]: the items of [rest] are inserted one by one into the
    sorted run; on an exception the list is the run so far followed by
    the items not yet placed. *)
Fixpoint binarysort (sorted rest : list (K * A)) : list (K * A) * option exn :=
  match rest with
  | [] => (sorted, None)
  | pivot :: rest' =>
      match bisect (List.length sorted) (fst pivot) sorted O (List.length sorted) with
      | Ok l => binarysort (firstn l sorted ++ pivot :: skipn l sorted) rest'
      | Raise e => (sorted ++ rest, Some e)
      end
  end.

Definition listsort (l : list (K * A)) : list (K * A) * option exn :=
  match l with
  | [] | [_] => (l, None)
  | _ =>
      match count_run l with
      | Raise e => (l, Some e)
      | Ok (n, descending) =>
          let run := firstn n l in
          binarysort (if descending then rev run else run) (skipn n l)
      end
  end.

(** [l.sort(key=key)]: the list afterwards, and the exception if the
    sort was cut short. *)
Definition sort (key : A -> K) (l : list A) : list A * option exn :=
  let (l', e) := listsort (map (fun x => (key x, x)) l) in
  (map snd l', e).

End Sort.

End ListSort.
Import PyOrder.

(* ================================================================== *)
(** * app.py: flattening the responses into rows                       *)
(* ================================================================== *)

Module Flatten.

(** [x or {}] and [x or []]. *)
Definition or_empty_dict (x : result value) : result value := x or Ok (VDict []).
Definition or_empty_list (x : result value) : result value := x or Ok (VList []).

(** The degree of a planet element (lines 42-46 and 99, the same
    expression):
    [p.get("degree") or p.get("longitude") or (p.get("position") or {}).get("degree")]. *)
Definition degree_of (p : value) : result value :=
  get p "degree"
  or get p "longitude"
  or (pos <- or_empty_dict (get p "position") ;; get pos "degree").

(** The three steps that settle [retro] for a planet element (lines
    47-51 and 101-105, the same statements). *)
Definition resolve_retro (p : value) : result value :=
  retro <- get p "retro" ;;
  retro <- (if is_none retro then get p "is_retro" else Ok retro) ;;
  retro <- (if is_none retro
            then (motion <- get p "motion" ;;
                  Ok (VBool (py_eq motion (VStr "retrograde"))))
            else Ok retro) ;;
  Ok retro.

(** [bool(retro) if retro is not None else None] (lines 65 and 117). *)
Definition retro_field (retro : value) : value :=
  if negb (is_none retro) then VBool (truthy retro) else VNone.

(** [vedic_name] first, then [name]: the name of a lord. *)
Definition lord_name (lord : value) : result value :=
  get lord "vedic_name" or get lord "name".

(** ** [flatten_divisional_positions] *)

(** A row of the divisional table; the fields are the keys of the dict
    the code appends. *)
Record div_row : Type := {
  d_House_No : value;
  d_House : value;
  d_Rasi : value;
  d_Rasi_Lord : value;
  d_Planet : value;
  d_Planet_Vedic : value;
  d_Nakshatra : value;
  d_Nakshatra_Lord : value;
  d_Pada : value;
  d_Degree : value;
  d_Retro : value
}.

(** The body of the inner loop (lines 31-67), for one element of
    [planet_positions]. *)
Definition div_planet_row (house_no house_name rasi_name rasi_lord_name p : value)
  : result div_row :=
  planet <- or_empty_dict (get p "planet") ;;
  nak <- or_empty_dict (get p "nakshatra") ;;
  planet_name <- (get planet "name" or get planet "vedic_name") ;;
  planet_vedic <- (get planet "vedic_name" or Ok (VStr "")) ;;
  nak_name <- get nak "name" ;;
  nak_lord <- or_empty_dict (get nak "lord") ;;
  nak_lord_name <- lord_name nak_lord ;;
  pada <- (get nak "pada" or get p "pada") ;;
  degree <- degree_of p ;;
  retro <- resolve_retro p ;;
  Ok {| d_House_No := house_no;
        d_House := house_name;
        d_Rasi := rasi_name;
        d_Rasi_Lord := rasi_lord_name;
        d_Planet := planet_name;
        d_Planet_Vedic := planet_vedic;
        d_Nakshatra := nak_name;
        d_Nakshatra_Lord := nak_lord_name;
        d_Pada := pada;
        d_Degree := degree;
        d_Retro := retro_field retro |}.

(** The body of the outer loop (lines 21-67): the rows one element of
    [positions] contributes. *)
Definition div_house_rows (house : value) : result (list div_row) :=
  house_info <- or_empty_dict (get_default house "house" (VDict [])) ;;
  rasi_info <- or_empty_dict (get_default house "rasi" (VDict [])) ;;
  rasi_lord <- or_empty_dict (get rasi_info "lord") ;;
  house_no <- get house_info "number" ;;
  house_name <- get house_info "name" ;;
  rasi_name <- get rasi_info "name" ;;
  rasi_lord_name <- lord_name rasi_lord ;;
  planet_positions <- or_empty_list (get house "planet_positions") ;;
  ps <- iter planet_positions ;;
  for_each (div_planet_row house_no house_name rasi_name rasi_lord_name) ps.

(** [r["House No"] if r["House No"] is not None else 99]. *)
Definition house_key (house_no : value) : value :=
  if negb (is_none house_no) then house_no else VInt 99.

(** The sort key of a planet row: house number (99 when missing), then
    the planet as a string. *)
Definition div_key (r : div_row) : value * string :=
  (house_key (d_House_No r), str (d_Planet r)).

(** [try: rows.sort(key=...) except Exception: pass] (lines 68-71):
    whatever the sort left in the list is what the function goes on
    with. *)
Definition sort_div_rows (rows : list div_row) : list div_row :=
  fst (ListSort.sort tuple_lt div_key rows).

Definition flatten_divisional_positions (resp_json : value) : result (list div_row) :=
  root <- get_default resp_json "data" resp_json ;;
  positions <- (get root "divisional_positions" or get root "positions" or Ok (VList [])) ;;
  houses <- iter positions ;;
  rows <- for_each div_house_rows houses ;;
  Ok (sort_div_rows (concat rows)).

(** ** [flatten_kundli_planets] *)

Record kp_row : Type := {
  p_House_No : value;
  p_Planet : value;
  p_Planet_Vedic : value;
  p_Rasi : value;
  p_Rasi_Lord : value;
  p_Nakshatra : value;
  p_Nakshatra_Lord : value;
  p_Pada : value;
  p_Degree : value;
  p_Retro : value
}.

(** [for key in keys: v = root.get(key); if isinstance(v, list): ... break]:
    the value of the first key, in the order given, that holds a list;
    [None] when there is none. *)
Fixpoint first_list_under (root : value) (keys : list string) : result value :=
  match keys with
  | [] => Ok VNone
  | key :: keys' =>
      v <- get root key ;;
      if isinstance_list v then Ok v else first_list_under root keys'
  end.

(** The loop body (lines 86-119), for one element of the list found. *)
Definition kundli_planet_row (p : value) : result kp_row :=
  planet <- (get p "planet" or Ok p) ;;
  planet_name <- (get planet "name" or get planet "vedic_name") ;;
  planet_vedic <- (get planet "vedic_name" or Ok (VStr "")) ;;
  sign <- or_empty_dict (get p "sign" or get p "rasi" or get p "zodiac") ;;
  sign_name <- get sign "name" ;;
  sign_lord <- or_empty_dict (get sign "lord") ;;
  sign_lord_name <- lord_name sign_lord ;;
  nak <- or_empty_dict (get p "nakshatra") ;;
  nak_name <- get nak "name" ;;
  nak_lord <- or_empty_dict (get nak "lord") ;;
  nak_lord_name <- lord_name nak_lord ;;
  pada <- (get nak "pada" or get p "pada") ;;
  degree <- degree_of p ;;
  house_no <- (h <- or_empty_dict (get p "house") ;; get h "number") ;;
  retro <- resolve_retro p ;;
  Ok {| p_House_No := house_no;
        p_Planet := planet_name;
        p_Planet_Vedic := planet_vedic;
        p_Rasi := sign_name;
        p_Rasi_Lord := sign_lord_name;
        p_Nakshatra := nak_name;
        p_Nakshatra_Lord := nak_lord_name;
        p_Pada := pada;
        p_Degree := degree;
        p_Retro := retro_field retro |}.

(** The same key as for the divisional rows. *)
Definition kp_key (r : kp_row) : value * string :=
  (house_key (p_House_No r), str (p_Planet r)).

(** Lines 120-123. *)
Definition sort_kp_rows (rows : list kp_row) : list kp_row :=
  fst (ListSort.sort tuple_lt kp_key rows).

Definition flatten_kundli_planets (resp_json : value) : result (list kp_row) :=
  root <- get_default resp_json "data" resp_json ;;
  candidates <- first_list_under root
                  ["planets"; "planet_positions"; "grahas"; "graha_positions"; "bodies"] ;;
  if negb (truthy candidates) then Ok []
  else
    ps <- iter candidates ;;
    rows <- for_each kundli_planet_row ps ;;
    Ok (sort_kp_rows rows).

(** ** [flatten_kundli_houses] *)

Record house_row : Type := {
  h_House_No : value;
  h_House : value;
  h_Rasi : value;
  h_Degree : value
}.

(** The loop body (lines 137-144). *)
Definition kundli_house_row (h : value) : result house_row :=
  house_info <- or_empty_dict (get_default h "house" h) ;;
  number <- (get house_info "number" or get h "number") ;;
  name <- (get house_info "name" or get h "name") ;;
  rasi <- or_empty_dict (get h "rasi" or get h "sign") ;;
  rasi_name <- get rasi "name" ;;
  degree <- (get h "degree"
             or get h "longitude"
             or (cusp <- or_empty_dict (get h "cusp") ;; get cusp "degree")) ;;
  Ok {| h_House_No := number; h_House := name; h_Rasi := rasi_name; h_Degree := degree |}.

(** The key is the house number alone here (99 when missing). *)
Definition house_row_key (r : house_row) : value := house_key (h_House_No r).

(** Lines 145-148. *)
Definition sort_house_rows (rows : list house_row) : list house_row :=
  fst (ListSort.sort py_lt house_row_key rows).

(** The [for ... else] of the source: [return []] when no key holds a
    list, otherwise the loop over the list found (even an empty one). *)
Definition flatten_kundli_houses (resp_json : value) : result (list house_row) :=
  root <- get_default resp_json "data" resp_json ;;
  houses <- first_list_under root
              ["houses"; "bhavas"; "house_positions"; "bhava_positions"] ;;
  if is_none houses then Ok []
  else
    hs <- iter houses ;;
    rows <- for_each kundli_house_row hs ;;
    Ok (sort_house_rows rows).

End Flatten.
(* ================================================================== *)
(** * pandas, as far as the dasha helpers use it                       *)
(* ================================================================== *)

(** [pd.to_datetime] and the comparison of its results belong to pandas,
    not to this program.  They are an interface here: [to_datetime] may
    raise, may return [None] (it does so on [None]) or a scalar; a
    scalar that never compares below anything ([NaT]) is a [Timestamp]
    like any other, and a comparison may itself raise (pandas refuses to
    order a time-zone aware instant against a naive one). *)
Class Pandas : Type := {
  Timestamp : Type;
  to_datetime : value -> result (option Timestamp);
  ts_le : Timestamp -> Timestamp -> result bool
}.

(* ================================================================== *)
(** * app.py: the dasha helpers                                        *)
(* ================================================================== *)

Module Dasha.

Section WithPandas.
Context {pandas : Pandas}.

(** [_parse_dt]: any exception of the parser becomes [None]. *)
Definition _parse_dt (s : value) : option Timestamp :=
  match to_datetime s with
  | Ok r => r
  | Raise _ => None
  end.

(** [p.get("start") or p.get("start_time") or p.get("from")]. *)
Definition start_of (p : value) : result value :=
  get p "start" or get p "start_time" or get p "from".

(** [p.get("end") or p.get("end_time") or p.get("to")]. *)
Definition end_of (p : value) : result value :=
  get p "end" or get p "end_time" or get p "to".

(** [s <= now_ts <= e]: the second comparison is made only when the
    first one holds. *)
Definition between (s now_ts e : Timestamp) : result bool :=
  c <- ts_le s now_ts ;;
  if c then ts_le now_ts e else Ok false.

(** The test of the loop body of [_find_period_covering] for one entry. *)
Definition covers (p : value) (now_ts : Timestamp) : result bool :=
  sv <- start_of p ;;
  let s := _parse_dt sv in
  ev <- end_of p ;;
  let e := _parse_dt ev in
  match s, e with
  | Some s, Some e => between s now_ts e
  | _, _ => Ok false
  end.

(** The [for p in periods] loop: the first entry that passes is
    returned, [None] when the loop runs out. *)
Fixpoint scan (l : list value) (now_ts : Timestamp) : result value :=
  match l with
  | [] => Ok VNone
  | p :: l' =>
      c <- covers p now_ts ;;
      if c then Ok p else scan l' now_ts
  end.

Definition _find_period_covering (periods : value) (now_ts : Timestamp)
  : result value :=
  match periods with
  | VList l => scan l now_ts
  | _ => Ok VNone
  end.

(** The inner loop of the nested scan: [periods] is assigned from the
    first of the three names that holds a list. *)
Fixpoint nested_list_under (v : value) (ks : list string) : result value :=
  match ks with
  | [] => Ok VNone
  | k :: ks' =>
      w <- get v k ;;
      if isinstance_list w then Ok w else nested_list_under v ks'
  end.

(** [for v in root.values()]: look one level down into every value that
    is itself a dict, and stop at the first list found. *)
Fixpoint scan_values (vs : list value) : result value :=
  match vs with
  | [] => Ok VNone
  | v :: vs' =>
      periods <- (if isinstance_dict v
                  then nested_list_under v ["periods"; "dasha_periods"; "mahadasha"]
                  else Ok VNone) ;;
      if negb (is_none periods) then Ok periods else scan_values vs'
  end.

(** [root.values()]. *)
Definition values (root : value) : result (list value) :=
  match root with
  | VDict d => Ok (map snd d)
  | _ => Raise AttributeError
  end.

(** What [current_dasha_chain] returns. *)
Record chain : Type := {
  current_md : value;
  current_ad : value;
  current_pd : value;
  all_ad : value;
  all_pd : value;
  dasha_balance : value
}.

(** The two searches for the top-level list of mahadasha periods: the
    alias keys of the root first, then one level down. *)
Definition top_level_periods (root : value) : result value :=
  periods <- Flatten.first_list_under root
               ["periods"; "dasha_periods"; "dasha"; "mahadasha"; "maha_dasha"; "md"] ;;
  if is_none periods
  then (vs <- values root ;; scan_values vs)
  else Ok periods.

(** [_find_period_covering(l, now_ts) if l else None]. *)
Definition find_if_any (l : value) (now_ts : Timestamp) : result value :=
  if truthy l then _find_period_covering l now_ts else Ok VNone.

(** [cur.get(k) if isinstance(cur, dict) else None]. *)
Definition children (cur : value) (k : string) : result value :=
  if isinstance_dict cur then get cur k else Ok VNone.

(** [x or []]. *)
Definition or_list (x : value) : value := if truthy x then x else VList [].

Definition current_dasha_chain (resp_json : value) (now_ts : Timestamp)
  : result chain :=
  root <- get_default resp_json "data" resp_json ;;
  periods <- top_level_periods root ;;
  md <- find_if_any periods now_ts ;;
  ads <- children md "antardasha" ;;
  ad <- find_if_any ads now_ts ;;
  pds <- children ad "pratyantardasha" ;;
  pd_ <- find_if_any pds now_ts ;;
  balance <- (get root "dasha_balance" or Ok (VDict [])) ;;
  Ok {| current_md := md; current_ad := ad; current_pd := pd_;
        all_ad := or_list ads; all_pd := or_list pds;
        dasha_balance := balance |}.

End WithPandas.

(** One line of the table of [dasha_rows_for_display]. *)
Record level_row : Type := {
  Level : string;
  Lord : value;
  Start : value;
  End_ : value
}.

(** The local [row(level, obj)]. *)
Definition row (level : string) (obj : value) : result level_row :=
  if negb (truthy obj)
  then Ok {| Level := level; Lord := VNone; Start := VNone; End_ := VNone |}
  else
    name <- (get obj "name"
             or (pl <- (get obj "planet" or Ok (VDict [])) ;; get pl "vedic_name")
             or (pl <- (get obj "planet" or Ok (VDict [])) ;; get pl "name")) ;;
    st <- (get obj "start" or get obj "start_time" or get obj "from") ;;
    en <- (get obj "end" or get obj "end_time" or get obj "to") ;;
    Ok {| Level := level; Lord := name; Start := st; End_ := en |}.

Definition dasha_rows_for_display (md ad pd_ : value) : result (list level_row) :=
  r1 <- row "Mahadasha" md ;;
  r2 <- row "Antardasha" ad ;;
  r3 <- row "Pratyantardasha" pd_ ;;
  Ok [r1; r2; r3].

End Dasha.


(* ================================================================== *)
(** * kundli_services.py: the date substitution and the endpoints      *)
(* ================================================================== *)

(** The regular expression engine classifies code points.  Which
    characters beyond ASCII are decimal digits (category Nd) is a table
    of the interpreter's Unicode database. *)
Class UnicodeData : Type := {
  nd_beyond_ascii : N -> bool
}.

Module Services.

(** A timestamp string as the sequence of its code points. *)
Definition ustr : Type := list N.

(** The code points of an ASCII literal. *)
Definition u (s : string) : ustr := map N_of_ascii (list_ascii_of_string s).

Section Regex.
Context {unicode : UnicodeData}.

(** [\d] in a [str] pattern: any Unicode decimal digit. *)
Definition re_digit (c : N) : bool :=
  if (c <? 128)%N then (48 <=? c)%N && (c <=? 57)%N else nd_beyond_ascii c.

(** A piece of the pattern consumes a prefix of the text or fails.  All
    pieces used below consume exactly one character per step, so no
    backtracking arises. *)
Definition matcher : Type := ustr -> option (ustr * ustr).

Definition class (ok : N -> bool) : matcher :=
  fun s => match s with
           | c :: r => if ok c then Some ([c], r) else None
           | [] => None
           end.

Definition digit : matcher := class re_digit.

Definition chr (a : ascii) : matcher := class (N.eqb (N_of_ascii a)).

(** [[+-]]. *)
Definition sign : matcher :=
  class (fun c => (c =? N_of_ascii "+")%N || (c =? N_of_ascii "-")%N).

Definition seq (m1 m2 : matcher) : matcher :=
  fun s => match m1 s with
           | Some (a, r) =>
               match m2 r with
               | Some (b, r') => Some (a ++ b, r')
               | None => None
               end
           | None => None
           end.
Infix "+++" := seq (at level 58, left associativity).

(** [\d{n}]. *)
Fixpoint digits (n : nat) : matcher :=
  match n with
  | O => fun s => Some ([], s)
  | S n' => digit +++ digits n'
  end.

(** [$] without [re.MULTILINE]: the end of the text, or the position
    just before a newline that ends the text. *)
Definition dollar (s : ustr) : bool :=
  match s with
  | [] => true
  | [c] => (c =? 10)%N
  | _ => false
  end.

(** The groups of
    [(\d{4})-(\d{2})-(\d{2})T(\d{2}:\d{2}:\d{2})([+-]\d{2}:\d{2})$]
    under [re.match]. *)
Definition groups : Type := ustr * ustr * ustr * ustr * ustr.

Definition re_match (s : ustr) : option groups :=
  match digits 4 s with None => None | Some (year, s) =>
  match chr "-" s with None => None | Some (_, s) =>
  match digits 2 s with None => None | Some (month, s) =>
  match chr "-" s with None => None | Some (_, s) =>
  match digits 2 s with None => None | Some (day, s) =>
  match chr "T" s with None => None | Some (_, s) =>
  match (digits 2 +++ chr ":" +++ digits 2 +++ chr ":" +++ digits 2) s with
  | None => None | Some (hms, s) =>
  match (sign +++ digits 2 +++ chr ":" +++ digits 2) s with
  | None => None | Some (off, s) =>
  if dollar s then Some (year, month, day, hms, off) else None
  end end end end end end end end.

(** [_force_jan1]: [f"{year}-01-01T{hms}{off}"] on a match, the input
    itself otherwise. *)
Definition _force_jan1 (iso_local : ustr) : ustr :=
  match re_match iso_local with
  | None => iso_local
  | Some (year, _, _, hms, off) => year ++ u "-01-01T" ++ hms ++ off
  end.

End Regex.

(** ** The endpoint wrappers *)

(** What the wrappers read of a [requests.Response]: [body_json] is
    the value [resp.json()] returns, absent when the body is not JSON. *)
Record Response : Type := {
  status_code : Z;
  reason : string;
  text : string;
  body_json : option value
}.

(** [resp.json()]. *)
Definition json (resp : Response) : result value :=
  match body_json resp with
  | Some v => Ok v
  | None => Raise JSONDecodeError
  end.

(** [resp.raise_for_status()] of requests: statuses 400 to 599 raise. *)
Definition raise_for_status (resp : Response) : result unit :=
  if (400 <=? status_code resp)%Z && (status_code resp <? 600)%Z
  then Raise (StatusError (status_code resp))
  else Ok tt.

(** [any(e.get("code") == "1004" for e in items)]: stops at the first
    hit; an item that is not a dict raises before that. *)
Fixpoint any_1004 (items : list value) : result bool :=
  match items with
  | [] => Ok false
  | e :: items' =>
      code <- get e "code" ;;
      if py_eq code (VStr "1004") then Ok true else any_1004 items'
  end.

(** The condition inside the [try] block, [msg = resp.json()] included. *)
Definition sandbox_signal (resp : Response) : result bool :=
  msg <- json resp ;;
  if (status_code resp =? 400)%Z && isinstance_dict msg
  then (errors <- get_default msg "errors" (VList []) ;;
        items <- iter errors ;;
        any_1004 items)
  else Ok false.

(** The closing lines of each wrapper: the detail is the parsed body
    when there is one, else the raw text. *)
Definition detail_of (resp : Response) : value :=
  match json resp with
  | Ok v => v
  | Raise _ => VStr (text resp)
  end.

Definition http_error (resp : Response) : exn :=
  HTTPError (status_code resp) (reason resp) (detail_of resp).

(** The remote side: what [call(datetime_value)] returns (or raises),
    given the datetime values this wrapper has sent before. *)
Definition transport : Type := list ustr -> ustr -> result Response.

Section Endpoints.
Context {unicode : UnicodeData}.

(** The body the four wrappers share from [resp = call(...)] on (lines
    91-115, 141-165, 189-213 and 242-266, the same statements); they
    differ in the request they build and in what they hand back
    ([payload]: the text of the response or its parsed body).  The
    result comes with the datetime values sent, in order.  Fetching the
    token precedes this and is not modelled. *)
Definition with_sandbox_retry {P : Type} (payload : Response -> result P)
    (call : transport) (birth_dt_local_with_offset_iso : ustr)
  : result (P * bool) * list ustr :=
  let iso := birth_dt_local_with_offset_iso in
  match call [] iso with
  | Raise e => (Raise e, [iso])
  | Ok resp =>
      if (status_code resp <? 400)%Z
      then (p <- payload resp ;; Ok (p, false), [iso])
      else
        match sandbox_signal resp with
        | Ok true =>
            let used_fallback := true in
            let jan1_iso := _force_jan1 iso in
            (try_except
               (resp2 <- call [iso] jan1_iso ;;
                _ <- raise_for_status resp2 ;;
                p <- payload resp2 ;;
                Ok (p, used_fallback))
               (Raise (http_error resp)),
             [iso; jan1_iso])
        | _ => (Raise (http_error resp), [iso])
        end
  end.

(** [get_chart_svg] returns [resp.text]. *)
Definition get_chart_svg (call : transport) (iso : ustr)
  : result (string * bool) * list ustr :=
  with_sandbox_retry (fun resp => Ok (text resp)) call iso.

(** The three JSON endpoints return [resp.json()]. *)
Definition get_divisional_planet_position (call : transport) (iso : ustr)
  : result (value * bool) * list ustr :=
  with_sandbox_retry json call iso.

Definition get_kundli (call : transport) (iso : ustr)
  : result (value * bool) * list ustr :=
  with_sandbox_retry json call iso.

Definition get_dasha_periods (call : transport) (iso : ustr)
  : result (value * bool) * list ustr :=
  with_sandbox_retry json call iso.

End Endpoints.

End Services.

(* ================================================================== *)
(** * Concrete stand-ins and the vocabulary of the properties          *)
(* ================================================================== *)

Import Flatten Dasha Services.

(** ** A cut-down pandas for calendar dates

    Enough of [pd.to_datetime] to run the dasha helpers on dates written
    [YYYY-MM-DD]: [None] gives [None], such a date gives a timestamp,
    anything else raises.  A date is kept as the number [YYYYMMDD], which
    orders dates as the calendar does; all these timestamps compare. *)

Definition digit_val (c : ascii) : option Z :=
  let n := N_of_ascii c in
  if (48 <=? n)%N && (n <=? 57)%N then Some (Z.of_N n - 48) else None.

Fixpoint number (acc : Z) (cs : list ascii) : option Z :=
  match cs with
  | [] => Some acc
  | c :: cs' =>
      match digit_val c with
      | Some d => number (10 * acc + d) cs'
      | None => None
      end
  end.

Definition parse_iso_date (s : string) : option Z :=
  match list_ascii_of_string s with
  | [y1; y2; y3; y4; "-"%char; m1; m2; "-"%char; d1; d2] =>
      number 0 [y1; y2; y3; y4; m1; m2; d1; d2]
  | _ => None
  end.

Definition iso_to_datetime (v : value) : result (option Z) :=
  match v with
  | VNone => Ok None
  | VStr s =>
      match parse_iso_date s with
      | Some t => Ok (Some t)
      | None => Raise ValueError
      end
  | _ => Raise TypeError
  end.

#[local] Instance IsoDates : Pandas := {|
  Timestamp := Z;
  to_datetime := iso_to_datetime;
  ts_le := fun a b => Ok (a <=? b)%Z
|}.

(** The regular expressions of an interpreter that knows no decimal
    digit beyond ASCII. *)
#[local] Instance AsciiDigits : UnicodeData := {|
  nd_beyond_ascii := fun _ => false
|}.

(** ** Vocabulary *)

(** The specification reads the start of a period from "the first
    present" of its keys: the value of the first key, in the order
    given, that the object has (nothing to read on any other value). *)
Fixpoint first_present_in (d : list (string * value)) (keys : list string) : value :=
  match keys with
  | [] => VNone
  | k :: keys' =>
      match lookup k d with
      | Some v => v
      | None => first_present_in d keys'
      end
  end.

Definition first_present (p : value) (keys : list string) : value :=
  match p with
  | VDict d => first_present_in d keys
  | _ => VNone
  end.

(** What [p.get(k1) or p.get(k2) or ...] evaluates to on an object: the
    first truthy value under the keys, in the order given, and the
    value under the last key when none is truthy. *)
Definition get_or_none (d : list (string * value)) (k : string) : value :=
  match lookup k d with Some v => v | None => VNone end.

Fixpoint first_truthy_in (d : list (string * value)) (keys : list string) : value :=
  match keys with
  | [] => VNone
  | [k] => get_or_none d k
  | k :: keys' => if truthy (get_or_none d k) then get_or_none d k else first_truthy_in d keys'
  end.

(** A period covers the instant in the sense of the specification:
    both ends parse and [parse(start) <= t <= parse(end)]. *)
Definition covering_as_specified {pandas : Pandas} (p : value) (t : Timestamp) : Prop :=
  exists s e,
    _parse_dt (first_present p ["start"; "start_time"; "from"]) = Some s /\
    _parse_dt (first_present p ["end"; "end_time"; "to"]) = Some e /\
    between s t e = Ok true.

(** Every row whose house number is missing stands after every row
    whose house number is known. *)
Definition missing_last {R : Type} (house_no : R -> value) (rows : list R) : Prop :=
  forall i j r1 r2,
    nth_error rows i = Some r1 -> nth_error rows j = Some r2 ->
    house_no r1 = VNone -> house_no r2 <> VNone ->
    (j < i)%nat.

(** The house number of a row is missing, or an integer below the
    stand-in 99. *)
Definition house_below_99 (house_no : value) : Prop :=
  house_no = VNone \/ exists z, house_no = VInt z /\ z < 99.

(** [n] decimal digits of the regular-expression engine. *)
Definition all_digits {unicode : UnicodeData} (n : nat) (s : ustr) : Prop :=
  List.length s = n /\ Forall (fun c => re_digit c = true) s.

(** The text has exactly the shape [YYYY-MM-DDTHH:MM:SS+HH:MM] (or with
    [-] before the offset), each letter standing for one decimal digit,
    and these are its year, month, day, time of day and offset. *)
Definition iso_shape {unicode : UnicodeData} (s : ustr)
    (year month day hms off : ustr) : Prop :=
  exists hh mi ss sg oh om,
    all_digits 4 year /\ all_digits 2 month /\ all_digits 2 day /\
    all_digits 2 hh /\ all_digits 2 mi /\ all_digits 2 ss /\
    (sg = N_of_ascii "+" \/ sg = N_of_ascii "-") /\
    all_digits 2 oh /\ all_digits 2 om /\
    hms = hh ++ u ":" ++ mi ++ u ":" ++ ss /\
    off = sg :: oh ++ u ":" ++ om /\
    s = year ++ u "-" ++ month ++ u "-" ++ day ++ u "T" ++ hms ++ off.

(** The text matches the pattern exactly. *)
Definition exact_iso {unicode : UnicodeData} (s : ustr) : Prop :=
  exists year month day hms off, iso_shape s year month day hms off.

(** The scenario of the specification for the dasha chain. *)
Definition ketu_venus_tree : value :=
  VDict [("mahadasha",
     VList [VDict [("name", VStr "Ketu");
                   ("start", VStr "2000-01-01");
                   ("end", VStr "2007-01-01");
                   ("antardasha",
                      VList [VDict [("name", VStr "Venus");
                                    ("start", VStr "2001-01-01");
                                    ("end", VStr "2002-01-01")]])]])].

(** HTTP 403 with the sandbox code in its body. *)
Definition forbidden_1004 : Response :=
  {| status_code := 403; reason := "Forbidden"; text := "";
     body_json := Some (VDict [("errors", VList [VDict [("code", VStr "1004")]])]) |}.

(** HTTP 400 with the sandbox code in its body. *)
Definition bad_request_1004 : Response :=
  {| status_code := 400; reason := "Bad Request"; text := "";
     body_json := Some (VDict [("errors", VList [VDict [("code", VStr "1004")]])]) |}.

(** Two successful responses, one for the chart and one with a JSON
    body. *)
Definition ok_svg : Response :=
  {| status_code := 200; reason := "OK"; text := "<svg/>"; body_json := None |}.

Definition ok_json : Response :=
  {| status_code := 200; reason := "OK"; text := "{}"; body_json := Some (VDict []) |}.

(** A remote side that answers the first request with [first] and any
    later one with [later]. *)
Definition answering (first later : Response) : transport :=
  fun sent _ => match sent with [] => Ok first | _ => Ok later end.

(** ** Vocabulary of the proofs *)

(** A comparison that never raises, from a boolean order. *)
Definition pure_lt {K : Type} (ltb : K -> K -> bool) (a b : K) : result bool :=
  Ok (ltb a b).

(** [x] may stand before [y]: the key of [y] is not below that of [x]. *)
Definition le_by {K A : Type} (ltb : K -> K -> bool) (x y : K * A) : Prop :=
  ltb (fst y) (fst x) = false.

(** The key of [y] is strictly below that of [x]. *)
Definition gt_by {K A : Type} (ltb : K -> K -> bool) (x y : K * A) : Prop :=
  ltb (fst y) (fst x) = true.

(** The pivot is not below the key of [x]. *)
Definition not_above {K A : Type} (ltb : K -> K -> bool) (pivot : K) (x : K * A) : Prop :=
  ltb pivot (fst x) = false.

(** The pivot is below the key of [x]. *)
Definition above {K A : Type} (ltb : K -> K -> bool) (pivot : K) (x : K * A) : Prop :=
  ltb pivot (fst x) = true.

(** A matcher is exact for a property of texts when it consumes
    precisely the prefixes with that property. *)
Definition exact (m : matcher) (P : ustr -> Prop) : Prop :=
  forall s a r, m s = Some (a, r) <-> (P a /\ s = a ++ r).

(** The time-of-day group. *)
Definition is_hms {unicode : UnicodeData} (t : ustr) : Prop :=
  exists hh mi ss,
    all_digits 2 hh /\ all_digits 2 mi /\ all_digits 2 ss /\
    t = hh ++ u ":" ++ mi ++ u ":" ++ ss.

(** The offset group. *)
Definition is_off {unicode : UnicodeData} (t : ustr) : Prop :=
  exists sg oh om,
    (sg = N_of_ascii "+" \/ sg = N_of_ascii "-") /\
    all_digits 2 oh /\ all_digits 2 om /\
    t = sg :: oh ++ u ":" ++ om.

(** The integer a house number stands for in a sort key. *)
Definition int_of (v : value) : Z :=
  match v with VInt z => z | _ => 0 end.

(** The order of the keys of planet rows whose house number is an
    integer: by the integer, then by the name. *)
Definition key_ltb (a b : value * string) : bool :=
  if (int_of (fst a) =? int_of (fst b))%Z
  then str_lt (snd a) (snd b)
  else (int_of (fst a) <? int_of (fst b))%Z.

(** The first component of the key is an integer. *)
Definition int_key (k : value * string) : Prop := exists z, fst k = VInt z.

(** The order of the keys of house rows: by the integer alone. *)
Definition int_ltb (a b : value) : bool := (int_of a <? int_of b)%Z.

Definition is_int (v : value) : Prop := exists z, v = VInt z.

(** A period that is absent, or an object whose child key is missing,
    null or empty, has no children to look into. *)
Definition childless (cur : value) (k : string) : Prop :=
  cur = VNone \/ exists d, cur = VDict d /\ truthy (get_or_none d k) = false.

(** Two overlapping periods, neither sorted nor disjoint, after one with
    an unreadable end. *)
Definition overlapping_periods : list value :=
  [VDict [("start", VStr "2001-01-01"); ("end", VStr "soon")];
   VDict [("from", VStr "2001-05-01"); ("to", VStr "2003-01-01"); ("name", VStr "late")];
   VDict [("start", VStr "2000-01-01"); ("end", VStr "2007-01-01"); ("name", VStr "early")]].

(** A response whose only mahadasha ended before the instant. *)
Definition past_tree : value :=
  VDict [("data", VDict [("periods",
     VList [VDict [("name", VStr "Sun"); ("start", VStr "1990-01-01");
                   ("end", VStr "1996-01-01")]])])].

(** The response with a planet without a house before a planet in
    house 100. *)
Definition house_100_response : value :=
  VDict [("planets",
     VList [VDict [("name", VStr "Sun")];
            VDict [("name", VStr "Moon"); ("house", VDict [("number", VInt 100)])]])].

(** The same with the second planet in a house given as text. *)
Definition house_as_text_response : value :=
  VDict [("planets",
     VList [VDict [("name", VStr "Sun")];
            VDict [("name", VStr "Moon"); ("house", VDict [("number", VStr "7")])]])].

(** Five planet rows out of order, two of them without a house. *)
Definition unsorted_kp_rows : list kp_row :=
  map (fun hp =>
         {| p_House_No := fst hp; p_Planet := VStr (snd hp); p_Planet_Vedic := VStr "";
            p_Rasi := VNone; p_Rasi_Lord := VNone; p_Nakshatra := VNone;
            p_Nakshatra_Lord := VNone; p_Pada := VNone; p_Degree := VNone;
            p_Retro := VBool false |})
      [(VNone, "Rahu"); (VInt 7, "Sun"); (VNone, "Ketu"); (VInt 1, "Moon"); (VInt 7, "Mars")].

(** Houses 1, 3, 2 and then a house given as text. *)
Definition mixed_houses_response : value :=
  VDict [("houses",
     VList [VDict [("number", VInt 1)]; VDict [("number", VInt 3)];
            VDict [("number", VInt 2)]; VDict [("number", VStr "x")]])].

(** A planet element that says nothing about its motion. *)
Definition silent_planet : value := VDict [("name", VStr "Sun")].

(** The keys a planet element of [flatten_kundli_planets] is read by. *)
Definition kundli_planet_keys : list string :=
  ["planet"; "name"; "vedic_name"; "sign"; "rasi"; "zodiac"; "nakshatra"; "pada";
   "degree"; "longitude"; "position"; "house"; "retro"; "is_retro"; "motion"].

(** The keys a planet element of [flatten_divisional_positions] is read by. *)
Definition div_planet_keys : list string :=
  ["planet"; "nakshatra"; "pada"; "degree"; "longitude"; "position";
   "retro"; "is_retro"; "motion"].

(** The keys a house element of [flatten_divisional_positions] is read by. *)
Definition div_house_keys : list string := ["house"; "rasi"; "planet_positions"].

(** The keys a house element of [flatten_kundli_houses] is read by. *)
Definition kundli_house_keys : list string :=
  ["house"; "number"; "name"; "rasi"; "sign"; "degree"; "longitude"; "cusp"].

(** The object has none of the keys. *)
Definition none_of (keys : list string) (d : list (string * value)) : Prop :=
  Forall (fun k => lookup k d = None) keys.

(** Every field of a planet row but the retrograde one is unknown, the
    vedic name being the empty text the code puts for it. *)
Definition kp_unknown_but_retro (r : kp_row) : Prop :=
  p_House_No r = VNone /\ p_Planet r = VNone /\ p_Planet_Vedic r = VStr "" /\
  p_Rasi r = VNone /\ p_Rasi_Lord r = VNone /\ p_Nakshatra r = VNone /\
  p_Nakshatra_Lord r = VNone /\ p_Pada r = VNone /\ p_Degree r = VNone.

(** The same for a row of the divisional table, whose first four fields
    come from the house the planet stands in. *)
Definition div_unknown_but_retro (hno hname rasi lord : value) (r : div_row) : Prop :=
  d_House_No r = hno /\ d_House r = hname /\ d_Rasi r = rasi /\ d_Rasi_Lord r = lord /\
  d_Planet r = VNone /\ d_Planet_Vedic r = VStr "" /\ d_Nakshatra r = VNone /\
  d_Nakshatra_Lord r = VNone /\ d_Pada r = VNone /\ d_Degree r = VNone.


(* ================================================================== *)
(** * kundli_services.py: the token cache                              *)
(* ================================================================== *)

(** [int(s)] on a text is the interpreter's: surrounding blanks, a
    sign, underscores and the decimal digits of other scripts are all
    read.  It is an interface here. *)
Class Builtins : Type := {
  int_of_str : string -> result Z
}.

Module Token.

(** [_get_token] can meet exceptions beyond those of the helpers
    above: a missing key under a subscript, and the overflow of the
    date arithmetic. *)
Inductive token_exn : Type :=
| Builtin (e : exn)
| KeyError (key : string)
| OverflowError.

Inductive outcome (A : Type) : Type :=
| Returns (a : A)
| Raises (e : token_exn).
Arguments Returns {A} a.
Arguments Raises {A} e.

Definition lift {A : Type} (r : result A) : outcome A :=
  match r with
  | Ok a => Returns a
  | Raise e => Raises (Builtin e)
  end.

Definition and_then {A B : Type} (m : outcome A) (k : A -> outcome B) : outcome B :=
  match m with
  | Returns a => k a
  | Raises e => Raises e
  end.

(** [data[k]]: a dict without the key raises [KeyError]; the other JSON
    values cannot be subscripted by a text. *)
Definition subscript (data : value) (k : string) : outcome value :=
  match data with
  | VDict d =>
      match lookup k d with
      | Some v => Returns v
      | None => Raises (KeyError k)
      end
  | _ => Raises (Builtin TypeError)
  end.

(** [int(v)] on a JSON value. *)
Definition py_int {builtins : Builtins} (v : value) : outcome Z :=
  match v with
  | VInt z => Returns z
  | VBool b => Returns (Z.b2z b)
  | VStr s => lift (int_of_str s)
  | _ => Raises (Builtin TypeError)
  end.

(** A [datetime] is counted in microseconds from 0001-01-01T00:00:00;
    the last one is 9999-12-31T23:59:59.999999. *)
Definition datetime_max : Z := 3652059 * 86400 * 1000000 - 1.

(** [dt.timedelta(seconds=n)], in microseconds: the whole days of the
    span must not exceed 999999999 in magnitude. *)
Definition timedelta_seconds (n : Z) : outcome Z :=
  if (-999999999 <=? n / 86400)%Z && (n / 86400 <=? 999999999)%Z
  then Returns (n * 1000000)
  else Raises OverflowError.

(** [t + delta]: the result must be a [datetime]. *)
Definition datetime_add (t delta : Z) : outcome Z :=
  if (0 <=? t + delta)%Z && (t + delta <=? datetime_max)%Z
  then Returns (t + delta)
  else Raises OverflowError.

(** [_TOKEN_CACHE], the one cache of the process. *)
Record cache : Type := {
  access_token : value;
  expires_at : option Z
}.

(** The cache as the module creates it. *)
Definition empty_cache : cache := {| access_token := VNone; expires_at := None |}.

(** [_TOKEN_CACHE["access_token"] and _TOKEN_CACHE["expires_at"] and
    now < _TOKEN_CACHE["expires_at"]]. *)
Definition cache_hit (c : cache) (now : Z) : bool :=
  truthy (access_token c) &&
  match expires_at c with
  | Some e => (now <? e)%Z
  | None => false
  end.

(** What a call of [_get_token] leaves behind: what it returned or
    raised, the cache, and whether the token request was sent. *)
Record call : Type := {
  result_of : outcome value;
  cache_after : cache;
  posted : bool
}.

Section GetToken.
Context {builtins : Builtins}.

(** [_get_token] (lines 34-51).  [post] is what [requests.post] does
    when it is called, [now] is [utcnow()], [c] the cache before. *)
Definition _get_token (post : result Response) (now : Z) (c : cache) : call :=
  if cache_hit c now
  then {| result_of := Returns (access_token c); cache_after := c; posted := false |}
  else
    let parsed :=
      and_then (lift post) (fun resp =>
      and_then (lift (raise_for_status resp)) (fun _ =>
      and_then (lift (json resp)) (fun data =>
      and_then (subscript data "access_token") (fun token =>
      and_then (and_then (lift (get_default data "expires_in" (VInt 3600))) py_int)
        (fun expires_in => Returns (token, expires_in)))))) in
    match parsed with
    | Raises e => {| result_of := Raises e; cache_after := c; posted := true |}
    | Returns (token, expires_in) =>
        let c1 := {| access_token := token; expires_at := expires_at c |} in
        match and_then (timedelta_seconds (expires_in - 60)) (datetime_add now) with
        | Raises e => {| result_of := Raises e; cache_after := c1; posted := true |}
        | Returns e =>
            {| result_of := Returns token;
               cache_after := {| access_token := token; expires_at := Some e |};
               posted := true |}
        end
    end.

End GetToken.

End Token.

(* ================================================================== *)
(** * kundli_services.py: the local time with its offset               *)
(* ================================================================== *)

Module LocalTime.

(** The decimal digits of a number, most significant first. *)
Fixpoint dec_aux (fuel : nat) (n : N) : ustr :=
  match fuel with
  | O => []
  | S fuel' =>
      (if (n <? 10)%N then [] else dec_aux fuel' (n / 10)%N) ++ [(48 + n mod 10)%N]
  end.

Definition dec (n : N) : ustr := dec_aux (S (N.to_nat (N.log2 n))) n.

(** How [strftime] writes a year below 1000 differs between platforms
    (with or without leading zeros); a year of four digits is written
    as it is everywhere. *)
Class Strftime : Type := {
  year_text : N -> ustr;
  year_text_four_digits : forall y, (1000 <= y <= 9999)%N -> year_text y = dec y
}.

(** A [datetime.date] and a [datetime.time]. *)
Record date : Type := { year : N; month : N; day : N }.

Record time : Type := { hour : N; minute : N; second : N; microsecond : N }.

(** The offset from UTC, in seconds, that a time zone gives to a local
    date and time: once through [zoneinfo], once through [pytz].  Either
    may raise (an unknown zone, a missing module). *)
Class TzData : Type := {
  zoneinfo_utcoffset : string -> date -> time -> result Z;
  pytz_utcoffset : string -> date -> time -> result Z
}.

(** Zeros in front, up to a width. *)
Definition zfill (width : nat) (s : ustr) : ustr :=
  repeat 48%N (width - List.length s) ++ s.

(** A field written on two digits at least, as [%m], [%d], [%H], [%M]
    and [%S] are. *)
Definition pad2 (n : N) : ustr := zfill 2 (dec n).

(** [s[:-2]] and [s[-2:]]. *)
Definition but_last_two (s : ustr) : ustr := firstn (List.length s - 2) s.
Definition last_two (s : ustr) : ustr := skipn (List.length s - 2) s.

(** [%z]: sign, hours and minutes, and the seconds when there are any. *)
Definition format_utcoffset (offset : Z) : ustr :=
  let sign := if (offset <? 0)%Z then N_of_ascii "-" else N_of_ascii "+" in
  let a := Z.to_N (Z.abs offset) in
  let seconds := (a mod 60)%N in
  let minutes := ((a / 60) mod 60)%N in
  let hours := (a / 3600)%N in
  sign :: pad2 hours ++ pad2 minutes
       ++ (if (seconds =? 0)%N then [] else pad2 seconds).

Section WithPlatform.
Context {platform : Strftime} {tzdata : TzData}.

(** [strftime("%Y-%m-%dT%H:%M:%S")]. *)
Definition stamp (d : date) (t : time) : ustr :=
  year_text (year d) ++ u "-" ++ pad2 (month d) ++ u "-" ++ pad2 (day d)
    ++ u "T" ++ pad2 (hour t) ++ u ":" ++ pad2 (minute t) ++ u ":" ++ pad2 (second t).

(** [local_birth_to_iso_with_offset] (lines 288-303): the [zoneinfo]
    route, and the [pytz] route when that one raises. *)
Definition local_birth_to_iso_with_offset (birth_date : date) (birth_time : time)
    (tz_name : string) : result ustr :=
  match zoneinfo_utcoffset tz_name birth_date birth_time with
  | Ok off =>
      let s := stamp birth_date birth_time ++ format_utcoffset off in
      Ok (but_last_two s ++ u ":" ++ last_two s)
  | Raise _ =>
      off <- pytz_utcoffset tz_name birth_date birth_time ;;
      let offset := format_utcoffset off in
      let offset := but_last_two offset ++ u ":" ++ last_two offset in
      Ok (stamp birth_date birth_time ++ offset)
  end.

End WithPlatform.

End LocalTime.

(* ================================================================== *)
(** * app.py: the kundli summary                                       *)
(* ================================================================== *)

Module Summary.

(** The dash shown when nothing is known about the dosha (U+2014). *)
Definition em_dash : string :=
  String (ascii_of_N 226) (String (ascii_of_N 128) (String (ascii_of_N 148) EmptyString)).

(** A row of the yogas table. *)
Record yoga_row : Type := { Category : value; Description : value }.

(** What [extract_kundli_summary] returns: the one row of the summary
    table as its columns in order, the rows of the yogas table, and the
    text about the mangal dosha. *)
Record summary : Type := {
  summary_row : list (string * value);
  yoga_rows : list yoga_row;
  mangal_text : value
}.

(** [v is True] and [v is False]. *)
Definition is_True (v : value) : bool :=
  match v with VBool true => true | _ => false end.

Definition is_False (v : value) : bool :=
  match v with VBool false => true | _ => false end.

(** The element of the list comprehension over the yogas. *)
Definition yoga_of (y : value) : result yoga_row :=
  name <- get y "name" ;;
  description <- get y "description" ;;
  Ok {| Category := name; Description := description |}.

(** Lines 190-196. *)
Definition mangal_of (md : value) : result value :=
  has_dosha <- get md "has_dosha" ;;
  if is_True has_dosha then get md "description" or Ok (VStr "Manglik")
  else if is_False has_dosha then get md "description" or Ok (VStr "Not Manglik")
  else Ok (VStr em_dash).

(** [extract_kundli_summary] (lines 152-198). *)
Definition extract_kundli_summary (resp_json : value) : result summary :=
  root <- get_default resp_json "data" resp_json ;;
  nk <- or_empty_dict (get root "nakshatra_details") ;;
  nak <- or_empty_dict (get nk "nakshatra") ;;
  chandra_rasi <- or_empty_dict (get nk "chandra_rasi") ;;
  soorya_rasi <- or_empty_dict (get nk "soorya_rasi") ;;
  zodiac <- or_empty_dict (get nk "zodiac") ;;
  add <- or_empty_dict (get nk "additional_info") ;;
  c1 <- get nak "name" ;;
  c2 <- get nak "pada" ;;
  c3 <- get chandra_rasi "name" ;;
  c4 <- get soorya_rasi "name" ;;
  c5 <- get zodiac "name" ;;
  c6 <- get add "deity" ;;
  c7 <- get add "ganam" ;;
  c8 <- get add "symbol" ;;
  c9 <- get add "animal_sign" ;;
  c10 <- get add "nadi" ;;
  c11 <- get add "color" ;;
  c12 <- get add "best_direction" ;;
  c13 <- get add "syllables" ;;
  c14 <- get add "birth_stone" ;;
  c15 <- get add "gender" ;;
  c16 <- get add "planet" ;;
  c17 <- get add "enemy_yoni" ;;
  yogas <- or_empty_list (get root "yoga_details") ;;
  ys <- iter yogas ;;
  rows <- for_each yoga_of ys ;;
  md <- or_empty_dict (get root "mangal_dosha") ;;
  mangal <- mangal_of md ;;
  Ok {| summary_row :=
          [("Moon Nakshatra", c1); ("Pada", c2); ("Chandra Rasi", c3);
           ("Soorya Rasi", c4); ("Zodiac (Tropical)", c5); ("Deity", c6);
           ("Gana", c7); ("Symbol", c8); ("Animal Sign", c9); ("Nadi", c10);
           ("Color", c11); ("Best Direction", c12); ("Syllables", c13);
           ("Birth Stone", c14); ("Gender", c15);
           ("Planet (Nakshatra Lord)", c16); ("Enemy Yoni", c17)];
        yoga_rows := rows;
        mangal_text := mangal |}.

End Summary.

(* ================================================================== *)
(** * Stand-ins and vocabulary of the further properties               *)
(* ================================================================== *)

Import Token LocalTime Summary.

(** A house number that is missing or an integer. *)
Definition house_int_or_missing (house_no : value) : Prop :=
  house_no = VNone \/ exists z, house_no = VInt z.

(** The key [k1] may stand before the key [k2]: its house is lower, or
    the houses are the same and the name of [k2] is not below that of
    [k1]. *)
Definition in_key_order (k1 k2 : value * string) : Prop :=
  int_of (fst k1) < int_of (fst k2) \/
  (int_of (fst k1) = int_of (fst k2) /\ str_lt (snd k2) (snd k1) = false).

(** A period that [dasha_rows_for_display] can show: nothing, or an
    object that has a name or whose [planet] is an object or nothing. *)
Definition displayable (obj : value) : Prop :=
  truthy obj = false \/
  exists d, obj = VDict d /\
            (truthy (get_or_none d "name") = true \/
             truthy (get_or_none d "planet") = false \/
             isinstance_dict (get_or_none d "planet") = true).

(** The row of a level at which there is no period. *)
Definition blank_row (level : string) : level_row :=
  {| Level := level; Lord := VNone; Start := VNone; End_ := VNone |}.

(** A platform that writes a year without leading zeros. *)
#[local] Instance Unpadded : Strftime := {|
  year_text := dec;
  year_text_four_digits := fun _ _ => eq_refl
|}.

(** A time zone database in which every zone has the one offset, known
    to [zoneinfo]. *)
Definition fixed_offset (off : Z) : TzData := {|
  zoneinfo_utcoffset := fun _ _ _ => Ok off;
  pytz_utcoffset := fun _ _ _ => Ok off
|}.

(** A time zone database reached through [pytz] only. *)
Definition pytz_only (off : Z) : TzData := {|
  zoneinfo_utcoffset := fun _ _ _ => Raise ValueError;
  pytz_utcoffset := fun _ _ _ => Ok off
|}.

(** An [int] that reads plain decimal digits only. *)
#[local] Instance PlainInt : Builtins := {|
  int_of_str := fun s =>
    match s with
    | EmptyString => Raise ValueError
    | _ => match number 0 (list_ascii_of_string s) with
           | Some z => Ok z
           | None => Raise ValueError
           end
    end
|}.

(** The birth date and time the form proposes. *)
Definition default_birth_date : date := {| year := 2001; month := 12; day := 29 |}.
Definition default_birth_time : time :=
  {| hour := 6; minute := 6; second := 0; microsecond := 0 |}.

(** A token response: status 200 and a JSON body with a token that
    lives for [expires_in] seconds. *)
Definition token_response (token : string) (expires_in : Z) : Response :=
  {| status_code := 200; reason := "OK"; text := "";
     body_json := Some (VDict [("access_token", VStr token);
                               ("expires_in", VInt expires_in)]) |}.

(** The names under which the root is searched for the list of
    mahadasha periods, and those tried one level down. *)
Definition period_aliases : list string :=
  ["periods"; "dasha_periods"; "dasha"; "mahadasha"; "maha_dasha"; "md"].
Definition nested_aliases : list string := ["periods"; "dasha_periods"; "mahadasha"].

(** The key holds a list. *)
Definition holds_list (d : list (string * value)) (k : string) : bool :=
  isinstance_list (get_or_none d k).

(** A root with a list nested under a named object before a list under
    the alias [md]. *)
Definition nested_before_alias : list (string * value) :=
  [("vimshottari", VDict [("periods", VList [VStr "nested"])]);
   ("periods", VStr "none here");
   ("md", VList [VStr "direct"])].

(** A row without a period: level aside, it says nothing. *)
Definition says_nothing (r : level_row) : Prop :=
  Lord r = VNone /\ Start r = VNone /\ End_ r = VNone.

(** A token response whose [expires_in] is null. *)
Definition null_expiry_body : list (string * value) :=
  [("access_token", VStr "abc"); ("expires_in", VNone)].
Definition null_expiry_response : Response :=
  {| status_code := 200; reason := "OK"; text := "";
     body_json := Some (VDict null_expiry_body) |}.

(** [n] ASCII digits. *)
Definition is_ascii_digit (c : N) : bool := (48 <=? c)%N && (c <=? 57)%N.
Definition ascii_digits (n : nat) (s : ustr) : bool :=
  (List.length s =? n)%nat && forallb is_ascii_digit s.

(** The numbers below [n]. *)
Definition upto (n : N) : list N := map N.of_nat (List.seq 0%nat (N.to_nat n)).

(** The fields of a [date] and a [time] in their ranges, the year
    having four digits. *)
Definition four_digit_year (d : date) : Prop := (1000 <= year d <= 9999)%N.
Definition in_range (d : date) (t : time) : Prop :=
  (1 <= month d <= 12)%N /\ (1 <= day d <= 31)%N /\
  (hour t < 24)%N /\ (minute t < 60)%N /\ (second t < 60)%N.

(** The parts of an offset from UTC: its sign as [%z] writes it, its
    hours, minutes and seconds. *)
Definition offset_sign (off : Z) : N :=
  if (off <? 0)%Z then N_of_ascii "-" else N_of_ascii "+".
Definition offset_hours (off : Z) : N := (Z.to_N (Z.abs off) / 3600)%N.
Definition offset_minutes (off : Z) : N := ((Z.to_N (Z.abs off) / 60) mod 60)%N.
Definition offset_seconds (off : Z) : N := (Z.to_N (Z.abs off) mod 60)%N.

(** The time zone gives the offset [off], through [zoneinfo] or, that
    one failing, through [pytz]. *)
Definition offset_found {tzdata : TzData} (tz_name : string) (d : date) (t : time)
    (off : Z) : Prop :=
  zoneinfo_utcoffset tz_name d t = Ok off \/
  (exists e, zoneinfo_utcoffset tz_name d t = Raise e) /\
  pytz_utcoffset tz_name d t = Ok off.

(** A text with a colon put before its last two characters. *)
Definition with_colon (s : ustr) : ustr := but_last_two s ++ u ":" ++ last_two s.

(** The time of day as [%H:%M:%S] writes it. *)
Definition hms_text (t : time) : ustr :=
  pad2 (hour t) ++ u ":" ++ pad2 (minute t) ++ u ":" ++ pad2 (second t).

(** The names of the columns of the summary table, in their order. *)
Definition summary_columns : list string :=
  ["Moon Nakshatra"; "Pada"; "Chandra Rasi"; "Soorya Rasi"; "Zodiac (Tropical)";
   "Deity"; "Gana"; "Symbol"; "Animal Sign"; "Nadi"; "Color"; "Best Direction";
   "Syllables"; "Birth Stone"; "Gender"; "Planet (Nakshatra Lord)"; "Enemy Yoni"].

(** A value that is a JSON boolean. *)
Definition is_bool (v : value) : bool :=
  match v with VBool _ => true | _ => false end.

(** A section of the response that is an object, or is missing, null
    or otherwise falsy. *)
Definition object_or_falsy (v : value) : Prop :=
  truthy v = false \/ exists d, v = VDict d.

(** A birth at a time when the zone still kept a local mean time. *)
Definition old_birth_date : date := {| year := 1900; month := 1; day := 1 |}.

(** The names under which the planets and the houses of a kundli
    response are looked for. *)
Definition planet_list_keys : list string :=
  ["planets"; "planet_positions"; "grahas"; "graha_positions"; "bodies"].
Definition house_list_keys : list string :=
  ["houses"; "bhavas"; "house_positions"; "bhava_positions"].

(** A response with an empty list under [planets] and a planet under
    [grahas]. *)
Definition empty_before_full : list (string * value) :=
  [("grahas", VList [VDict [("name", VStr "Sun")]]); ("planets", VList [])].

(* ================================================================== *)
(** * Properties of the date substitution                              *)
(* ================================================================== *)

Section RegexFacts.
Context {unicode : UnicodeData}.

Lemma exact_class (ok : N -> bool) :
  exact (class ok) (fun a => exists c, a = [c] /\ ok c = true).
Proof.
  intros s a r; unfold class; split.
  - destruct s as [|c s']; [discriminate|].
    destruct (ok c) eqn:E; [|discriminate].
    intros H; injection H as <- <-. split; [exists c; auto | reflexivity].
  - intros [[c [-> Hc]] ->]. simpl. now rewrite Hc.
Qed.

Lemma exact_seq (m1 m2 : matcher) (P1 P2 : ustr -> Prop) :
  exact m1 P1 -> exact m2 P2 ->
  exact (seq m1 m2) (fun a => exists a1 a2, a = a1 ++ a2 /\ P1 a1 /\ P2 a2).
Proof.
  intros H1 H2 s a r; unfold seq; split.
  - destruct (m1 s) as [[a1 r1]|] eqn:E1; [|discriminate].
    destruct (m2 r1) as [[a2 r2]|] eqn:E2; [|discriminate].
    intros H; injection H as <- <-.
    apply H1 in E1 as [Q1 ->]. apply H2 in E2 as [Q2 ->].
    split; [exists a1, a2; auto | now rewrite app_assoc].
  - intros [(a1 & a2 & -> & Q1 & Q2) ->].
    rewrite <- app_assoc.
    rewrite (proj2 (H1 _ a1 (a2 ++ r)) (conj Q1 eq_refl)).
    now rewrite (proj2 (H2 _ a2 r) (conj Q2 eq_refl)).
Qed.

Lemma exact_ext (m : matcher) (P Q : ustr -> Prop) :
  exact m P -> (forall a, P a <-> Q a) -> exact m Q.
Proof.
  intros H HPQ s a r. rewrite (H s a r). now rewrite HPQ.
Qed.

Lemma exact_digits (n : nat) : exact (digits n) (all_digits n).
Proof.
  induction n as [|n IH].
  - intros s a r; simpl; unfold all_digits; split.
    + intros H; injection H as <- <-. repeat split; constructor.
    + intros [[Hl _] ->]. destruct a; [reflexivity | discriminate].
  - simpl. eapply exact_ext.
    + apply exact_seq; [apply exact_class | exact IH].
    + intros a; unfold all_digits; split.
      * intros (a1 & a2 & -> & (c & -> & Hc) & Hl & Hd). simpl. split.
        -- now rewrite Hl.
        -- now constructor.
      * intros [Hl Hd]. destruct a as [|c a']; [discriminate|].
        exists [c], a'. inversion Hd; subst. simpl in Hl.
        repeat split; eauto.
Qed.

Lemma exact_chr (a : ascii) : exact (chr a) (fun t => t = [N_of_ascii a]).
Proof.
  eapply exact_ext; [apply exact_class|].
  intros t; split.
  - intros (c & -> & Hc). apply N.eqb_eq in Hc. now subst.
  - intros ->. exists (N_of_ascii a). split; [reflexivity | apply N.eqb_refl].
Qed.

Lemma exact_sign :
  exact sign (fun t => exists sg, t = [sg] /\ (sg = N_of_ascii "+" \/ sg = N_of_ascii "-")).
Proof.
  eapply exact_ext; [apply exact_class|].
  intros t; split.
  - intros (c & -> & Hc). exists c. split; [reflexivity|].
    apply orb_true_iff in Hc as [Hc|Hc]; apply N.eqb_eq in Hc; auto.
  - intros (sg & -> & Hs). exists sg. split; [reflexivity|].
    apply orb_true_iff. destruct Hs as [->| ->]; [left | right]; reflexivity.
Qed.

Lemma exact_hms :
  exact (seq (seq (seq (seq (digits 2) (chr ":")) (digits 2)) (chr ":")) (digits 2)) is_hms.
Proof.
  eapply exact_ext.
  - apply exact_seq; [apply exact_seq; [apply exact_seq; [apply exact_seq;
      [apply (exact_digits 2) | apply exact_chr] | apply (exact_digits 2)]
      | apply exact_chr] | apply (exact_digits 2)].
  - intros t; unfold is_hms; split.
    + intros (x4 & ss & -> & (x3 & c2 & -> & (x2 & mi & -> & (hh & c1 & -> & H1 & ->) & H2) & ->) & H3).
      exists hh, mi, ss. repeat split; try apply H1; try apply H2; try apply H3.
      now rewrite <- !app_assoc.
    + intros (hh & mi & ss & H1 & H2 & H3 & ->).
      exists (((hh ++ u ":") ++ mi) ++ u ":"), ss. split; [now rewrite <- !app_assoc|].
      split; [|exact H3].
      exists ((hh ++ u ":") ++ mi), (u ":"). split; [reflexivity|]. split; [|reflexivity].
      exists (hh ++ u ":"), mi. split; [reflexivity|]. split; [|exact H2].
      exists hh, (u ":"). auto.
Qed.

Lemma exact_off :
  exact (seq (seq (seq sign (digits 2)) (chr ":")) (digits 2)) is_off.
Proof.
  eapply exact_ext.
  - apply exact_seq; [apply exact_seq; [apply exact_seq;
      [apply exact_sign | apply (exact_digits 2)] | apply exact_chr]
      | apply (exact_digits 2)].
  - intros t; unfold is_off; split.
    + intros (x3 & om & -> & (x2 & c & -> & (x1 & oh & -> & (sg & -> & Hs) & H1) & ->) & H2).
      exists sg, oh, om. repeat split; try apply H1; try apply H2; try exact Hs.
      now rewrite <- !app_assoc.
    + intros (sg & oh & om & Hs & H1 & H2 & ->).
      exists (([sg] ++ oh) ++ u ":"), om. split; [now rewrite <- !app_assoc|].
      split; [|exact H2].
      exists ([sg] ++ oh), (u ":"). split; [reflexivity|]. split; [|reflexivity].
      exists [sg], oh. split; [reflexivity|]. split; [|exact H1].
      exists sg. auto.
Qed.

Lemma iso_shape_parts (s year month day hms off : ustr) :
  iso_shape s year month day hms off <->
  (all_digits 4 year /\ all_digits 2 month /\ all_digits 2 day /\
   is_hms hms /\ is_off off /\
   s = year ++ u "-" ++ month ++ u "-" ++ day ++ u "T" ++ hms ++ off).
Proof.
  unfold iso_shape, is_hms, is_off; split.
  - intros (hh & mi & ss & sg & oh & om & Hy & Hm & Hd & H1 & H2 & H3 & Hs & H4 & H5 & -> & -> & ->).
    repeat split; try apply Hy; try apply Hm; try apply Hd.
    + exists hh, mi, ss. repeat split; try apply H1; try apply H2; try apply H3.
    + exists sg, oh, om. repeat split; try apply H4; try apply H5; exact Hs.
  - intros (Hy & Hm & Hd & (hh & mi & ss & H1 & H2 & H3 & ->) & (sg & oh & om & Hs & H4 & H5 & ->) & ->).
    exists hh, mi, ss, sg, oh, om. repeat split;
      try apply Hy; try apply Hm; try apply Hd; try apply H1; try apply H2;
      try apply H3; try apply H4; try apply H5; exact Hs.
Qed.

(** What [re.match] accepts: a text of the exact shape, followed by
    nothing or by one newline. *)
Lemma re_match_spec (s year month day hms off : ustr) :
  re_match s = Some (year, month, day, hms, off) <->
  exists s0 tail,
    iso_shape s0 year month day hms off /\ s = s0 ++ tail /\ dollar tail = true.
Proof.
  unfold re_match; split.
  - destruct (digits 4 s) as [[y r1]|] eqn:E1; [|discriminate].
    destruct (chr "-" r1) as [[c1 r2]|] eqn:E2; [|discriminate].
    destruct (digits 2 r2) as [[mo r3]|] eqn:E3; [|discriminate].
    destruct (chr "-" r3) as [[c2 r4]|] eqn:E4; [|discriminate].
    destruct (digits 2 r4) as [[d r5]|] eqn:E5; [|discriminate].
    destruct (chr "T" r5) as [[c3 r6]|] eqn:E6; [|discriminate].
    destruct (seq (seq (seq (seq (digits 2) (chr ":")) (digits 2)) (chr ":")) (digits 2) r6)
      as [[h r7]|] eqn:E7; [|discriminate].
    destruct (seq (seq (seq sign (digits 2)) (chr ":")) (digits 2) r7)
      as [[o r8]|] eqn:E8; [|discriminate].
    destruct (dollar r8) eqn:E9; [|discriminate].
    intros H; injection H as <- <- <- <- <-.
    apply exact_digits in E1 as [Hy ->]. apply exact_chr in E2 as [-> ->].
    apply exact_digits in E3 as [Hm ->]. apply exact_chr in E4 as [-> ->].
    apply exact_digits in E5 as [Hd ->]. apply exact_chr in E6 as [-> ->].
    apply exact_hms in E7 as [Hh ->]. apply exact_off in E8 as [Ho ->].
    exists (y ++ u "-" ++ mo ++ u "-" ++ d ++ u "T" ++ h ++ o), r8.
    split; [apply iso_shape_parts; repeat split; assumption || apply Hy || apply Hm || apply Hd|].
    split; [|exact E9].
    now rewrite <- !app_assoc.
  - intros (s0 & tail & Hs & -> & Ht).
    apply iso_shape_parts in Hs as (Hy & Hm & Hd & Hh & Ho & ->).
    rewrite <- !app_assoc.
    rewrite (proj2 (exact_digits 4 _ year _) (conj Hy eq_refl)).
    rewrite (proj2 (exact_chr "-" _ (u "-") _) (conj eq_refl eq_refl)).
    rewrite (proj2 (exact_digits 2 _ month _) (conj Hm eq_refl)).
    rewrite (proj2 (exact_chr "-" _ (u "-") _) (conj eq_refl eq_refl)).
    rewrite (proj2 (exact_digits 2 _ day _) (conj Hd eq_refl)).
    rewrite (proj2 (exact_chr "T" _ (u "T") _) (conj eq_refl eq_refl)).
    rewrite (proj2 (exact_hms _ hms _) (conj Hh eq_refl)).
    rewrite (proj2 (exact_off _ off _) (conj Ho eq_refl)).
    now rewrite Ht.
Qed.

Lemma all_digits_length (n : nat) (a : ustr) : all_digits n a -> List.length a = n.
Proof. now intros [H _]. Qed.

Lemma iso_shape_length (s year month day hms off : ustr) :
  iso_shape s year month day hms off -> List.length s = 25%nat.
Proof.
  intros (hh & mi & ss & sg & oh & om & Hy & Hm & Hd & H1 & H2 & H3 & _ & H4 & H5 & -> & -> & ->).
  repeat (rewrite ?length_app; simpl).
  rewrite (all_digits_length _ _ Hy), (all_digits_length _ _ Hm), (all_digits_length _ _ Hd),
    (all_digits_length _ _ H1), (all_digits_length _ _ H2), (all_digits_length _ _ H3),
    (all_digits_length _ _ H4), (all_digits_length _ _ H5).
  reflexivity.
Qed.

Lemma dollar_tail (tail : ustr) : dollar tail = true -> tail = [] \/ tail = [10%N].
Proof.
  destruct tail as [|c [|c' t]]; simpl; try discriminate; auto.
  intros H; apply N.eqb_eq in H; subst; auto.
Qed.

Lemma force_jan1_on_shape (s year month day hms off : ustr) :
  iso_shape s year month day hms off ->
  _force_jan1 s = year ++ u "-01-01T" ++ hms ++ off.
Proof.
  intros H. unfold _force_jan1.
  rewrite (proj2 (re_match_spec s year month day hms off)); [reflexivity|].
  exists s, []. rewrite app_nil_r. repeat split; assumption.
Qed.

Lemma force_jan1_off_shape (s : ustr) :
  ~ exact_iso s -> (forall s0, exact_iso s0 -> s <> s0 ++ [10%N]) -> _force_jan1 s = s.
Proof.
  intros Hn Hnl. unfold _force_jan1.
  destruct (re_match s) as [[[[[y mo] d] h] o]|] eqn:E; [|reflexivity].
  exfalso. apply re_match_spec in E as (s0 & tail & Hs & -> & Ht).
  apply dollar_tail in Ht as [-> | ->].
  - rewrite app_nil_r in Hn. apply Hn. now exists y, mo, d, h, o.
  - apply (Hnl s0); [now exists y, mo, d, h, o | reflexivity].
Qed.

End RegexFacts.

(* ================================================================== *)
(** * Properties of the sort                                           *)
(* ================================================================== *)

Section SortPermutes.
Context {K A : Type}.
Variable lt : K -> K -> result bool.

Lemma bisect_unfold (fuel : nat) (pivot : K) (a : list (K * A)) (l r : nat) :
  ListSort.bisect lt (S fuel) pivot a l r =
  if (l <? r)%nat then
    match nth_error a (l + (r - l) / 2) with
    | Some x =>
        c <- lt pivot (fst x) ;;
        if c then ListSort.bisect lt fuel pivot a l (l + (r - l) / 2)
        else ListSort.bisect lt fuel pivot a (S (l + (r - l) / 2)) r
    | None => Ok l
    end
  else Ok l.
Proof. reflexivity. Qed.

Lemma insert_perm (x : K * A) (l : list (K * A)) (n : nat) :
  Permutation (x :: l) (firstn n l ++ x :: skipn n l).
Proof.
  rewrite <- (firstn_skipn n l) at 1. apply Permutation_middle.
Qed.

Lemma binarysort_perm (sorted rest : list (K * A)) :
  Permutation (sorted ++ rest) (fst (ListSort.binarysort lt sorted rest)).
Proof.
  revert sorted; induction rest as [|p rest IH]; intros sorted; simpl.
  - now rewrite app_nil_r.
  - destruct (ListSort.bisect lt _ _ _ _ _) as [l|e]; simpl; [|reflexivity].
    eapply Permutation_trans; [|apply IH].
    apply Permutation_trans with ((p :: sorted) ++ rest).
    + symmetry. apply Permutation_middle.
    + apply Permutation_app_tail, insert_perm.
Qed.

Lemma listsort_perm (l : list (K * A)) :
  Permutation l (fst (ListSort.listsort lt l)).
Proof.
  destruct l as [|x [|y l']]; try reflexivity.
  unfold ListSort.listsort.
  destruct (ListSort.count_run lt (x :: y :: l')) as [[n d]|e]; [|reflexivity].
  eapply Permutation_trans; [|apply binarysort_perm].
  rewrite <- (firstn_skipn n (x :: y :: l')) at 1.
  apply Permutation_app_tail.
  destruct d; [apply Permutation_rev | reflexivity].
Qed.

(** Whatever happens during the sort, the list holds the same items
    afterwards. *)
Lemma sort_perm (key : A -> K) (l : list A) :
  Permutation l (fst (ListSort.sort lt key l)).
Proof.
  unfold ListSort.sort.
  pose proof (listsort_perm (map (fun x => (key x, x)) l)) as H.
  destruct (ListSort.listsort lt _) as [l' e]; simpl in *.
  apply (Permutation_map snd) in H.
  rewrite map_map in H; simpl in H. now rewrite map_id in H.
Qed.

(** The keys travel with their items. *)
Lemma listsort_keys (key : A -> K) (l : list A) :
  Forall (fun p => fst p = key (snd p))
         (fst (ListSort.listsort lt (map (fun x => (key x, x)) l))).
Proof.
  eapply Permutation_Forall; [apply listsort_perm|].
  apply Forall_forall. intros p Hp. apply in_map_iff in Hp as (x & <- & _).
  reflexivity.
Qed.

End SortPermutes.

Section SortCongruence.
Context {K A : Type}.
Variables lt lt' : K -> K -> result bool.
Variable dom : K -> Prop.
Hypothesis agree : forall a b, dom a -> dom b -> lt a b = lt' a b.

Lemma run_desc_congr (prev : K) (l : list (K * A)) :
  dom prev -> Forall (fun x => dom (fst x)) l ->
  ListSort.run_desc lt prev l = ListSort.run_desc lt' prev l.
Proof.
  revert prev; induction l as [|x l IH]; intros prev Hp Hl; simpl; [reflexivity|].
  inversion Hl as [|? ? Hx Hl']; subst.
  rewrite (agree _ _ Hx Hp).
  destruct (lt' (fst x) prev) as [[|]|]; simpl; try reflexivity.
  now rewrite (IH _ Hx Hl').
Qed.

Lemma run_asc_congr (prev : K) (l : list (K * A)) :
  dom prev -> Forall (fun x => dom (fst x)) l ->
  ListSort.run_asc lt prev l = ListSort.run_asc lt' prev l.
Proof.
  revert prev; induction l as [|x l IH]; intros prev Hp Hl; simpl; [reflexivity|].
  inversion Hl as [|? ? Hx Hl']; subst.
  rewrite (agree _ _ Hx Hp).
  destruct (lt' (fst x) prev) as [[|]|]; simpl; try reflexivity.
  now rewrite (IH _ Hx Hl').
Qed.

Lemma count_run_congr (l : list (K * A)) :
  Forall (fun x => dom (fst x)) l -> ListSort.count_run lt l = ListSort.count_run lt' l.
Proof.
  intros Hl. destruct l as [|x0 [|x1 l']]; try reflexivity.
  inversion Hl as [|? ? H0 Hl1]; subst. inversion Hl1 as [|? ? H1 Hl2]; subst.
  simpl. rewrite (agree _ _ H1 H0).
  destruct (lt' (fst x1) (fst x0)) as [[|]|]; simpl; try reflexivity.
  - now rewrite (run_desc_congr _ _ H1 Hl2).
  - now rewrite (run_asc_congr _ _ H1 Hl2).
Qed.

Lemma bisect_congr (fuel : nat) (pivot : K) (a : list (K * A)) (l r : nat) :
  dom pivot -> Forall (fun x => dom (fst x)) a ->
  ListSort.bisect lt fuel pivot a l r = ListSort.bisect lt' fuel pivot a l r.
Proof.
  intros Hp Ha. revert l r; induction fuel as [|fuel IH]; intros l r; [reflexivity|].
  rewrite !bisect_unfold.
  destruct (l <? r)%nat; [|reflexivity].
  destruct (nth_error a (l + (r - l) / 2)) as [x|] eqn:E; [|reflexivity].
  apply nth_error_In in E. rewrite Forall_forall in Ha.
  rewrite (agree _ _ Hp (Ha _ E)).
  destruct (lt' pivot (fst x)) as [[|]|]; simpl; auto.
Qed.

Lemma binarysort_congr (sorted rest : list (K * A)) :
  Forall (fun x => dom (fst x)) sorted -> Forall (fun x => dom (fst x)) rest ->
  ListSort.binarysort lt sorted rest = ListSort.binarysort lt' sorted rest.
Proof.
  revert sorted; induction rest as [|p rest IH]; intros sorted Hs Hr; simpl; [reflexivity|].
  inversion Hr as [|? ? Hp Hr']; subst.
  rewrite (bisect_congr _ _ _ _ _ Hp Hs).
  destruct (ListSort.bisect lt' _ _ _ _ _) as [l|e]; [|reflexivity].
  apply IH; [|exact Hr'].
  eapply Permutation_Forall; [apply insert_perm|]. now constructor.
Qed.

Lemma listsort_congr (l : list (K * A)) :
  Forall (fun x => dom (fst x)) l -> ListSort.listsort lt l = ListSort.listsort lt' l.
Proof.
  intros Hl. destruct l as [|x [|y l']]; try reflexivity.
  unfold ListSort.listsort. rewrite (count_run_congr _ Hl).
  destruct (ListSort.count_run lt' (x :: y :: l')) as [[n d]|e]; [|reflexivity].
  rewrite <- (firstn_skipn n (x :: y :: l')) in Hl.
  apply Forall_app in Hl as [H1 H2].
  apply binarysort_congr; [|exact H2].
  destruct d; [now apply Forall_rev | exact H1].
Qed.

End SortCongruence.

Section StronglySortedFacts.
Context {X : Type}.
Variable R : X -> X -> Prop.

Lemma StronglySorted_app_iff (l1 l2 : list X) :
  StronglySorted R (l1 ++ l2) <->
  StronglySorted R l1 /\ StronglySorted R l2 /\
  (forall a b, In a l1 -> In b l2 -> R a b).
Proof.
  induction l1 as [|x l1 IH]; simpl.
  - split.
    + intros H. repeat split; [constructor | exact H | intros ? ? []].
    + now intros (_ & H & _).
  - split.
    + intros H. apply StronglySorted_inv in H as [Hs Hf].
      apply IH in Hs as (H1 & H2 & H3).
      apply Forall_app in Hf as [Hf1 Hf2].
      repeat split; [now constructor | exact H2 |].
      intros a b [<-|Ha] Hb; [|now apply H3].
      rewrite Forall_forall in Hf2. now apply Hf2.
    + intros (H1 & H2 & H3).
      apply StronglySorted_inv in H1 as [Hs Hf].
      constructor.
      * apply IH. repeat split; auto.
      * apply Forall_app. split; [exact Hf|].
        apply Forall_forall. intros b Hb. apply H3; auto.
Qed.

(** In a sorted list an earlier item is related to every later one. *)
Lemma StronglySorted_nth (l : list X) (i j : nat) (x y : X) :
  StronglySorted R l -> (i < j)%nat ->
  nth_error l i = Some x -> nth_error l j = Some y -> R x y.
Proof.
  intros Hs; revert i j; induction Hs as [|a l Hs IH Hf]; intros i j Hij Hi Hj.
  - destruct i; discriminate.
  - destruct j as [|j]; [lia|]. simpl in Hj.
    destruct i as [|i]; simpl in Hi.
    + injection Hi as <-. rewrite Forall_forall in Hf.
      apply Hf. eapply nth_error_In; eauto.
    + apply (IH i j); auto; lia.
Qed.

End StronglySortedFacts.

Section SortSorts.
Context {K A : Type}.
Variable ltb : K -> K -> bool.
Hypothesis ltb_asym : forall a b, ltb a b = true -> ltb b a = false.
Hypothesis le_trans : forall a b c, ltb b a = false -> ltb c b = false -> ltb c a = false.

Abbreviation lt := (pure_lt ltb).
Abbreviation le := (@le_by K A ltb).
Abbreviation gt := (@gt_by K A ltb).

Lemma ltb_trans (a b c : K) : ltb a b = true -> ltb b c = true -> ltb a c = true.
Proof.
  intros Hab Hbc. destruct (ltb a c) eqn:E; [reflexivity|].
  pose proof (le_trans _ _ _ E (ltb_asym _ _ Hab)) as H. congruence.
Qed.

Lemma le_Transitive : Relations_1.Transitive le.
Proof. intros x y z Hxy Hyz. unfold le_by in *. eapply le_trans; eauto. Qed.

Lemma gt_Transitive : Relations_1.Transitive gt.
Proof. intros x y z Hxy Hyz. unfold gt_by in *. eapply ltb_trans; eauto. Qed.

Lemma run_asc_pure (x0 : K * A) (l : list (K * A)) :
  exists n, ListSort.run_asc lt (fst x0) l = Ok n /\ (n <= List.length l)%nat /\
            Sorted le (x0 :: firstn n l).
Proof.
  revert x0; induction l as [|x l IH]; intros x0.
  - exists O. split; [reflexivity|]. split; [simpl; lia|]. repeat constructor.
  - cbn [ListSort.run_asc].
    change (lt (fst x) (fst x0)) with (Ok (ltb (fst x) (fst x0))). cbn [bind].
    destruct (ltb (fst x) (fst x0)) eqn:E.
    + exists O. split; [reflexivity|]. split; [simpl; lia|]. repeat constructor.
    + destruct (IH x) as (n & Hrun & Hn & Hs). rewrite Hrun. cbn [bind].
      exists (S n). split; [reflexivity|]. split; [simpl; lia|]. simpl.
      constructor; [exact Hs|]. constructor. exact E.
Qed.

Lemma run_desc_pure (x0 : K * A) (l : list (K * A)) :
  exists n, ListSort.run_desc lt (fst x0) l = Ok n /\ (n <= List.length l)%nat /\
            Sorted gt (x0 :: firstn n l).
Proof.
  revert x0; induction l as [|x l IH]; intros x0.
  - exists O. split; [reflexivity|]. split; [simpl; lia|]. repeat constructor.
  - cbn [ListSort.run_desc].
    change (lt (fst x) (fst x0)) with (Ok (ltb (fst x) (fst x0))). cbn [bind].
    destruct (ltb (fst x) (fst x0)) eqn:E.
    + destruct (IH x) as (n & Hrun & Hn & Hs). rewrite Hrun. cbn [bind].
      exists (S n). split; [reflexivity|]. split; [simpl; lia|]. simpl.
      constructor; [exact Hs|]. constructor. exact E.
    + exists O. split; [reflexivity|]. split; [simpl; lia|]. repeat constructor.
Qed.

Lemma rev_descending (l : list (K * A)) :
  StronglySorted gt l -> StronglySorted le (rev l).
Proof.
  induction 1 as [|x l Hs IH Hf]; simpl; [constructor|].
  apply StronglySorted_app_iff. repeat split; [exact IH | repeat constructor |].
  intros a b Ha [<-|[]]. apply in_rev in Ha.
  rewrite Forall_forall in Hf. apply ltb_asym. exact (Hf _ Ha).
Qed.

(** The run [count_run] finds, turned round when descending, is sorted. *)
Lemma count_run_pure (l : list (K * A)) :
  exists n d, ListSort.count_run lt l = Ok (n, d) /\
              StronglySorted le (if d then rev (firstn n l) else firstn n l).
Proof.
  destruct l as [|x0 [|x1 l']].
  - exists O, false. split; [reflexivity | constructor].
  - exists 1%nat, false. split; [reflexivity | repeat constructor].
  - cbn [ListSort.count_run].
    change (lt (fst x1) (fst x0)) with (Ok (ltb (fst x1) (fst x0))). cbn [bind].
    destruct (ltb (fst x1) (fst x0)) eqn:E.
    + destruct (run_desc_pure x1 l') as (n & Hrun & Hn & Hs). rewrite Hrun. cbn [bind].
      exists (S (S n)), true. split; [reflexivity|].
      apply rev_descending. simpl.
      apply Sorted_StronglySorted; [exact gt_Transitive|].
      constructor; [exact Hs|]. constructor. exact E.
    + destruct (run_asc_pure x1 l') as (n & Hrun & Hn & Hs). rewrite Hrun. cbn [bind].
      exists (S (S n)), false. split; [reflexivity|]. simpl.
      apply Sorted_StronglySorted; [exact le_Transitive|].
      constructor; [exact Hs|]. constructor. exact E.
Qed.

(** The binary search finds the place after every item the pivot is
    not below. *)
Lemma bisect_pure (pivot : K) (a : list (K * A)) :
  StronglySorted le a ->
  forall fuel l r,
    (l <= r)%nat -> (r <= List.length a)%nat -> (r - l <= fuel)%nat ->
    Forall (not_above ltb pivot) (firstn l a) -> Forall (above ltb pivot) (skipn r a) ->
    exists i, ListSort.bisect lt fuel pivot a l r = Ok i /\
              Forall (not_above ltb pivot) (firstn i a) /\
              Forall (above ltb pivot) (skipn i a).
Proof.
  intros Hs. induction fuel as [|fuel IH]; intros l r Hlr Hr Hf Hlo Hhi.
  - assert (l = r) by lia; subst. exists r. simpl. auto.
  - rewrite bisect_unfold.
    destruct (Nat.ltb_spec l r) as [Hlt|Hge].
    2:{ assert (l = r) by lia; subst. exists r. auto. }
    set (p := (l + (r - l) / 2)%nat).
    assert (Hp : (l <= p /\ p < r)%nat).
    { unfold p. pose proof (Nat.div_mod_eq (r - l) 2) as Hd.
      pose proof (Nat.mod_upper_bound (r - l) 2 ltac:(lia)). lia. }
    destruct (nth_error a p) as [x|] eqn:E.
    2:{ apply nth_error_None in E. lia. }
    pose proof (firstn_skipn_middle _ _ E) as Hsplit.
    rewrite <- Hsplit in Hs.
    apply StronglySorted_app_iff in Hs as (_ & Hs2 & Hcross).
    apply StronglySorted_inv in Hs2 as [_ Hx].
    change (lt pivot (fst x)) with (Ok (ltb pivot (fst x))). cbn [bind].
    destruct (ltb pivot (fst x)) eqn:Ex.
    + apply (IH l p); try lia; [exact Hlo|].
      assert (Hsk : skipn p a = x :: skipn (S p) a).
      { rewrite <- Hsplit at 1. rewrite skipn_app, skipn_firstn_comm.
        replace (p - p)%nat with O by lia. simpl.
        rewrite length_firstn. replace (p - Nat.min p (List.length a))%nat with O by lia.
        reflexivity. }
      rewrite Hsk. constructor; [exact Ex|].
      eapply Forall_impl; [|exact Hx]. intros y Hy. unfold above, le_by in *.
      destruct (ltb pivot (fst y)) eqn:Ey; [reflexivity|].
      pose proof (le_trans _ _ _ Hy Ey). congruence.
    + apply (IH (S p) r); try lia; [|exact Hhi].
      assert (Hfi : firstn (S p) a = firstn p a ++ [x]).
      { rewrite <- Hsplit at 1. rewrite firstn_app, length_firstn.
        replace (S p - Nat.min p (List.length a))%nat with 1%nat by lia.
        rewrite firstn_firstn. replace (Nat.min (S p) p) with p by lia. reflexivity. }
      rewrite Hfi. apply Forall_app. split; [|repeat constructor; exact Ex].
      apply Forall_forall. intros y Hy. unfold not_above.
      apply (le_trans _ (fst x)); [|exact Ex].
      apply (Hcross y x Hy). now left.
Qed.

Lemma insert_sorted (pivot : K * A) (a : list (K * A)) (i : nat) :
  StronglySorted le a ->
  Forall (not_above ltb (fst pivot)) (firstn i a) ->
  Forall (above ltb (fst pivot)) (skipn i a) ->
  StronglySorted le (firstn i a ++ pivot :: skipn i a).
Proof.
  intros Hs Hlo Hhi.
  rewrite <- (firstn_skipn i a) in Hs.
  apply StronglySorted_app_iff in Hs as (H1 & H2 & H3).
  rewrite Forall_forall in Hlo, Hhi.
  apply StronglySorted_app_iff. repeat split; [exact H1 | |].
  - constructor; [exact H2|]. apply Forall_forall. intros y Hy.
    apply ltb_asym. exact (Hhi _ Hy).
  - intros x y Hx [<-|Hy]; [exact (Hlo _ Hx) | now apply H3].
Qed.

Lemma binarysort_pure (sorted rest : list (K * A)) :
  StronglySorted le sorted ->
  exists out, ListSort.binarysort lt sorted rest = (out, None) /\ StronglySorted le out.
Proof.
  revert sorted; induction rest as [|pivot rest IH]; intros sorted Hs.
  - now exists sorted.
  - cbn [ListSort.binarysort].
    destruct (bisect_pure (fst pivot) sorted Hs (List.length sorted) O (List.length sorted))
      as (i & -> & Hlo & Hhi); try lia.
    + constructor.
    + rewrite skipn_all. constructor.
    + apply IH. now apply insert_sorted.
Qed.

(** With a comparison that never raises and orders the keys, the sort
    completes and leaves the list in order. *)
Lemma listsort_pure (l : list (K * A)) :
  exists out, ListSort.listsort lt l = (out, None) /\ StronglySorted le out.
Proof.
  destruct l as [|x [|y l']].
  - exists []. split; [reflexivity | constructor].
  - exists [x]. split; [reflexivity | repeat constructor].
  - unfold ListSort.listsort.
    destruct (count_run_pure (x :: y :: l')) as (n & d & Hrun & Hs). rewrite Hrun.
    now apply binarysort_pure.
Qed.

End SortSorts.

(* ================================================================== *)
(** * The order of the sort keys                                       *)
(* ================================================================== *)

Lemma ascii_compare_lt (a b : ascii) :
  Ascii.compare a b = Lt <-> (N_of_ascii a < N_of_ascii b)%N.
Proof. unfold Ascii.compare. apply N.compare_lt_iff. Qed.

Lemma ascii_compare_eq (a b : ascii) : Ascii.compare a b = Eq <-> a = b.
Proof.
  split; [apply Ascii.compare_eq_iff|].
  intros ->. unfold Ascii.compare. apply N.compare_refl.
Qed.

Lemma string_compare_refl (s : string) : String.compare s s = Eq.
Proof.
  induction s as [|c s IH]; simpl; [reflexivity|].
  now rewrite (proj2 (ascii_compare_eq c c) eq_refl).
Qed.

Lemma string_compare_lt_trans (a b c : string) :
  String.compare a b = Lt -> String.compare b c = Lt -> String.compare a c = Lt.
Proof.
  revert b c; induction a as [|x a IH]; intros [|y b] [|z c]; simpl; try discriminate; auto.
  destruct (Ascii.compare x y) eqn:Exy; try discriminate;
    destruct (Ascii.compare y z) eqn:Eyz; try discriminate; intros H1 H2.
  - apply ascii_compare_eq in Exy, Eyz; subst.
    rewrite (proj2 (ascii_compare_eq z z) eq_refl). eauto.
  - apply ascii_compare_eq in Exy; subst. now rewrite Eyz.
  - apply ascii_compare_eq in Eyz; subst. now rewrite Exy.
  - apply ascii_compare_lt in Exy, Eyz.
    now rewrite (proj2 (ascii_compare_lt x z) (N.lt_trans _ _ _ Exy Eyz)).
Qed.

Lemma str_lt_asym (s t : string) : str_lt s t = true -> str_lt t s = false.
Proof.
  unfold str_lt, String.ltb. rewrite (String.compare_antisym t s).
  destruct (String.compare s t); simpl; congruence.
Qed.

Lemma str_le_trans (a b c : string) :
  str_lt b a = false -> str_lt c b = false -> str_lt c a = false.
Proof.
  unfold str_lt, String.ltb. intros Hba Hcb.
  destruct (String.compare c a) eqn:Eca; try reflexivity. exfalso.
  destruct (String.compare b a) eqn:Eba; try discriminate.
  - apply String.compare_eq_iff in Eba; subst. now rewrite Eca in Hcb.
  - destruct (String.compare c b) eqn:Ecb; try discriminate.
    + apply String.compare_eq_iff in Ecb; subst. congruence.
    + (* a < b, b < c, c < a *)
      assert (Hab : String.compare a b = Lt).
      { rewrite String.compare_antisym, Eba. reflexivity. }
      assert (Hbc : String.compare b c = Lt).
      { rewrite String.compare_antisym, Ecb. reflexivity. }
      pose proof (string_compare_lt_trans _ _ _ Eca Hab) as Hcb'. congruence.
Qed.

Lemma tuple_lt_int_keys (a b : value * string) :
  int_key a -> int_key b -> tuple_lt a b = Ok (key_ltb a b).
Proof.
  destruct a as [x s], b as [y t]. intros [z Hz] [w Hw]; simpl in *; subst.
  unfold tuple_lt, key_ltb; simpl. now destruct (z =? w)%Z.
Qed.

Lemma key_ltb_asym (a b : value * string) : key_ltb a b = true -> key_ltb b a = false.
Proof.
  unfold key_ltb. rewrite (Z.eqb_sym (int_of (fst b))).
  destruct (Z.eqb_spec (int_of (fst a)) (int_of (fst b))) as [E|E].
  - apply str_lt_asym.
  - intros H. apply Z.ltb_lt in H. apply Z.ltb_ge. lia.
Qed.

Lemma key_le_trans (a b c : value * string) :
  key_ltb b a = false -> key_ltb c b = false -> key_ltb c a = false.
Proof.
  unfold key_ltb.
  destruct (Z.eqb_spec (int_of (fst b)) (int_of (fst a))) as [E1|E1];
    destruct (Z.eqb_spec (int_of (fst c)) (int_of (fst b))) as [E2|E2];
    destruct (Z.eqb_spec (int_of (fst c)) (int_of (fst a))) as [E3|E3];
    rewrite ?Z.ltb_ge; try lia.
  apply str_le_trans.
Qed.

Lemma py_lt_ints (a b : value) : is_int a -> is_int b -> py_lt a b = Ok (int_ltb a b).
Proof. intros [z ->] [w ->]. reflexivity. Qed.

Lemma int_ltb_asym (a b : value) : int_ltb a b = true -> int_ltb b a = false.
Proof. unfold int_ltb. rewrite Z.ltb_lt, Z.ltb_ge. lia. Qed.

Lemma int_le_trans (a b c : value) :
  int_ltb b a = false -> int_ltb c b = false -> int_ltb c a = false.
Proof. unfold int_ltb. rewrite !Z.ltb_ge. lia. Qed.

Lemma house_key_int (h : value) : house_below_99 h -> is_int (house_key h).
Proof.
  intros [->|(z & -> & _)]; [exists 99 | exists z]; reflexivity.
Qed.

(** ** Sorted rows *)

Section SortedRows.
Context {R K : Type}.
Variable lt : K -> K -> result bool.
Variable ltb : K -> K -> bool.
Variable dom : K -> Prop.
Variable key : R -> K.
Hypothesis agree : forall a b, dom a -> dom b -> lt a b = Ok (ltb a b).
Hypothesis ltb_asym : forall a b, ltb a b = true -> ltb b a = false.
Hypothesis le_trans : forall a b c, ltb b a = false -> ltb c b = false -> ltb c a = false.

Lemma sorted_map_snd (out : list (K * R)) :
  Forall (fun p => fst p = key (snd p)) out ->
  StronglySorted (fun x y : K * R => ltb (fst y) (fst x) = false) out ->
  StronglySorted (fun x y => ltb (key y) (key x) = false) (map snd out).
Proof.
  intros Hkeys Hs. induction Hs as [|p out Hs IH Hf]; simpl; [constructor|].
  inversion Hkeys as [|? ? Hp Hkeys']; subst.
  constructor; [now apply IH|].
  rewrite Forall_forall in *. intros y Hy.
  apply in_map_iff in Hy as (q & <- & Hq).
  rewrite <- Hp, <- (Hkeys' q Hq). now apply Hf.
Qed.

(** On rows whose keys the comparison orders, the sort raises nothing
    and returns the rows in the order of their keys. *)
Lemma sort_sorted (rows : list R) :
  Forall (fun r => dom (key r)) rows ->
  snd (ListSort.sort lt key rows) = None /\
  StronglySorted (fun x y => ltb (key y) (key x) = false) (fst (ListSort.sort lt key rows)).
Proof.
  intros Hdom. unfold ListSort.sort.
  pose proof (listsort_keys lt key rows) as Hkeys.
  rewrite (listsort_congr lt (pure_lt ltb) dom agree) in *.
  2,3: apply Forall_forall; intros p Hp; apply in_map_iff in Hp as (r & <- & Hr);
       rewrite Forall_forall in Hdom; exact (Hdom r Hr).
  destruct (listsort_pure ltb ltb_asym le_trans (map (fun x => (key x, x)) rows))
    as (out & Hout & Hs).
  rewrite Hout in *. simpl in *. split; [reflexivity|].
  now apply sorted_map_snd.
Qed.

End SortedRows.

(** Rows sorted on (house or 99, name) keep the rows without a house
    behind those with a house below 99. *)
Lemma sorted_missing_last {R K : Type} (hn : R -> value)
    (key : R -> K) (kltb : K -> K -> bool) (rows : list R) :
  (forall r1 r2, In r1 rows -> In r2 rows -> hn r1 = VNone -> hn r2 <> VNone ->
                 kltb (key r2) (key r1) = true) ->
  StronglySorted (fun x y => kltb (key y) (key x) = false) rows ->
  missing_last hn rows.
Proof.
  intros Hk Hs i j r1 r2 Hi Hj H1 H2.
  destruct (Nat.lt_trichotomy j i) as [Hlt|[Heq|Hgt]]; [exact Hlt | |].
  - subst. rewrite Hi in Hj. injection Hj as <-. congruence.
  - pose proof (StronglySorted_nth _ _ _ _ _ _ Hs Hgt Hi Hj) as Hle.
    simpl in Hle.
    rewrite (Hk r1 r2) in Hle; eauto using nth_error_In. discriminate.
Qed.

(* ================================================================== *)
(** * The date substitution and the retry, as specified                *)
(* ================================================================== *)

Lemma ascii_digit_is_digit {unicode : UnicodeData} (c : N) :
  (48 <= c <= 57)%N -> re_digit c = true.
Proof.
  intros [H1 H2]. unfold re_digit.
  destruct (N.ltb_spec c 128); [|lia].
  apply andb_true_iff; split; now apply N.leb_le.
Qed.

Lemma january_first_digits {unicode : UnicodeData} : all_digits 2 (u "01").
Proof.
  split; [reflexivity|]. repeat constructor; apply ascii_digit_is_digit; simpl; lia.
Qed.

(** C4: on a text of the shape [YYYY-MM-DDTHH:MM:SS+HH:MM] the
    substitution [_force_jan1] returns the same year, time of day and
    offset, letter for letter, with month and day replaced by [01] and
    [01]; on [2001-12-29T06:06:00+05:30] it returns
    [2001-01-01T06:06:00+05:30].  Whenever the substitution changes its
    input at all, the result is made of the year, time of day and offset
    of the input in this way. *)
Theorem force_jan1_rewrites_month_and_day_only (unicode : UnicodeData) :
  (forall s year month day hms off,
      iso_shape s year month day hms off ->
      _force_jan1 s = year ++ u "-01-01T" ++ hms ++ off /\
      iso_shape (_force_jan1 s) year (u "01") (u "01") hms off) /\
  _force_jan1 (u "2001-12-29T06:06:00+05:30") = u "2001-01-01T06:06:00+05:30" /\
  (forall s,
      _force_jan1 s = s \/
      exists s0 tail year month day hms off,
        iso_shape s0 year month day hms off /\ s = s0 ++ tail /\ dollar tail = true /\
        _force_jan1 s = year ++ u "-01-01T" ++ hms ++ off).
Proof.
  split; [|split; [reflexivity|]].
  - intros s year month day hms off H.
    rewrite (force_jan1_on_shape _ _ _ _ _ _ H). split; [reflexivity|].
    apply iso_shape_parts in H as (Hy & _ & _ & Hh & Ho & _).
    apply iso_shape_parts.
    repeat split; try apply Hy; try apply january_first_digits; assumption.
  - intros s. unfold _force_jan1.
    destruct (re_match s) as [[[[[y mo] d] h] o]|] eqn:E; [|now left].
    right. apply re_match_spec in E as (s0 & tail & Hs & -> & Ht).
    exists s0, tail, y, mo, d, h, o. auto.
Qed.

Lemma birth_default_shape :
  iso_shape (unicode := AsciiDigits) (u "2001-12-29T06:06:00+05:30")
            (u "2001") (u "12") (u "29") (u "06:06:00") (u "+05:30").
Proof.
  exists (u "06"), (u "06"), (u "00"), (N_of_ascii "+"), (u "05"), (u "30").
  repeat split; try reflexivity; try (left; reflexivity);
    repeat constructor.
Defined.

Lemma force_jan1_rewrites_month_and_day_only_witness :
  _force_jan1 (unicode := AsciiDigits) (u "2001-12-29T06:06:00+05:30")
    = u "2001" ++ u "-01-01T" ++ u "06:06:00" ++ u "+05:30".
Proof.
  exact (proj1 (proj1 (force_jan1_rewrites_month_and_day_only AsciiDigits)
                 _ _ _ _ _ _ birth_default_shape)).
Defined.

(** C10, as the claim has it, fails: a text that is the pattern followed
    by one newline does not match the pattern exactly, yet it is
    rewritten (and loses the newline). *)
Lemma force_jan1_rewrites_before_final_newline :
  ~ exact_iso (unicode := AsciiDigits) (u "2001-12-29T06:06:00+05:30" ++ [10%N]) /\
  _force_jan1 (unicode := AsciiDigits) (u "2001-12-29T06:06:00+05:30" ++ [10%N])
    = u "2001-01-01T06:06:00+05:30" /\
  _force_jan1 (unicode := AsciiDigits) (u "2001-12-29T06:06:00+05:30" ++ [10%N])
    <> u "2001-12-29T06:06:00+05:30" ++ [10%N].
Proof.
  split; [|split; [reflexivity | discriminate]].
  intros (y & mo & d & h & o & H). apply iso_shape_length in H. discriminate.
Qed.

(** C10 (amended): every text that has not the shape
    [YYYY-MM-DDTHH:MM:SS+HH:MM] (digits being the decimal digits of the
    regular-expression engine), and is not such a text followed by a
    single newline, is returned unchanged by [_force_jan1]; when the
    sandbox signal then triggers the retry, the retry is sent with the
    original timestamp. *)
Theorem force_jan1_identity_off_pattern (unicode : UnicodeData) (s : ustr) :
  ~ exact_iso s ->
  (forall s0, exact_iso s0 -> s <> s0 ++ [10%N]) ->
  _force_jan1 s = s /\
  (forall (P : Type) (payload : Response -> result P) (call : transport) resp,
      call [] s = Ok resp -> 400 <= status_code resp ->
      sandbox_signal resp = Ok true ->
      snd (with_sandbox_retry payload call s) = [s; s]).
Proof.
  intros H1 H2. pose proof (force_jan1_off_shape s H1 H2) as E.
  split; [exact E|].
  intros P payload call resp Hc Hs Hsig. unfold with_sandbox_retry.
  rewrite Hc. destruct (Z.ltb_spec (status_code resp) 400); [lia|].
  rewrite Hsig. simpl. now rewrite E.
Qed.

Lemma no_seconds_off_pattern :
  ~ exact_iso (unicode := AsciiDigits) (u "2001-12-29T06:06+05:30") /\
  (forall s0, exact_iso (unicode := AsciiDigits) s0 ->
              u "2001-12-29T06:06+05:30" <> s0 ++ [10%N]).
Proof.
  split.
  - intros (y & mo & d & h & o & H). apply iso_shape_length in H. discriminate.
  - intros s0 (y & mo & d & h & o & H) E. apply iso_shape_length in H.
    apply (f_equal (@List.length N)) in E. rewrite length_app, H in E. discriminate.
Defined.

Lemma force_jan1_identity_off_pattern_witness :
  _force_jan1 (unicode := AsciiDigits) (u "2001-12-29T06:06+05:30")
    = u "2001-12-29T06:06+05:30".
Proof.
  exact (proj1 (force_jan1_identity_off_pattern AsciiDigits _
                  (proj1 no_seconds_off_pattern) (proj2 no_seconds_off_pattern))).
Defined.

(** ** The retry *)

Lemma py_eq_str (v : value) (s : string) : py_eq v (VStr s) = true <-> v = VStr s.
Proof.
  destruct v; simpl; try (split; [discriminate | intros H; discriminate]).
  rewrite String.eqb_eq. split; congruence.
Qed.

(** [any(...)] answers [True] exactly when some item carries the code
    and every item before it is an object without it. *)
Lemma any_1004_true (items : list value) :
  any_1004 items = Ok true <->
  exists before e after,
    items = before ++ e :: after /\
    get e "code" = Ok (VStr "1004") /\
    Forall (fun x => exists c, get x "code" = Ok c /\ c <> VStr "1004") before.
Proof.
  induction items as [|x items IH]; simpl.
  - split; [discriminate|]. intros (b & e & a & H & _). destruct b; discriminate.
  - destruct (get x "code") as [c|ex] eqn:Ec; simpl.
    + destruct (py_eq c (VStr "1004")) eqn:Eq.
      * split; [|reflexivity]. intros _. apply py_eq_str in Eq; subst.
        exists [], x, items. repeat split; auto.
      * rewrite IH. split.
        -- intros (b & e & a & -> & He & Hb).
           exists (x :: b), e, a. repeat split; auto.
           constructor; [|exact Hb]. exists c. split; [exact Ec|].
           intros ->. simpl in Eq. discriminate.
        -- intros (b & e & a & H & He & Hb).
           destruct b as [|y b]; simpl in H; injection H as -> ->.
           ++ rewrite Ec in He. injection He as ->. simpl in Eq. discriminate.
           ++ inversion Hb; subst. exists b, e, a. auto.
    + split; [discriminate|].
      intros (b & e & a & H & He & Hb).
      destruct b as [|y b]; simpl in H; injection H as -> ->.
      * congruence.
      * inversion Hb as [|? ? (c & Hc & _) ?]; subst. congruence.
Qed.

(** The sandbox signal: status 400 exactly, a JSON object as body, and
    under its [errors] an item with the code. *)
Lemma sandbox_signal_true (resp : Response) :
  sandbox_signal resp = Ok true <->
  status_code resp = 400 /\
  exists d items,
    body_json resp = Some (VDict d) /\
    iter (match lookup "errors" d with Some v => v | None => VList [] end) = Ok items /\
    any_1004 items = Ok true.
Proof.
  unfold sandbox_signal, json.
  destruct (body_json resp) as [msg|]; simpl.
  2:{ split; [discriminate|]. intros (_ & d & items & H & _). discriminate. }
  destruct (Z.eqb_spec (status_code resp) 400) as [E|E]; simpl.
  2:{ split; [discriminate|]. intros [H _]. contradiction. }
  destruct msg as [| | | | |d]; simpl;
    try (split; [discriminate | intros (_ & d' & items & H & _); discriminate]).
  destruct (iter _) as [items|ex] eqn:Ei; simpl.
  - split.
    + intros H. split; [exact E|]. exists d, items. auto.
    + intros (_ & d' & items' & Hd & Hi & Ha). injection Hd as <-.
      rewrite Ei in Hi. injection Hi as <-. exact Ha.
  - split; [discriminate|].
    intros (_ & d' & items' & Hd & Hi & _). injection Hd as <-. congruence.
Qed.

(** C3, as the claim has it, fails: an error status other than 400 with
    the code 1004 in its JSON body is not retried; one request is sent
    and the error is raised. *)
Lemma no_retry_unless_status_400 :
  400 <= status_code forbidden_1004 /\
  body_json forbidden_1004
    = Some (VDict [("errors", VList [VDict [("code", VStr "1004")]])]) /\
  get_chart_svg (unicode := AsciiDigits) (answering forbidden_1004 ok_svg)
                (u "2001-12-29T06:06:00+05:30")
    = (Raise (http_error forbidden_1004), [u "2001-12-29T06:06:00+05:30"]) /\
  get_dasha_periods (unicode := AsciiDigits) (answering forbidden_1004 ok_json)
                    (u "2001-12-29T06:06:00+05:30")
    = (Raise (http_error forbidden_1004), [u "2001-12-29T06:06:00+05:30"]).
Proof.
  repeat split; try reflexivity. simpl. lia.
Qed.

(** C3 (amended): for each of the four endpoint operations, a first
    response with a status below 400 is returned with
    [used_fallback = false] after one request.  A first response with
    status exactly 400 whose body is a JSON object with, under [errors],
    an item of code ["1004"] preceded only by objects triggers exactly
    one further request, sent with the date-substituted timestamp: if
    that response has a status below 400 (and, for the JSON endpoints, a
    JSON body) it is returned with [used_fallback = true]; if it has a
    status from 400 to 599, or the request itself fails, nothing more
    is sent and an error is raised that carries the status, reason and
    parsed-or-raw body of the first response.  Any other first response
    with an error status is raised as such an error at once, without a
    second request. *)
Theorem sandbox_retry_contract (unicode : UnicodeData) (P : Type)
    (payload : Response -> result P) (call : transport) (iso : ustr)
    (resp : Response) :
  call [] iso = Ok resp ->
  (status_code resp < 400 ->
     with_sandbox_retry payload call iso
       = ((p <- payload resp ;; Ok (p, false)), [iso])) /\
  (400 <= status_code resp -> sandbox_signal resp = Ok true ->
     snd (with_sandbox_retry payload call iso) = [iso; _force_jan1 iso] /\
     (forall resp2 p,
         call [iso] (_force_jan1 iso) = Ok resp2 ->
         status_code resp2 < 400 -> payload resp2 = Ok p ->
         fst (with_sandbox_retry payload call iso) = Ok (p, true)) /\
     (forall resp2,
         call [iso] (_force_jan1 iso) = Ok resp2 ->
         400 <= status_code resp2 < 600 ->
         fst (with_sandbox_retry payload call iso)
           = Raise (HTTPError (status_code resp) (reason resp) (detail_of resp))) /\
     (forall e,
         call [iso] (_force_jan1 iso) = Raise e ->
         fst (with_sandbox_retry payload call iso)
           = Raise (HTTPError (status_code resp) (reason resp) (detail_of resp)))) /\
  (400 <= status_code resp -> sandbox_signal resp <> Ok true ->
     with_sandbox_retry payload call iso
       = (Raise (HTTPError (status_code resp) (reason resp) (detail_of resp)), [iso])) /\
  (sandbox_signal resp = Ok true <->
     status_code resp = 400 /\
     exists d items before e after,
       body_json resp = Some (VDict d) /\
       iter (match lookup "errors" d with Some v => v | None => VList [] end) = Ok items /\
       items = before ++ e :: after /\
       get e "code" = Ok (VStr "1004") /\
       Forall (fun x => exists c, get x "code" = Ok c /\ c <> VStr "1004") before) /\
  (get_chart_svg call iso = with_sandbox_retry (fun r => Ok (text r)) call iso /\
   get_divisional_planet_position call iso = with_sandbox_retry json call iso /\
   get_kundli call iso = with_sandbox_retry json call iso /\
   get_dasha_periods call iso = with_sandbox_retry json call iso).
Proof.
  intros Hc.
  split; [|split; [|split; [|split]]]; [unfold with_sandbox_retry; rewrite Hc ..| |].
  - intros H. destruct (Z.ltb_spec (status_code resp) 400); [reflexivity | lia].
  - intros H Hsig. destruct (Z.ltb_spec (status_code resp) 400); [lia|].
    rewrite Hsig. simpl. split; [reflexivity|]. split; [|split].
    + intros resp2 p H2 Hs Hp. rewrite H2. simpl. unfold raise_for_status.
      destruct (Z.leb_spec 400 (status_code resp2)); [lia|]. simpl.
      now rewrite Hp.
    + intros resp2 H2 Hs. rewrite H2. simpl. unfold raise_for_status.
      destruct (Z.leb_spec 400 (status_code resp2)); [|lia].
      destruct (Z.ltb_spec (status_code resp2) 600); [|lia]. reflexivity.
    + intros e H2. rewrite H2. reflexivity.
  - intros H Hsig. destruct (Z.ltb_spec (status_code resp) 400); [lia|].
    destruct (sandbox_signal resp) as [[|]|]; try reflexivity. congruence.
  - rewrite sandbox_signal_true. split.
    + intros (H & d & items & Hb & Hi & Ha). split; [exact H|].
      apply any_1004_true in Ha as (before & e & after & He & Hcode & Hbefore).
      exists d, items, before, e, after. auto.
    + intros (H & d & items & before & e & after & Hb & Hi & He & Hcode & Hbefore).
      split; [exact H|]. exists d, items. repeat split; auto.
      apply any_1004_true. exists before, e, after. auto.
  - repeat split; reflexivity.
Qed.

Lemma sandbox_retry_contract_witness :
  fst (with_sandbox_retry (unicode := AsciiDigits) (fun r => Ok (text r))
         (answering bad_request_1004 ok_svg) (u "2001-12-29T06:06:00+05:30"))
    = Ok ("<svg/>", true) /\
  snd (with_sandbox_retry (unicode := AsciiDigits) (fun r => Ok (text r))
         (answering bad_request_1004 ok_svg) (u "2001-12-29T06:06:00+05:30"))
    = [u "2001-12-29T06:06:00+05:30"; u "2001-01-01T06:06:00+05:30"].
Proof.
  pose proof (sandbox_retry_contract AsciiDigits string (fun r => Ok (text r))
                (answering bad_request_1004 ok_svg) (u "2001-12-29T06:06:00+05:30")
                bad_request_1004 eq_refl) as (_ & H & _).
  assert (H400 : 400 <= status_code bad_request_1004) by (simpl; lia).
  destruct (H H400 eq_refl) as (Hlog & Hok & _).
  split; [|exact Hlog].
  apply (Hok ok_svg "<svg/>"); [reflexivity | simpl; lia | reflexivity].
Defined.

(* ================================================================== *)
(** * The period lookup and the dasha chain, as specified              *)
(* ================================================================== *)

Section DashaFacts.
Context {pandas : Pandas}.

Lemma get_dict (d : list (string * value)) (k : string) :
  get (VDict d) k = Ok (get_or_none d k).
Proof. reflexivity. Qed.

Lemma get_not_dict (p : value) (k : string) :
  isinstance_dict p = false -> get p k = Raise AttributeError.
Proof. destruct p; simpl; try reflexivity; discriminate. Qed.

Lemma or3_dict (d : list (string * value)) (k1 k2 k3 : string) :
  (get (VDict d) k1 or get (VDict d) k2 or get (VDict d) k3)
    = Ok (first_truthy_in d [k1; k2; k3]).
Proof.
  rewrite !get_dict. unfold or_else; simpl.
  destruct (truthy (get_or_none d k1)); [reflexivity|].
  destruct (truthy (get_or_none d k2)); reflexivity.
Qed.

(** The test for one entry, read off the object. *)
Lemma covers_dict (d : list (string * value)) (t : Timestamp) :
  covers (VDict d) t =
  match _parse_dt (first_truthy_in d ["start"; "start_time"; "from"]),
        _parse_dt (first_truthy_in d ["end"; "end_time"; "to"]) with
  | Some s, Some e => between s t e
  | _, _ => Ok false
  end.
Proof.
  unfold covers, start_of, end_of. rewrite !or3_dict. reflexivity.
Qed.

Lemma covers_not_dict (p : value) (t : Timestamp) :
  isinstance_dict p = false -> covers p t = Raise AttributeError.
Proof.
  intros H. unfold covers, start_of. rewrite (get_not_dict _ _ H). reflexivity.
Qed.

Lemma scan_first_match (before : list value) (p : value) (after : list value)
    (t : Timestamp) :
  Forall (fun q => covers q t = Ok false) before -> covers p t = Ok true ->
  scan (before ++ p :: after) t = Ok p.
Proof.
  intros Hb Hp. induction Hb as [|q before Hq Hb IH]; simpl.
  - now rewrite Hp.
  - now rewrite Hq.
Qed.

Lemma scan_none (l : list value) (t : Timestamp) :
  Forall (fun q => covers q t = Ok false) l -> scan l t = Ok VNone.
Proof.
  induction 1 as [|q l Hq Hl IH]; simpl; [reflexivity|]. now rewrite Hq.
Qed.

(** What the loop can end in, read backwards from its result. *)
Lemma scan_result (l : list value) (t : Timestamp) (r : value) :
  scan l t = Ok r ->
  (r = VNone /\ Forall (fun q => covers q t = Ok false) l) \/
  (exists before after,
      l = before ++ r :: after /\
      Forall (fun q => covers q t = Ok false) before /\ covers r t = Ok true).
Proof.
  revert r; induction l as [|q l IH]; intros r; simpl.
  - intros H; injection H as <-. left. split; [reflexivity | constructor].
  - destruct (covers q t) as [[|]|e] eqn:Eq; simpl; try discriminate.
    + intros H; injection H as <-. right. exists [], l. repeat split; auto.
    + intros H. destruct (IH r H) as [[-> Hall] | (b & a & -> & Hb & Hr)].
      * left. split; [reflexivity | now constructor].
      * right. exists (q :: b), a. repeat split; auto.
Qed.

Lemma first_list_under_dict (root : value) (keys : list string) (v : value) :
  keys <> [] -> Flatten.first_list_under root keys = Ok v -> isinstance_dict root = true.
Proof.
  destruct keys as [|k keys]; [congruence|]. intros _. simpl.
  destruct (isinstance_dict root) eqn:E; [reflexivity|].
  now rewrite (get_not_dict _ _ E).
Qed.

Lemma top_level_periods_dict (root periods : value) :
  top_level_periods root = Ok periods -> isinstance_dict root = true.
Proof.
  unfold top_level_periods.
  destruct (Flatten.first_list_under root _) as [v|e] eqn:E; [|discriminate].
  intros _. eapply first_list_under_dict; [|exact E]. discriminate.
Qed.

Lemma children_of_childless (cur : value) (k : string) :
  childless cur k -> exists v, children cur k = Ok v /\ truthy v = false.
Proof.
  intros [->|(d & -> & H)]; [exists VNone; auto|].
  exists (get_or_none d k). auto.
Qed.

Lemma find_if_any_falsy (v : value) (t : Timestamp) :
  truthy v = false -> find_if_any v t = Ok VNone /\ or_list v = VList [].
Proof. intros H. unfold find_if_any, or_list. now rewrite H. Qed.

End DashaFacts.

(** C1, as the claim has it, fails on two inputs.  A list holding an
    entry that is not an object has no covering period, yet the lookup
    raises instead of returning none.  And a period whose [start] is
    present but empty does not cover [t] when its start is read from the
    first present key, yet it is returned, its start being read from
    [start_time]. *)
Lemma find_period_covering_not_as_claimed :
  (forall p, In p [VInt 5] -> ~ covering_as_specified (pandas := IsoDates) p 20010601) /\
  _find_period_covering (pandas := IsoDates) (VList [VInt 5]) 20010601
    = Raise AttributeError /\
  let p := VDict [("start", VStr ""); ("start_time", VStr "2000-01-01");
                  ("end", VStr "2007-01-01")] in
  ~ covering_as_specified (pandas := IsoDates) p 20010601 /\
  _find_period_covering (pandas := IsoDates) (VList [p]) 20010601 = Ok p.
Proof.
  split; [|split; [reflexivity|split; [|reflexivity]]].
  - intros p [<-|[]] (s & e & Hs & _). discriminate.
  - intros (s & e & Hs & _). discriminate.
Qed.

(** C1 (amended): [_find_period_covering(periods, t)] returns none when
    [periods] is not a list.  On a list it tests the entries in list
    order, and an entry that is an object passes when
    [parse(start) <= t <= parse(end)], where [start] is the first truthy
    value under the keys [start], [start_time], [from] (the value under
    [from] when none is truthy), [end] likewise under [end], [end_time],
    [to], and an entry whose start or end does not parse fails the test
    without being fatal.  The first entry that passes is returned when
    every entry before it fails the test; none is returned when every
    entry fails it (so on the empty list); and whatever is returned is
    of one of these two kinds.  Neither sortedness nor non-overlap is
    assumed.  An entry that is not an object raises when it is reached. *)
Theorem find_period_covering_first_match (pandas : Pandas)
    (periods : value) (t : Timestamp) :
  (isinstance_list periods = false -> _find_period_covering periods t = Ok VNone) /\
  (forall l, periods = VList l ->
     (forall before p after,
         l = before ++ p :: after ->
         Forall (fun q => covers q t = Ok false) before -> covers p t = Ok true ->
         _find_period_covering periods t = Ok p) /\
     (Forall (fun q => covers q t = Ok false) l ->
      _find_period_covering periods t = Ok VNone) /\
     (forall r, _find_period_covering periods t = Ok r ->
        (r = VNone /\ Forall (fun q => covers q t = Ok false) l) \/
        (exists before after,
            l = before ++ r :: after /\
            Forall (fun q => covers q t = Ok false) before /\ covers r t = Ok true))) /\
  (forall d,
     covers (VDict d) t =
     match _parse_dt (first_truthy_in d ["start"; "start_time"; "from"]),
           _parse_dt (first_truthy_in d ["end"; "end_time"; "to"]) with
     | Some s, Some e => between s t e
     | _, _ => Ok false
     end) /\
  (forall p, isinstance_dict p = false -> covers p t = Raise AttributeError).
Proof.
  split; [|split; [|split]].
  - destruct periods; simpl; try reflexivity; discriminate.
  - intros l ->. simpl. split; [|split].
    + intros before p after -> Hb Hp. now apply scan_first_match.
    + apply scan_none.
    + intros r. apply scan_result.
  - intros d. apply covers_dict.
  - intros p. apply covers_not_dict.
Qed.

Lemma find_period_covering_first_match_witness :
  _find_period_covering (pandas := IsoDates) (VList overlapping_periods) 20010601
    = Ok (VDict [("from", VStr "2001-05-01"); ("to", VStr "2003-01-01");
                 ("name", VStr "late")]).
Proof.
  refine (proj1 (proj1 (proj2 (find_period_covering_first_match IsoDates
                                 (VList overlapping_periods) 20010601))
                   overlapping_periods eq_refl)
            [VDict [("start", VStr "2001-01-01"); ("end", VStr "soon")]] _
            [VDict [("start", VStr "2000-01-01"); ("end", VStr "2007-01-01");
                    ("name", VStr "early")]] eq_refl _ eq_refl).
  constructor; [reflexivity | constructor].
Defined.

Section ChainFacts.
Context {pandas : Pandas}.

Lemma balance_of_dict (root : value) :
  isinstance_dict root = true ->
  exists balance, (get root "dasha_balance" or Ok (VDict [])) = Ok balance.
Proof.
  destruct root; try discriminate. intros _.
  rewrite get_dict. unfold or_else; simpl.
  destruct (truthy (get_or_none d "dasha_balance")); eauto.
Qed.

(** No children at the second tier: both lower tiers are none. *)
Lemma chain_stops_after_md (resp root periods md : value) (t : Timestamp) :
  get_default resp "data" resp = Ok root ->
  top_level_periods root = Ok periods ->
  find_if_any periods t = Ok md ->
  childless md "antardasha" ->
  exists balance,
    current_dasha_chain resp t
      = Ok {| current_md := md; current_ad := VNone; current_pd := VNone;
              all_ad := VList []; all_pd := VList []; dasha_balance := balance |}.
Proof.
  intros Hroot Hper Hmd Hch. unfold current_dasha_chain.
  rewrite Hroot; simpl. rewrite Hper; simpl. rewrite Hmd; simpl.
  destruct (children_of_childless _ _ Hch) as (v & Hv & Hf). rewrite Hv; simpl.
  destruct (find_if_any_falsy v t Hf) as [Hn ->]. rewrite Hn; simpl.
  destruct (balance_of_dict root (top_level_periods_dict _ _ Hper)) as [b Hb].
  rewrite Hb. simpl. now exists b.
Qed.

(** No children at the third tier: the last tier is none. *)
Lemma chain_stops_after_ad (resp root periods md ads ad : value) (t : Timestamp) :
  get_default resp "data" resp = Ok root ->
  top_level_periods root = Ok periods ->
  find_if_any periods t = Ok md ->
  children md "antardasha" = Ok ads ->
  find_if_any ads t = Ok ad ->
  childless ad "pratyantardasha" ->
  exists balance,
    current_dasha_chain resp t
      = Ok {| current_md := md; current_ad := ad; current_pd := VNone;
              all_ad := or_list ads; all_pd := VList []; dasha_balance := balance |}.
Proof.
  intros Hroot Hper Hmd Hads Had Hch. unfold current_dasha_chain.
  rewrite Hroot; simpl. rewrite Hper; simpl. rewrite Hmd; simpl.
  rewrite Hads; simpl. rewrite Had; simpl.
  destruct (children_of_childless _ _ Hch) as (v & Hv & Hf). rewrite Hv; simpl.
  destruct (find_if_any_falsy v t Hf) as [Hn ->]. rewrite Hn; simpl.
  destruct (balance_of_dict root (top_level_periods_dict _ _ Hper)) as [b Hb].
  rewrite Hb. simpl. now exists b.
Qed.

End ChainFacts.

(** C8: on the tree with the mahadasha of Ketu (2000-01-01 to
    2007-01-01) holding the antardasha of Venus (2001-01-01 to
    2002-01-01) and nothing below, the chain at an instant that pandas
    places within both periods, such as 2001-06-01, is Ketu, Venus,
    none.  In general, once the lookup at a tier has returned a
    period without a child list (the key missing, null or empty), or
    none, the chain is returned without an error and every tier below
    is none. *)
Theorem dasha_chain_scenario_and_empty_descendants :
  (forall (pandas : Pandas) (t md_start md_end ad_start ad_end : Timestamp),
      to_datetime (VStr "2000-01-01") = Ok (Some md_start) ->
      to_datetime (VStr "2007-01-01") = Ok (Some md_end) ->
      to_datetime (VStr "2001-01-01") = Ok (Some ad_start) ->
      to_datetime (VStr "2002-01-01") = Ok (Some ad_end) ->
      ts_le md_start t = Ok true -> ts_le t md_end = Ok true ->
      ts_le ad_start t = Ok true -> ts_le t ad_end = Ok true ->
      exists c,
        current_dasha_chain ketu_venus_tree t = Ok c /\
        get (current_md c) "name" = Ok (VStr "Ketu") /\
        get (current_ad c) "name" = Ok (VStr "Venus") /\
        current_pd c = VNone) /\
  (_parse_dt (pandas := IsoDates) (VStr "2001-06-01") = Some 20010601 /\
   exists c,
     current_dasha_chain (pandas := IsoDates) ketu_venus_tree 20010601 = Ok c /\
     get (current_md c) "name" = Ok (VStr "Ketu") /\
     get (current_ad c) "name" = Ok (VStr "Venus") /\
     current_pd c = VNone /\
     (rows <- dasha_rows_for_display (current_md c) (current_ad c) (current_pd c) ;;
      Ok (map (fun r => (Level r, Lord r)) rows))
       = Ok [("Mahadasha", VStr "Ketu"); ("Antardasha", VStr "Venus");
             ("Pratyantardasha", VNone)]) /\
  (forall (pandas : Pandas) (resp root periods md : value) (t : Timestamp),
      get_default resp "data" resp = Ok root ->
      top_level_periods root = Ok periods ->
      find_if_any periods t = Ok md ->
      childless md "antardasha" ->
      exists c, current_dasha_chain resp t = Ok c /\
                current_md c = md /\ current_ad c = VNone /\ current_pd c = VNone) /\
  (forall (pandas : Pandas) (resp root periods md ads ad : value) (t : Timestamp),
      get_default resp "data" resp = Ok root ->
      top_level_periods root = Ok periods ->
      find_if_any periods t = Ok md ->
      children md "antardasha" = Ok ads ->
      find_if_any ads t = Ok ad ->
      childless ad "pratyantardasha" ->
      exists c, current_dasha_chain resp t = Ok c /\
                current_md c = md /\ current_ad c = ad /\ current_pd c = VNone).
Proof.
  split; [|split; [|split]].
  - intros pandas t s1 e1 s2 e2 Hs1 He1 Hs2 He2 L1 L2 L3 L4.
    unfold current_dasha_chain, ketu_venus_tree.
    cbn -[to_datetime ts_le]. unfold covers, between, _parse_dt.
    cbn -[to_datetime ts_le]. rewrite Hs1, He1. cbn -[to_datetime ts_le].
    rewrite L1, L2. cbn -[to_datetime ts_le].
    unfold covers, between, _parse_dt.
    cbn -[to_datetime ts_le]. rewrite Hs2, He2. cbn -[to_datetime ts_le].
    rewrite L3, L4. cbn -[to_datetime ts_le].
    eexists. split; [reflexivity|]. repeat split.
  - split; [reflexivity|]. eexists. split; [reflexivity|]. repeat split.
  - intros pandas resp root periods md t H1 H2 H3 H4.
    destruct (chain_stops_after_md _ _ _ _ _ H1 H2 H3 H4) as [b Hb].
    eexists. split; [exact Hb|]. repeat split.
  - intros pandas resp root periods md ads ad t H1 H2 H3 H4 H5 H6.
    destruct (chain_stops_after_ad _ _ _ _ _ _ _ H1 H2 H3 H4 H5 H6) as [b Hb].
    eexists. split; [exact Hb|]. repeat split.
Qed.

Lemma dasha_chain_scenario_and_empty_descendants_witness :
  (exists c, current_dasha_chain (pandas := IsoDates) ketu_venus_tree 20010601 = Ok c /\
             get (current_md c) "name" = Ok (VStr "Ketu") /\
             get (current_ad c) "name" = Ok (VStr "Venus") /\
             current_pd c = VNone) /\
  (exists c, current_dasha_chain (pandas := IsoDates) past_tree 20010601 = Ok c /\
             current_md c = VNone /\ current_ad c = VNone /\ current_pd c = VNone).
Proof.
  split.
  - exact (proj1 dasha_chain_scenario_and_empty_descendants IsoDates
             20010601 20000101 20070101 20010101 20020101
             eq_refl eq_refl eq_refl eq_refl eq_refl eq_refl eq_refl eq_refl).
  - refine (proj1 (proj2 (proj2 dasha_chain_scenario_and_empty_descendants)) IsoDates
              past_tree
              (VDict [("periods",
                 VList [VDict [("name", VStr "Sun"); ("start", VStr "1990-01-01");
                               ("end", VStr "1996-01-01")]])])
              (VList [VDict [("name", VStr "Sun"); ("start", VStr "1990-01-01");
                             ("end", VStr "1996-01-01")]])
              VNone 20010601 eq_refl eq_refl eq_refl _).
    left. reflexivity.
Defined.

(* ================================================================== *)
(** * The sorting step, as specified                                   *)
(* ================================================================== *)

Lemma below_99_before_missing (h1 h2 : value) (n1 n2 : string) :
  h1 = VNone -> h2 <> VNone -> house_below_99 h2 ->
  key_ltb (house_key h2, n2) (house_key h1, n1) = true.
Proof.
  intros -> Hn [->|(z & -> & Hz)]; [congruence|].
  unfold key_ltb; simpl.
  destruct (Z.eqb_spec z 99); [lia|]. apply Z.ltb_lt. exact Hz.
Qed.

(** The rows of a planet table (either of the two) after the sorting
    step, when every known house is an integer below 99. *)
Lemma planet_rows_missing_last {R : Type} (hn : R -> value) (name : R -> string)
    (rows : list R) :
  Forall (fun r => house_below_99 (hn r)) rows ->
  missing_last hn (fst (ListSort.sort tuple_lt (fun r => (house_key (hn r), name r)) rows)).
Proof.
  intros Hrows.
  set (key := fun r => (house_key (hn r), name r)).
  assert (Hdom : Forall (fun r => int_key (key r)) rows).
  { eapply Forall_impl; [|exact Hrows]. intros r Hr. exact (house_key_int _ Hr). }
  destruct (sort_sorted tuple_lt key_ltb int_key key tuple_lt_int_keys
              key_ltb_asym key_le_trans rows Hdom) as [_ Hs].
  apply (sorted_missing_last hn key key_ltb); [|exact Hs].
  intros r1 r2 _ H2 Hm Hk. unfold key.
  apply below_99_before_missing; auto.
  rewrite Forall_forall in Hrows. apply Hrows.
  eapply Permutation_in; [symmetry; apply (sort_perm tuple_lt key)|exact H2].
Qed.

Lemma house_rows_missing_last (rows : list house_row) :
  Forall (fun r => house_below_99 (h_House_No r)) rows ->
  missing_last h_House_No (sort_house_rows rows).
Proof.
  intros Hrows. unfold sort_house_rows.
  assert (Hdom : Forall (fun r => is_int (house_row_key r)) rows).
  { eapply Forall_impl; [|exact Hrows]. intros r Hr. exact (house_key_int _ Hr). }
  destruct (sort_sorted py_lt int_ltb is_int house_row_key py_lt_ints
              int_ltb_asym int_le_trans rows Hdom) as [_ Hs].
  apply (sorted_missing_last h_House_No house_row_key int_ltb); [|exact Hs].
  intros r1 r2 _ H2 Hm Hk. unfold house_row_key, int_ltb. rewrite Hm.
  assert (Hb : house_below_99 (h_House_No r2)).
  { rewrite Forall_forall in Hrows. apply Hrows.
    eapply Permutation_in; [symmetry; apply (sort_perm py_lt house_row_key)|exact H2]. }
  destruct Hb as [E|(z & E & Hz)]; [congruence|].
  rewrite E. simpl. apply Z.ltb_lt. exact Hz.
Qed.

(** C5, as the claim has it, fails twice.  A known house number above
    the stand-in 99 sorts after the rows without a house.  And a house
    number given as text cannot be compared with the stand-in: the sort
    stops at its first comparison and the row without a house stays in
    front. *)
Lemma missing_house_before_house_100 :
  (exists sun moon,
      flatten_kundli_planets house_100_response = Ok [sun; moon] /\
      p_House_No sun = VNone /\ p_House_No moon = VInt 100 /\
      ~ missing_last p_House_No [sun; moon]) /\
  (exists sun moon,
      flatten_kundli_planets house_as_text_response = Ok [sun; moon] /\
      p_House_No sun = VNone /\ p_House_No moon = VStr "7" /\
      ~ missing_last p_House_No [sun; moon]).
Proof.
  split; eexists; eexists;
    (split; [reflexivity|]; split; [reflexivity|]; split; [reflexivity|]);
    intros H; specialize (H 0%nat 1%nat _ _ eq_refl eq_refl eq_refl); simpl in H;
    assert (1 < 0)%nat by (apply H; discriminate); lia.
Qed.

(** C5 (amended): for every list of rows in which each known house
    number is an integer below 99, after the sorting step of any of the
    three flattening functions every row whose house number is missing
    stands after every row whose house number is known, whatever the
    order of the rows before. *)
Theorem missing_house_sorts_last :
  (forall rows : list div_row,
      Forall (fun r => house_below_99 (d_House_No r)) rows ->
      missing_last d_House_No (sort_div_rows rows)) /\
  (forall rows : list kp_row,
      Forall (fun r => house_below_99 (p_House_No r)) rows ->
      missing_last p_House_No (sort_kp_rows rows)) /\
  (forall rows : list house_row,
      Forall (fun r => house_below_99 (h_House_No r)) rows ->
      missing_last h_House_No (sort_house_rows rows)).
Proof.
  split; [|split].
  - intros rows H.
    exact (planet_rows_missing_last d_House_No (fun r => str (d_Planet r)) rows H).
  - intros rows H.
    exact (planet_rows_missing_last p_House_No (fun r => str (p_Planet r)) rows H).
  - exact house_rows_missing_last.
Qed.

Lemma missing_house_sorts_last_witness :
  missing_last p_House_No (sort_kp_rows unsorted_kp_rows) /\
  map (fun r => (p_House_No r, p_Planet r)) (sort_kp_rows unsorted_kp_rows)
    = [(VInt 1, VStr "Moon"); (VInt 7, VStr "Mars"); (VInt 7, VStr "Sun");
       (VNone, VStr "Ketu"); (VNone, VStr "Rahu")].
Proof.
  split; [|reflexivity].
  apply (proj1 (proj2 missing_house_sorts_last)).
  unfold unsorted_kp_rows; simpl.
  repeat (apply Forall_cons;
          [first [left; reflexivity | right; eexists; split; [reflexivity | lia]]|]).
  apply Forall_nil.
Defined.

(** ** A sort cut short *)

(** C9, as the claim has it, fails: the comparison of the text with a
    number raises when the sort has already moved house 2 before
    house 3; the exception is swallowed, and the rows come back in that
    order, not in the order of the input. *)
Lemma interrupted_sort_leaves_rows_moved :
  exists rows,
    (hs <- iter (VList [VDict [("number", VInt 1)]; VDict [("number", VInt 3)];
                        VDict [("number", VInt 2)]; VDict [("number", VStr "x")]]) ;;
     for_each kundli_house_row hs) = Ok rows /\
    map h_House_No rows = [VInt 1; VInt 3; VInt 2; VStr "x"] /\
    snd (ListSort.sort py_lt house_row_key rows) = Some TypeError /\
    (rows' <- flatten_kundli_houses mixed_houses_response ;; Ok (map h_House_No rows'))
      = Ok [VInt 1; VInt 2; VInt 3; VStr "x"] /\
    flatten_kundli_houses mixed_houses_response <> Ok rows.
Proof.
  eexists. split; [reflexivity|]. repeat split. discriminate.
Qed.

(** C9 (amended): an exception during the row-sorting step of any
    flattening function is swallowed; the function then returns the same
    rows, as the interrupted sort has left them, which need not be the
    order of the input.  A sorting failure is never fatal and never
    alters which rows are returned. *)
Theorem sort_failure_keeps_rows :
  (forall rows : list div_row, Permutation rows (sort_div_rows rows)) /\
  (forall rows : list kp_row, Permutation rows (sort_kp_rows rows)) /\
  (forall rows : list house_row, Permutation rows (sort_house_rows rows)) /\
  (forall resp root positions houses rows,
      get_default resp "data" resp = Ok root ->
      (get root "divisional_positions" or get root "positions" or Ok (VList []))
        = Ok positions ->
      iter positions = Ok houses ->
      for_each div_house_rows houses = Ok rows ->
      exists rows', flatten_divisional_positions resp = Ok rows' /\
                    Permutation (concat rows) rows') /\
  (forall resp root candidates ps rows,
      get_default resp "data" resp = Ok root ->
      first_list_under root
        ["planets"; "planet_positions"; "grahas"; "graha_positions"; "bodies"]
        = Ok candidates ->
      truthy candidates = true ->
      iter candidates = Ok ps ->
      for_each kundli_planet_row ps = Ok rows ->
      exists rows', flatten_kundli_planets resp = Ok rows' /\ Permutation rows rows') /\
  (forall resp root houses hs rows,
      get_default resp "data" resp = Ok root ->
      first_list_under root ["houses"; "bhavas"; "house_positions"; "bhava_positions"]
        = Ok houses ->
      is_none houses = false ->
      iter houses = Ok hs ->
      for_each kundli_house_row hs = Ok rows ->
      exists rows', flatten_kundli_houses resp = Ok rows' /\ Permutation rows rows').
Proof.
  repeat split.
  - intros rows. apply sort_perm.
  - intros rows. apply sort_perm.
  - intros rows. apply sort_perm.
  - intros resp root positions houses rows H1 H2 H3 H4.
    unfold flatten_divisional_positions.
    rewrite H1; cbn [bind]. rewrite H2; cbn [bind]. rewrite H3; cbn [bind].
    rewrite H4; cbn [bind].
    eexists. split; [reflexivity | apply sort_perm].
  - intros resp root candidates ps rows H1 H2 H3 H4 H5.
    unfold flatten_kundli_planets.
    rewrite H1; cbn [bind]. rewrite H2; cbn [bind]. rewrite H3; cbn [bind negb].
    rewrite H4; cbn [bind]. rewrite H5; cbn [bind].
    eexists. split; [reflexivity | apply sort_perm].
  - intros resp root houses hs rows H1 H2 H3 H4 H5.
    unfold flatten_kundli_houses.
    rewrite H1; cbn [bind]. rewrite H2; cbn [bind]. rewrite H3; cbn [bind].
    rewrite H4; cbn [bind]. rewrite H5; cbn [bind].
    eexists. split; [reflexivity | apply sort_perm].
Qed.

Lemma sort_failure_keeps_rows_witness :
  exists rows',
    flatten_kundli_houses mixed_houses_response = Ok rows' /\
    Permutation
      (map (fun n => {| h_House_No := n; h_House := VNone; h_Rasi := VNone;
                        h_Degree := VNone |})
           [VInt 1; VInt 3; VInt 2; VStr "x"])
      rows'.
Proof.
  refine (proj2 (proj2 (proj2 (proj2 (proj2 sort_failure_keeps_rows))))
            mixed_houses_response mixed_houses_response
            (VList [VDict [("number", VInt 1)]; VDict [("number", VInt 3)];
                    VDict [("number", VInt 2)]; VDict [("number", VStr "x")]])
            [VDict [("number", VInt 1)]; VDict [("number", VInt 3)];
             VDict [("number", VInt 2)]; VDict [("number", VStr "x")]]
            _ eq_refl eq_refl eq_refl eq_refl eq_refl).
Defined.

(* ================================================================== *)
(** * The field extraction, as specified                               *)
(* ================================================================== *)

Lemma get_absent (d : list (string * value)) (k : string) :
  lookup k d = None -> get (VDict d) k = Ok VNone.
Proof. intros H. unfold get, get_default. now rewrite H. Qed.

Lemma resolve_retro_dict (d : list (string * value)) :
  resolve_retro (VDict d) =
  Ok (if negb (is_none (get_or_none d "retro")) then get_or_none d "retro"
      else if negb (is_none (get_or_none d "is_retro")) then get_or_none d "is_retro"
      else VBool (py_eq (get_or_none d "motion") (VStr "retrograde"))).
Proof.
  unfold resolve_retro. rewrite !get_dict. cbn [bind].
  destruct (is_none (get_or_none d "retro")) eqn:E1;
    destruct (is_none (get_or_none d "is_retro")) eqn:E2;
    cbn [bind negb]; rewrite ?E1, ?E2; cbn [bind negb]; rewrite ?E1, ?E2;
    reflexivity.
Qed.

Lemma resolve_retro_not_none (p retro : value) :
  resolve_retro p = Ok retro -> is_none retro = false.
Proof.
  destruct p; try discriminate. rewrite resolve_retro_dict.
  intros H; injection H as <-.
  destruct (is_none (get_or_none d "retro")) eqn:E1; simpl; [|exact E1].
  destruct (is_none (get_or_none d "is_retro")) eqn:E2; simpl; [reflexivity | exact E2].
Qed.

(** C2: the three encodings are consulted in the order [retro],
    [is_retro], [motion], a value other than [None] under an earlier key
    deciding.  But the last step always yields a truth value, so the
    field is never left unknown: an element with none of the three keys
    gets [False]. *)
Theorem retro_absent_resolves_false :
  (forall d,
      resolve_retro (VDict d) =
      Ok (if negb (is_none (get_or_none d "retro")) then get_or_none d "retro"
          else if negb (is_none (get_or_none d "is_retro")) then get_or_none d "is_retro"
          else VBool (py_eq (get_or_none d "motion") (VStr "retrograde")))) /\
  (forall p retro,
      resolve_retro p = Ok retro -> retro_field retro = VBool (truthy retro)) /\
  (rows <- flatten_kundli_planets (VDict [("planets", VList [silent_planet])]) ;;
   Ok (map p_Retro rows)) = Ok [VBool false] /\
  (rows <- flatten_divisional_positions
             (VDict [("positions",
                VList [VDict [("planet_positions", VList [silent_planet])]])]) ;;
   Ok (map d_Retro rows)) = Ok [VBool false].
Proof.
  split; [exact resolve_retro_dict|]. split; [|split; reflexivity].
  intros p retro H. unfold retro_field.
  now rewrite (resolve_retro_not_none _ _ H).
Qed.

Lemma retro_absent_resolves_false_witness :
  retro_field (VBool false) = VBool (truthy (VBool false)).
Proof.
  exact (proj1 (proj2 retro_absent_resolves_false) silent_planet (VBool false) eq_refl).
Defined.

(** C6: a degree of 0 under [degree] is not kept.  With a [longitude]
    beside it the longitude is taken; alone, the row has no degree. *)
Theorem degree_zero_falls_through :
  degree_of (VDict [("degree", VInt 0); ("longitude", VInt 15)]) = Ok (VInt 15) /\
  degree_of (VDict [("degree", VInt 0)]) = Ok VNone /\
  (rows <- flatten_kundli_planets
             (VDict [("planets",
                VList [VDict [("name", VStr "Sun"); ("degree", VInt 0);
                              ("longitude", VInt 15)]])]) ;;
   Ok (map p_Degree rows)) = Ok [VInt 15] /\
  (rows <- flatten_divisional_positions
             (VDict [("positions",
                VList [VDict [("planet_positions",
                   VList [VDict [("degree", VInt 0); ("longitude", VInt 15)]])]])]) ;;
   Ok (map d_Degree rows)) = Ok [VInt 15] /\
  (rows <- flatten_kundli_houses
             (VDict [("houses", VList [VDict [("number", VInt 1); ("degree", VInt 0)]])]) ;;
   Ok (map h_Degree rows)) = Ok [VNone].
Proof. repeat split. Qed.

(** ** Missing keys *)

Ltac split_keys H :=
  repeat match type of H with
         | Forall _ (_ :: _) =>
             let Hk := fresh "Hk" in
             apply Forall_cons_iff in H as [Hk H]
         end.

Lemma lookup_nil (k : string) : lookup k [] = None.
Proof. reflexivity. Qed.

Ltac read_absent :=
  repeat progress
    (cbn -[lookup]; rewrite ?lookup_nil;
     repeat match goal with
            | Hk : lookup _ _ = None |- _ => rewrite Hk
            end).

Lemma kundli_planet_row_no_keys (e : list (string * value)) :
  none_of kundli_planet_keys e ->
  kundli_planet_row (VDict e)
    = Ok {| p_House_No := VNone; p_Planet := VNone; p_Planet_Vedic := VStr "";
            p_Rasi := VNone; p_Rasi_Lord := VNone; p_Nakshatra := VNone;
            p_Nakshatra_Lord := VNone; p_Pada := VNone; p_Degree := VNone;
            p_Retro := VBool false |}.
Proof.
  intros H. unfold none_of, kundli_planet_keys in H. split_keys H.
  unfold kundli_planet_row, degree_of, resolve_retro, lord_name, or_empty_dict.
  read_absent. reflexivity.
Qed.

Lemma div_planet_row_no_keys (hno hname rasi lord : value) (e : list (string * value)) :
  none_of div_planet_keys e ->
  div_planet_row hno hname rasi lord (VDict e)
    = Ok {| d_House_No := hno; d_House := hname; d_Rasi := rasi; d_Rasi_Lord := lord;
            d_Planet := VNone; d_Planet_Vedic := VStr "";
            d_Nakshatra := VNone; d_Nakshatra_Lord := VNone; d_Pada := VNone;
            d_Degree := VNone; d_Retro := VBool false |}.
Proof.
  intros H. unfold none_of, div_planet_keys in H. split_keys H.
  unfold div_planet_row, degree_of, resolve_retro, lord_name, or_empty_dict.
  read_absent. reflexivity.
Qed.

Lemma div_house_rows_no_keys (e : list (string * value)) :
  none_of div_house_keys e -> div_house_rows (VDict e) = Ok [].
Proof.
  intros H. unfold none_of, div_house_keys in H. split_keys H.
  unfold div_house_rows, lord_name, or_empty_dict, or_empty_list.
  read_absent. reflexivity.
Qed.

Lemma kundli_house_row_no_keys (e : list (string * value)) :
  none_of kundli_house_keys e ->
  kundli_house_row (VDict e)
    = Ok {| h_House_No := VNone; h_House := VNone; h_Rasi := VNone; h_Degree := VNone |}.
Proof.
  intros H. unfold none_of, kundli_house_keys in H. split_keys H.
  unfold kundli_house_row, or_empty_dict.
  read_absent. destruct e as [|kv e]; read_absent; reflexivity.
Qed.

Lemma first_list_under_none (d : list (string * value)) (keys : list string) :
  Forall (fun k => isinstance_list (get_or_none d k) = false) keys ->
  first_list_under (VDict d) keys = Ok VNone.
Proof.
  induction 1 as [|k keys Hk Hks IH]; [reflexivity|].
  cbn [first_list_under]. rewrite get_dict. cbn [bind]. now rewrite Hk.
Qed.

Lemma for_each_all {A B : Type} (f : A -> result B) (P : B -> Prop) (l : list A) :
  Forall (fun x => exists y, f x = Ok y /\ P y) l ->
  exists ys, for_each f l = Ok ys /\ List.length ys = List.length l /\ Forall P ys.
Proof.
  induction 1 as [|x l (y & Hy & Py) Hl (ys & Hys & Hlen & HP)]; simpl.
  - exists []. repeat split; constructor.
  - rewrite Hy, Hys. simpl. exists (y :: ys). repeat split; simpl; auto.
Qed.

(** A list of objects without any recognized key under [planets]: one
    row for each, unknown but for the retrograde field. *)
Lemma flatten_kundli_planets_no_keys (resp : value) (d : list (string * value))
    (es : list (list (string * value))) :
  get_default resp "data" resp = Ok (VDict d) ->
  lookup "planets" d = Some (VList (map VDict es)) ->
  Forall (none_of kundli_planet_keys) es ->
  exists rows, flatten_kundli_planets resp = Ok rows /\
               List.length rows = List.length es /\ Forall kp_unknown_but_retro rows.
Proof.
  intros Hroot Hl Hes. unfold flatten_kundli_planets.
  rewrite Hroot; cbn [bind first_list_under]. rewrite get_dict. unfold get_or_none.
  rewrite Hl; cbn [bind isinstance_list].
  destruct es as [|e es]; [exists []; repeat split; constructor|].
  cbn [map truthy negb iter bind].
  destruct (for_each_all kundli_planet_row kp_unknown_but_retro (map VDict (e :: es)))
    as (rows & Hrows & Hlen & HP).
  { apply Forall_map. eapply Forall_impl; [|exact Hes]. intros e' He'.
    rewrite (kundli_planet_row_no_keys e' He'). eexists. split; [reflexivity|].
    repeat split. }
  cbn [map] in Hrows. rewrite Hrows; cbn [bind].
  exists (sort_kp_rows rows). split; [reflexivity|].
  pose proof (sort_perm tuple_lt kp_key rows) as Hperm. fold (sort_kp_rows rows) in Hperm.
  split.
  - rewrite <- (Permutation_length Hperm), Hlen. now rewrite length_map.
  - eapply Permutation_Forall; eauto.
Qed.

(** The same under [houses]: one row of [None] fields for each. *)
Lemma flatten_kundli_houses_no_keys (resp : value) (d : list (string * value))
    (es : list (list (string * value))) :
  get_default resp "data" resp = Ok (VDict d) ->
  lookup "houses" d = Some (VList (map VDict es)) ->
  Forall (none_of kundli_house_keys) es ->
  exists rows, flatten_kundli_houses resp = Ok rows /\
               List.length rows = List.length es /\
               Forall (fun r => r = {| h_House_No := VNone; h_House := VNone;
                                       h_Rasi := VNone; h_Degree := VNone |}) rows.
Proof.
  intros Hroot Hl Hes. unfold flatten_kundli_houses.
  rewrite Hroot; cbn [bind first_list_under]. rewrite get_dict. unfold get_or_none.
  rewrite Hl; cbn [bind isinstance_list is_none iter].
  destruct (for_each_all kundli_house_row
              (fun r => r = {| h_House_No := VNone; h_House := VNone;
                               h_Rasi := VNone; h_Degree := VNone |})
              (map VDict es))
    as (rows & Hrows & Hlen & HP).
  { apply Forall_map. eapply Forall_impl; [|exact Hes]. intros e' He'.
    rewrite (kundli_house_row_no_keys e' He'). eexists. split; reflexivity. }
  rewrite Hrows; cbn [bind].
  exists (sort_house_rows rows). split; [reflexivity|].
  pose proof (sort_perm py_lt house_row_key rows) as Hperm.
  fold (sort_house_rows rows) in Hperm.
  split.
  - rewrite <- (Permutation_length Hperm), Hlen. now rewrite length_map.
  - eapply Permutation_Forall; eauto.
Qed.

(** C7, as the claim has it, fails: an input object whose [data] is
    null makes each of the three functions raise, and the row of an
    element without any recognized key is not all unknown: its vedic
    name is the empty text and its retrograde field is [False]. *)
Lemma flatten_raises_on_null_data :
  flatten_divisional_positions (VDict [("data", VNone)]) = Raise AttributeError /\
  flatten_kundli_planets (VDict [("data", VNone)]) = Raise AttributeError /\
  flatten_kundli_houses (VDict [("data", VNone)]) = Raise AttributeError /\
  exists r,
    flatten_kundli_planets (VDict [("planets", VList [VDict []])]) = Ok [r] /\
    p_Planet_Vedic r = VStr "" /\ p_Retro r = VBool false.
Proof.
  repeat split. eexists. repeat split.
Qed.

(** C7 (amended): on an input object whose root (the value under [data]
    when that key is present, else the object itself) is an object,
    [flatten_divisional_positions] returns an empty row list when its
    two list keys are missing, null or empty, and
    [flatten_kundli_planets] and [flatten_kundli_houses] do when none of
    their list keys holds a list.  A list element that is an object
    without any recognized key yields a row without an exception: a
    house row of [None] fields only, and a planet row whose fields,
    the retrograde field aside, are [None] but for the vedic name, which
    is the empty text; in the divisional table such an element
    contributes no row as a house and a row with the fields of its house
    as a planet.  A list of such elements under [planets] or [houses]
    is flattened into one such row for each. *)
Theorem flatten_degrades_on_missing_keys (resp : value) (d : list (string * value)) :
  get_default resp "data" resp = Ok (VDict d) ->
  (truthy (get_or_none d "divisional_positions") = false ->
   truthy (get_or_none d "positions") = false ->
   flatten_divisional_positions resp = Ok []) /\
  (Forall (fun k => isinstance_list (get_or_none d k) = false)
          ["planets"; "planet_positions"; "grahas"; "graha_positions"; "bodies"] ->
   flatten_kundli_planets resp = Ok []) /\
  (Forall (fun k => isinstance_list (get_or_none d k) = false)
          ["houses"; "bhavas"; "house_positions"; "bhava_positions"] ->
   flatten_kundli_houses resp = Ok []) /\
  (forall e, none_of kundli_planet_keys e ->
     exists r, kundli_planet_row (VDict e) = Ok r /\ kp_unknown_but_retro r) /\
  (forall e, none_of div_house_keys e -> div_house_rows (VDict e) = Ok []) /\
  (forall hno hname rasi lord e, none_of div_planet_keys e ->
     exists r, div_planet_row hno hname rasi lord (VDict e) = Ok r /\
               div_unknown_but_retro hno hname rasi lord r) /\
  (forall e, none_of kundli_house_keys e ->
     kundli_house_row (VDict e)
       = Ok {| h_House_No := VNone; h_House := VNone; h_Rasi := VNone;
               h_Degree := VNone |}) /\
  (forall es,
     lookup "planets" d = Some (VList (map VDict es)) ->
     Forall (none_of kundli_planet_keys) es ->
     exists rows, flatten_kundli_planets resp = Ok rows /\
                  List.length rows = List.length es /\
                  Forall kp_unknown_but_retro rows) /\
  (forall es,
     lookup "houses" d = Some (VList (map VDict es)) ->
     Forall (none_of kundli_house_keys) es ->
     exists rows, flatten_kundli_houses resp = Ok rows /\
                  List.length rows = List.length es /\
                  Forall (fun r => r = {| h_House_No := VNone; h_House := VNone;
                                          h_Rasi := VNone; h_Degree := VNone |}) rows).
Proof.
  intros Hroot.
  split; [|split; [|split; [|split; [|split; [|split; [|split; [|split]]]]]]].
  - intros H1 H2. unfold flatten_divisional_positions.
    rewrite Hroot; cbn [bind]. rewrite !get_dict. unfold or_else; cbn [bind].
    rewrite H1, H2. reflexivity.
  - intros H. unfold flatten_kundli_planets.
    rewrite Hroot; cbn [bind]. now rewrite (first_list_under_none _ _ H).
  - intros H. unfold flatten_kundli_houses.
    rewrite Hroot; cbn [bind]. now rewrite (first_list_under_none _ _ H).
  - intros e H. rewrite (kundli_planet_row_no_keys e H).
    eexists. split; [reflexivity|]. repeat split.
  - exact div_house_rows_no_keys.
  - intros hno hname rasi lord e H. rewrite (div_planet_row_no_keys _ _ _ _ e H).
    eexists. split; [reflexivity|]. repeat split.
  - exact kundli_house_row_no_keys.
  - intros es. now apply flatten_kundli_planets_no_keys.
  - intros es. now apply flatten_kundli_houses_no_keys.
Qed.

Lemma flatten_degrades_on_missing_keys_witness :
  flatten_divisional_positions (VDict [("data", VDict [("status", VStr "ok")])]) = Ok [] /\
  flatten_kundli_planets (VDict [("data", VDict [("status", VStr "ok")])]) = Ok [] /\
  flatten_kundli_houses (VDict [("data", VDict [("status", VStr "ok")])]) = Ok [] /\
  kundli_house_row (VDict [("id", VInt 4)])
    = Ok {| h_House_No := VNone; h_House := VNone; h_Rasi := VNone; h_Degree := VNone |}.
Proof.
  pose proof (flatten_degrades_on_missing_keys
                (VDict [("data", VDict [("status", VStr "ok")])])
                [("status", VStr "ok")] eq_refl) as (H1 & H2 & H3 & _ & _ & _ & H7 & _).
  split; [apply H1; reflexivity|].
  split; [apply H2; repeat constructor|].
  split; [apply H3; repeat constructor|].
  apply H7. repeat constructor.
Defined.

(* ================================================================== *)
(** * Further properties: the substitution and the retry               *)
(* ================================================================== *)

(** X1: substituting twice is substituting once: what [_force_jan1]
    returns, it returns unchanged when given it again. *)
Theorem force_jan1_idempotent (unicode : UnicodeData) (s : ustr) :
  _force_jan1 (_force_jan1 s) = _force_jan1 s.
Proof.
  destruct (re_match s) as [[[[[y mo] d] h] o]|] eqn:E.
  - assert (H : _force_jan1 s = y ++ u "-01-01T" ++ h ++ o)
      by (unfold _force_jan1; now rewrite E).
    rewrite H.
    apply re_match_spec in E as (s0 & tail & Hs & _ & _).
    apply iso_shape_parts in Hs as (Hy & _ & _ & Hh & Ho & _).
    apply (force_jan1_on_shape _ y (u "01") (u "01") h o).
    apply iso_shape_parts.
    repeat split; try apply Hy; try apply january_first_digits; assumption.
  - assert (H : _force_jan1 s = s) by (unfold _force_jan1; now rewrite E).
    now rewrite !H.
Qed.

Section RetryFacts.
Context {unicode : UnicodeData} {P : Type}.
Variable payload : Response -> result P.
Variable call : transport.
Variable iso : ustr.



End RetryFacts.





(* ================================================================== *)
(** * Further properties: the rows of the tables                       *)
(* ================================================================== *)

Lemma bind_ok_inv {A B : Type} (m : result A) (k : A -> result B) (y : B) :
  bind m k = Ok y -> exists x, m = Ok x /\ k x = Ok y.
Proof. destruct m as [x|e]; simpl; [eauto | discriminate]. Qed.

Lemma for_each_length {A B : Type} (f : A -> result B) (l : list A) (ys : list B) :
  for_each f l = Ok ys -> List.length ys = List.length l.
Proof.
  revert ys; induction l as [|x l IH]; intros ys; simpl.
  - intros H; now injection H as <-.
  - intros H. apply bind_ok_inv in H as (y & _ & H).
    apply bind_ok_inv in H as (ys' & Hys & H). injection H as <-.
    simpl. now rewrite (IH _ Hys).
Qed.

Lemma for_each_Forall2 {A B : Type} (f : A -> result B) (l : list A) (ys : list B) :
  for_each f l = Ok ys -> Forall2 (fun x y => f x = Ok y) l ys.
Proof.
  revert ys; induction l as [|x l IH]; intros ys; simpl.
  - intros H; injection H as <-. constructor.
  - intros H. apply bind_ok_inv in H as (y & Hy & H).
    apply bind_ok_inv in H as (ys' & Hys & H). injection H as <-.
    constructor; auto.
Qed.

Lemma first_list_under_result (root : value) (keys : list string) (v : value) :
  first_list_under root keys = Ok v -> v = VNone \/ exists l, v = VList l.
Proof.
  induction keys as [|k keys IH]; simpl.
  - intros H; injection H as <-. now left.
  - intros H. apply bind_ok_inv in H as (w & _ & H).
    destruct w; simpl in H; auto. injection H as <-. right. eauto.
Qed.

(** A house element of the divisional table gives one row for each item
    of its [planet_positions]. *)
Lemma div_house_rows_count (house : value) (rs : list div_row) :
  div_house_rows house = Ok rs ->
  exists pp ps,
    or_empty_list (get house "planet_positions") = Ok pp /\
    iter pp = Ok ps /\ List.length rs = List.length ps.
Proof.
  unfold div_house_rows. intros H.
  do 7 (apply bind_ok_inv in H as (? & _ & H)).
  apply bind_ok_inv in H as (pp & Hpp & H).
  apply bind_ok_inv in H as (ps & Hps & H).
  exists pp, ps. repeat split; auto. now apply for_each_length in H.
Qed.

(** X4: no row is dropped and none is invented, whether the sort
    completes or not.  [flatten_kundli_planets] and
    [flatten_kundli_houses] return one row for each element of the list
    they found (none when they found no list); in
    [flatten_divisional_positions] each house contributes one row for
    each item of its [planet_positions]. *)
Theorem flatten_row_counts :
  (forall resp rows,
      flatten_kundli_planets resp = Ok rows ->
      exists root candidates,
        get_default resp "data" resp = Ok root /\
        first_list_under root
          ["planets"; "planet_positions"; "grahas"; "graha_positions"; "bodies"]
          = Ok candidates /\
        ((candidates = VNone /\ rows = []) \/
         exists l, candidates = VList l /\ List.length rows = List.length l)) /\
  (forall resp rows,
      flatten_kundli_houses resp = Ok rows ->
      exists root houses,
        get_default resp "data" resp = Ok root /\
        first_list_under root ["houses"; "bhavas"; "house_positions"; "bhava_positions"]
          = Ok houses /\
        ((houses = VNone /\ rows = []) \/
         exists l, houses = VList l /\ List.length rows = List.length l)) /\
  (forall resp rows,
      flatten_divisional_positions resp = Ok rows ->
      exists root positions houses (per_house : list (list div_row)),
        get_default resp "data" resp = Ok root /\
        (get root "divisional_positions" or get root "positions" or Ok (VList []))
          = Ok positions /\
        iter positions = Ok houses /\
        List.length rows = List.length (List.concat per_house) /\
        Forall2 (fun house rs =>
                   exists pp ps,
                     or_empty_list (get house "planet_positions") = Ok pp /\
                     iter pp = Ok ps /\ List.length rs = List.length ps)
                houses per_house).
Proof.
  split; [|split].
  - intros resp rows H. unfold flatten_kundli_planets in H.
    apply bind_ok_inv in H as (root & Hroot & H).
    apply bind_ok_inv in H as (cands & Hc & H).
    exists root, cands. split; [exact Hroot|]. split; [exact Hc|].
    destruct (first_list_under_result _ _ _ Hc) as [->|(l & ->)].
    + left. simpl in H. injection H as <-. auto.
    + right. exists l. split; [reflexivity|].
      destruct l as [|x l]; [simpl in H; now injection H as <-|].
      cbn [truthy negb iter bind] in H.
      apply bind_ok_inv in H as (rows0 & Hrows & H). injection H as <-.
      apply for_each_length in Hrows. rewrite <- Hrows.
      symmetry. apply Permutation_length. apply (sort_perm tuple_lt kp_key).
  - intros resp rows H. unfold flatten_kundli_houses in H.
    apply bind_ok_inv in H as (root & Hroot & H).
    apply bind_ok_inv in H as (hs & Hc & H).
    exists root, hs. split; [exact Hroot|]. split; [exact Hc|].
    destruct (first_list_under_result _ _ _ Hc) as [->|(l & ->)].
    + left. simpl in H. injection H as <-. auto.
    + right. exists l. split; [reflexivity|].
      cbn [is_none iter bind] in H.
      apply bind_ok_inv in H as (rows0 & Hrows & H). injection H as <-.
      apply for_each_length in Hrows. rewrite <- Hrows.
      symmetry. apply Permutation_length. apply (sort_perm py_lt house_row_key).
  - intros resp rows H. unfold flatten_divisional_positions in H.
    apply bind_ok_inv in H as (root & Hroot & H).
    apply bind_ok_inv in H as (positions & Hp & H).
    apply bind_ok_inv in H as (houses & Hh & H).
    apply bind_ok_inv in H as (per_house & Hrows & H). injection H as <-.
    exists root, positions, houses, per_house. repeat split; auto.
    + symmetry. apply Permutation_length. apply (sort_perm tuple_lt div_key).
    + apply for_each_Forall2 in Hrows.
      eapply Forall2_impl; [|exact Hrows]. intros house rs. apply div_house_rows_count.
Qed.

Lemma flatten_row_counts_witness :
  exists rows, flatten_kundli_houses mixed_houses_response = Ok rows /\
               List.length rows = 4%nat.
Proof.
  destruct (flatten_kundli_houses mixed_houses_response) as [rows|] eqn:E;
    [|discriminate E].
  exists rows. split; [reflexivity|].
  destruct (proj1 (proj2 flatten_row_counts) mixed_houses_response rows E)
    as (root & houses & Hroot & Hh & [[Hn _] | (l & Hl & Hlen)]).
  - injection Hroot as <-. rewrite Hn in Hh. discriminate Hh.
  - injection Hroot as <-. rewrite Hl in Hh. injection Hh as <-. exact Hlen.
Defined.

(** The first key that holds a list decides. *)
Lemma first_list_under_first (d : list (string * value))
    (before : list string) (k : string) (after : list string) (l : list value) :
  (forall k', In k' before -> holds_list d k' = false) ->
  get_or_none d k = VList l ->
  first_list_under (VDict d) (before ++ k :: after) = Ok (VList l).
Proof.
  intros Hb Hl. induction before as [|k0 before IH].
  - cbn [app first_list_under]. rewrite get_dict, Hl. reflexivity.
  - cbn [app first_list_under]. rewrite get_dict. cbn [bind].
    change (isinstance_list (get_or_none d k0)) with (holds_list d k0).
    rewrite (Hb k0 (or_introl eq_refl)). apply IH.
    intros k' Hk'. apply Hb. now right.
Qed.

(** X22: the planets and the houses of a kundli response are read from
    one key only, the first in the order of the code that holds a list.
    When that list is empty the table is empty, whatever lists stand
    under the later keys: lists are never merged and a later key is
    never a fallback for an empty earlier one. *)
Theorem empty_list_hides_later_keys (resp : value) (d : list (string * value))
    (before : list string) (k : string) (after : list string) :
  get_default resp "data" resp = Ok (VDict d) ->
  (forall k', In k' before -> holds_list d k' = false) ->
  get_or_none d k = VList [] ->
  (planet_list_keys = before ++ k :: after -> flatten_kundli_planets resp = Ok []) /\
  (house_list_keys = before ++ k :: after -> flatten_kundli_houses resp = Ok []).
Proof.
  intros Hroot Hb Hk. split; intros Hkeys.
  - unfold flatten_kundli_planets. rewrite Hroot. cbn [bind].
    fold planet_list_keys. rewrite Hkeys.
    rewrite (first_list_under_first d before k after [] Hb Hk). reflexivity.
  - unfold flatten_kundli_houses. rewrite Hroot. cbn [bind].
    fold house_list_keys. rewrite Hkeys.
    rewrite (first_list_under_first d before k after [] Hb Hk). reflexivity.
Qed.

Lemma empty_list_hides_later_keys_witness :
  flatten_kundli_planets (VDict empty_before_full) = Ok [].
Proof.
  apply (proj1 (empty_list_hides_later_keys (VDict empty_before_full) empty_before_full
                  [] "planets" ["planet_positions"; "grahas"; "graha_positions"; "bodies"]
                  eq_refl (fun k' H => match H with end) eq_refl)).
  reflexivity.
Defined.

(* ================================================================== *)
(** * Further properties: the sorting step                             *)
(* ================================================================== *)

Section SortedInput.
Context {K A : Type}.
Variable ltb : K -> K -> bool.

Lemma run_asc_sorted (x0 : K * A) (l : list (K * A)) :
  StronglySorted (le_by ltb) (x0 :: l) ->
  ListSort.run_asc (pure_lt ltb) (fst x0) l = Ok (List.length l).
Proof.
  revert x0; induction l as [|x l IH]; intros x0 Hs; [reflexivity|].
  cbn [ListSort.run_asc].
  apply StronglySorted_inv in Hs as [Hs Hf].
  inversion Hf as [|? ? Hx _]; subst. unfold le_by in Hx.
  change (pure_lt ltb (fst x) (fst x0)) with (Ok (ltb (fst x) (fst x0))).
  rewrite Hx. cbn [bind]. rewrite (IH x Hs). reflexivity.
Qed.

(** A list in order is one run: the sort returns it as it is. *)
Lemma listsort_sorted_id (l : list (K * A)) :
  StronglySorted (le_by ltb) l -> ListSort.listsort (pure_lt ltb) l = (l, None).
Proof.
  intros Hs. destruct l as [|x0 [|x1 l']]; try reflexivity.
  unfold ListSort.listsort, ListSort.count_run.
  pose proof Hs as Hs0.
  apply StronglySorted_inv in Hs as [Hs Hf].
  inversion Hf as [|? ? Hx _]; subst. unfold le_by in Hx.
  change (pure_lt ltb (fst x1) (fst x0)) with (Ok (ltb (fst x1) (fst x0))).
  rewrite Hx. cbn [bind]. rewrite (run_asc_sorted x1 l' Hs). cbn [bind].
  change (S (S (List.length l'))) with (List.length (x0 :: x1 :: l')).
  rewrite firstn_all, skipn_all. reflexivity.
Qed.

End SortedInput.

Section SortedRowsAgain.
Context {R K : Type}.
Variable lt : K -> K -> result bool.
Variable ltb : K -> K -> bool.
Variable dom : K -> Prop.
Variable key : R -> K.
Hypothesis agree : forall a b, dom a -> dom b -> lt a b = Ok (ltb a b).
Hypothesis ltb_asym : forall a b, ltb a b = true -> ltb b a = false.
Hypothesis le_trans : forall a b c, ltb b a = false -> ltb c b = false -> ltb c a = false.

Lemma sorted_with_keys (rows : list R) :
  StronglySorted (fun x y => ltb (key y) (key x) = false) rows ->
  StronglySorted (le_by ltb) (map (fun x => (key x, x)) rows).
Proof.
  induction 1 as [|r rows Hs IH Hf]; simpl; constructor; [exact IH|].
  apply Forall_forall. intros p Hp. apply in_map_iff in Hp as (r' & <- & Hr').
  rewrite Forall_forall in Hf. exact (Hf r' Hr').
Qed.

(** Rows in the order of their keys come back as they are. *)
Lemma sort_sorted_id (rows : list R) :
  Forall (fun r => dom (key r)) rows ->
  StronglySorted (fun x y => ltb (key y) (key x) = false) rows ->
  ListSort.sort lt key rows = (rows, None).
Proof.
  intros Hdom Hs. unfold ListSort.sort.
  rewrite (listsort_congr lt (pure_lt ltb) dom agree).
  2: apply Forall_forall; intros p Hp; apply in_map_iff in Hp as (r & <- & Hr);
     rewrite Forall_forall in Hdom; exact (Hdom r Hr).
  rewrite (listsort_sorted_id ltb _ (sorted_with_keys rows Hs)).
  rewrite map_map; simpl. now rewrite map_id.
Qed.

(** Sorting twice is sorting once. *)
Lemma sort_twice (rows : list R) :
  Forall (fun r => dom (key r)) rows ->
  ListSort.sort lt key (fst (ListSort.sort lt key rows))
  = (fst (ListSort.sort lt key rows), None).
Proof.
  intros Hdom. apply sort_sorted_id.
  - rewrite Forall_forall in *. intros r Hr. apply Hdom.
    eapply Permutation_in; [|exact Hr]. apply Permutation_sym, sort_perm.
  - now apply (sort_sorted lt ltb dom key agree ltb_asym le_trans).
Qed.

End SortedRowsAgain.

Lemma house_key_of_int_or_missing (h : value) :
  house_int_or_missing h -> is_int (house_key h).
Proof. intros [->|(z & ->)]; [exists 99 | exists z]; reflexivity. Qed.

Lemma in_key_order_iff (k1 k2 : value * string) :
  key_ltb k2 k1 = false <-> in_key_order k1 k2.
Proof.
  unfold key_ltb, in_key_order.
  destruct (Z.eqb_spec (int_of (fst k2)) (int_of (fst k1))) as [E|E].
  - split; [intros H; right; split; [lia | exact H] | intros [H|[_ H]]; [lia | exact H]].
  - rewrite Z.ltb_ge. split; [intros H; left; lia | intros [H|[H _]]; lia].
Qed.

Lemma StronglySorted_impl {X : Type} (P Q : X -> X -> Prop) (l : list X) :
  (forall x y, P x y -> Q x y) -> StronglySorted P l -> StronglySorted Q l.
Proof.
  intros HPQ. induction 1 as [|x l Hs IH Hf]; constructor; [exact IH|].
  eapply Forall_impl; [|exact Hf]. intros y. apply HPQ.
Qed.

Lemma kp_keys_int (rows : list kp_row) :
  Forall (fun r => house_int_or_missing (p_House_No r)) rows ->
  Forall (fun r => int_key (kp_key r)) rows.
Proof.
  apply Forall_impl. intros r H. exact (house_key_of_int_or_missing _ H).
Qed.

Lemma div_keys_int (rows : list div_row) :
  Forall (fun r => house_int_or_missing (d_House_No r)) rows ->
  Forall (fun r => int_key (div_key r)) rows.
Proof.
  apply Forall_impl. intros r H. exact (house_key_of_int_or_missing _ H).
Qed.

Lemma house_keys_int (rows : list house_row) :
  Forall (fun r => house_int_or_missing (h_House_No r)) rows ->
  Forall (fun r => is_int (house_row_key r)) rows.
Proof.
  apply Forall_impl. intros r H. exact (house_key_of_int_or_missing _ H).
Qed.

(** X5: when every house number is an integer or missing, the sorting
    step of each table raises nothing and leaves the rows in order: by
    house number, a missing one counting as 99, and, in the two planet
    tables, rows of one house by planet name as text.  The house table
    is ordered by the number alone. *)
Theorem sorting_step_orders_rows :
  (forall rows : list kp_row,
      Forall (fun r => house_int_or_missing (p_House_No r)) rows ->
      snd (ListSort.sort tuple_lt kp_key rows) = None /\
      StronglySorted (fun r1 r2 => in_key_order (kp_key r1) (kp_key r2))
                     (sort_kp_rows rows)) /\
  (forall rows : list div_row,
      Forall (fun r => house_int_or_missing (d_House_No r)) rows ->
      snd (ListSort.sort tuple_lt div_key rows) = None /\
      StronglySorted (fun r1 r2 => in_key_order (div_key r1) (div_key r2))
                     (sort_div_rows rows)) /\
  (forall rows : list house_row,
      Forall (fun r => house_int_or_missing (h_House_No r)) rows ->
      snd (ListSort.sort py_lt house_row_key rows) = None /\
      StronglySorted (fun r1 r2 => int_of (house_row_key r1) <= int_of (house_row_key r2))
                     (sort_house_rows rows)).
Proof.
  split; [|split]; intros rows Hrows.
  - destruct (sort_sorted tuple_lt key_ltb int_key kp_key tuple_lt_int_keys
                key_ltb_asym key_le_trans rows (kp_keys_int rows Hrows)) as [He Hs].
    split; [exact He|]. unfold sort_kp_rows.
    eapply StronglySorted_impl; [|exact Hs]. intros x y. apply in_key_order_iff.
  - destruct (sort_sorted tuple_lt key_ltb int_key div_key tuple_lt_int_keys
                key_ltb_asym key_le_trans rows (div_keys_int rows Hrows)) as [He Hs].
    split; [exact He|]. unfold sort_div_rows.
    eapply StronglySorted_impl; [|exact Hs]. intros x y. apply in_key_order_iff.
  - destruct (sort_sorted py_lt int_ltb is_int house_row_key py_lt_ints
                int_ltb_asym int_le_trans rows (house_keys_int rows Hrows)) as [He Hs].
    split; [exact He|]. unfold sort_house_rows.
    eapply StronglySorted_impl; [|exact Hs]. intros x y. unfold int_ltb.
    rewrite Z.ltb_ge. lia.
Qed.

Lemma sorting_step_orders_rows_witness :
  snd (ListSort.sort tuple_lt kp_key unsorted_kp_rows) = None /\
  StronglySorted (fun r1 r2 => in_key_order (kp_key r1) (kp_key r2))
                 (sort_kp_rows unsorted_kp_rows).
Proof.
  apply (proj1 sorting_step_orders_rows unsorted_kp_rows).
  unfold unsorted_kp_rows; simpl.
  repeat (apply Forall_cons; [first [now left | right; eexists; reflexivity]|]).
  apply Forall_nil.
Defined.

(** X6: when every house number is an integer or missing, rows that
    are already in order come back from the sorting step as they are,
    and the sorting step applied twice gives what it gives once. *)
Theorem sorting_step_idempotent :
  (forall rows : list kp_row,
      Forall (fun r => house_int_or_missing (p_House_No r)) rows ->
      (StronglySorted (fun r1 r2 => in_key_order (kp_key r1) (kp_key r2)) rows ->
       sort_kp_rows rows = rows) /\
      sort_kp_rows (sort_kp_rows rows) = sort_kp_rows rows) /\
  (forall rows : list div_row,
      Forall (fun r => house_int_or_missing (d_House_No r)) rows ->
      (StronglySorted (fun r1 r2 => in_key_order (div_key r1) (div_key r2)) rows ->
       sort_div_rows rows = rows) /\
      sort_div_rows (sort_div_rows rows) = sort_div_rows rows) /\
  (forall rows : list house_row,
      Forall (fun r => house_int_or_missing (h_House_No r)) rows ->
      (StronglySorted (fun r1 r2 => int_of (house_row_key r1) <= int_of (house_row_key r2))
                      rows ->
       sort_house_rows rows = rows) /\
      sort_house_rows (sort_house_rows rows) = sort_house_rows rows).
Proof.
  split; [|split]; intros rows Hrows; split.
  - intros Hs. unfold sort_kp_rows.
    rewrite (sort_sorted_id tuple_lt key_ltb int_key kp_key tuple_lt_int_keys rows
               (kp_keys_int rows Hrows)); [reflexivity|].
    eapply StronglySorted_impl; [|exact Hs]. intros x y. apply in_key_order_iff.
  - unfold sort_kp_rows.
    now rewrite (sort_twice tuple_lt key_ltb int_key kp_key tuple_lt_int_keys
                   key_ltb_asym key_le_trans rows (kp_keys_int rows Hrows)).
  - intros Hs. unfold sort_div_rows.
    rewrite (sort_sorted_id tuple_lt key_ltb int_key div_key tuple_lt_int_keys rows
               (div_keys_int rows Hrows)); [reflexivity|].
    eapply StronglySorted_impl; [|exact Hs]. intros x y. apply in_key_order_iff.
  - unfold sort_div_rows.
    now rewrite (sort_twice tuple_lt key_ltb int_key div_key tuple_lt_int_keys
                   key_ltb_asym key_le_trans rows (div_keys_int rows Hrows)).
  - intros Hs. unfold sort_house_rows.
    rewrite (sort_sorted_id py_lt int_ltb is_int house_row_key py_lt_ints rows
               (house_keys_int rows Hrows)); [reflexivity|].
    eapply StronglySorted_impl; [|exact Hs]. intros x y. unfold int_ltb.
    rewrite Z.ltb_ge. lia.
  - unfold sort_house_rows.
    now rewrite (sort_twice py_lt int_ltb is_int house_row_key py_lt_ints
                   int_ltb_asym int_le_trans rows (house_keys_int rows Hrows)).
Qed.

Lemma sorting_step_idempotent_witness :
  sort_kp_rows (sort_kp_rows unsorted_kp_rows) = sort_kp_rows unsorted_kp_rows.
Proof.
  apply (proj1 sorting_step_idempotent unsorted_kp_rows).
  unfold unsorted_kp_rows; simpl.
  repeat (apply Forall_cons; [first [now left | right; eexists; reflexivity]|]).
  apply Forall_nil.
Defined.

(* ================================================================== *)
(** * Further properties: the dasha chain and its table                *)
(* ================================================================== *)

Section ChainPath.
Context {pandas : Pandas}.

Lemma covers_true_dict (p : value) (t : Timestamp) :
  covers p t = Ok true -> exists d, p = VDict d.
Proof.
  intros H. destruct p; try (rewrite covers_not_dict in H; [discriminate | reflexivity]).
  eauto.
Qed.

Lemma find_if_any_result (l : value) (t : Timestamp) (v : value) :
  find_if_any l t = Ok v ->
  v = VNone \/ exists items, l = VList items /\ In v items /\ covers v t = Ok true.
Proof.
  unfold find_if_any. destruct (truthy l); [|intros H; injection H as <-; now left].
  destruct l; simpl; try (intros H; injection H as <-; now left).
  intros H. apply scan_result in H as [[-> _]|(before & after & -> & _ & Hc)]; [now left|].
  right. eexists. split; [reflexivity|]. split; [|exact Hc].
  apply in_or_app. right. now left.
Qed.

Lemma children_result (cur : value) (k : string) (v : value) :
  children cur k = Ok v -> v <> VNone ->
  exists d, cur = VDict d /\ get_or_none d k = v.
Proof.
  unfold children. destruct cur; simpl; intros H Hv;
    try (injection H as <-; congruence).
  injection H as <-. eauto.
Qed.

Lemma or_list_of_list (l : list value) (v : value) :
  In v l -> or_list (VList l) = VList l.
Proof. destruct l; [intros []|reflexivity]. Qed.

Lemma between_true (s t e : Timestamp) :
  between s t e = Ok true -> ts_le s t = Ok true /\ ts_le t e = Ok true.
Proof.
  unfold between. destruct (ts_le s t) as [[|]|]; simpl; try discriminate. auto.
Qed.

(** A tier of the chain, read backwards from its result. *)
Lemma tier_result (cur : value) (k : string) (subs sub : value) (t : Timestamp) :
  children cur k = Ok subs -> find_if_any subs t = Ok sub ->
  (sub = VNone \/ ((exists d, sub = VDict d) /\ covers sub t = Ok true)) /\
  (sub <> VNone ->
   exists d l, cur = VDict d /\ get_or_none d k = VList l /\
               or_list subs = VList l /\ In sub l).
Proof.
  intros Hc Hf. apply find_if_any_result in Hf as [->|(items & -> & Hin & Hcov)].
  - split; [now left | congruence].
  - split; [right; split; [now apply (covers_true_dict _ t) | exact Hcov]|].
    intros _. apply children_result in Hc as (d & -> & Hd); [|discriminate].
    exists d, items. repeat split; auto. now apply (or_list_of_list _ sub).
Qed.

End ChainPath.

(** X7: the chain [current_dasha_chain] returns is a path down the
    tree.  Each of the three periods is none or an object whose bounds
    contain the instant; an antardasha that is not none is an entry of
    the list under [antardasha] of the mahadasha returned, and that
    list is the one returned beside it; likewise the pratyantardasha
    under the antardasha. *)
Theorem chain_is_covering_path (pandas : Pandas) (resp : value) (t : Timestamp)
    (c : chain) :
  current_dasha_chain resp t = Ok c ->
  (forall p, In p [current_md c; current_ad c; current_pd c] ->
             p = VNone \/ ((exists d, p = VDict d) /\ covers p t = Ok true)) /\
  (current_ad c <> VNone ->
   exists d l, current_md c = VDict d /\ get_or_none d "antardasha" = VList l /\
               all_ad c = VList l /\ In (current_ad c) l) /\
  (current_pd c <> VNone ->
   exists d l, current_ad c = VDict d /\ get_or_none d "pratyantardasha" = VList l /\
               all_pd c = VList l /\ In (current_pd c) l).
Proof.
  unfold current_dasha_chain. intros H.
  apply bind_ok_inv in H as (root & _ & H).
  apply bind_ok_inv in H as (periods & _ & H).
  apply bind_ok_inv in H as (md & Hmd & H).
  apply bind_ok_inv in H as (ads & Hads & H).
  apply bind_ok_inv in H as (ad & Had & H).
  apply bind_ok_inv in H as (pds & Hpds & H).
  apply bind_ok_inv in H as (pd_ & Hpd & H).
  apply bind_ok_inv in H as (balance & _ & H). injection H as <-. simpl.
  destruct (tier_result md "antardasha" ads ad t Hads Had) as [A1 A2].
  destruct (tier_result ad "pratyantardasha" pds pd_ t Hpds Hpd) as [P1 P2].
  split; [|split; assumption].
  intros p [<-|[<-|[<-|[]]]]; [|exact A1|exact P1].
  apply find_if_any_result in Hmd as [->|(items & -> & Hin & Hcov)]; [now left|].
  right. split; [now apply (covers_true_dict _ t) | exact Hcov].
Qed.

Lemma chain_is_covering_path_witness :
  exists c,
    current_dasha_chain (pandas := IsoDates) ketu_venus_tree 20010601 = Ok c /\
    (current_ad c <> VNone ->
     exists d l, current_md c = VDict d /\ get_or_none d "antardasha" = VList l /\
                 all_ad c = VList l /\ In (current_ad c) l).
Proof.
  eexists. split; [reflexivity|].
  apply (proj1 (proj2 (chain_is_covering_path IsoDates ketu_venus_tree 20010601 _ eq_refl))).
Defined.

Lemma first_list_under_spec (d : list (string * value)) (keys : list string) :
  (first_list_under (VDict d) keys = Ok VNone /\
   forall k, In k keys -> holds_list d k = false) \/
  (exists before k after l,
      keys = before ++ k :: after /\
      first_list_under (VDict d) keys = Ok (VList l) /\
      get_or_none d k = VList l /\
      forall k', In k' before -> holds_list d k' = false).
Proof.
  induction keys as [|k keys IH].
  - left. split; [reflexivity | intros k []].
  - cbn [first_list_under]. rewrite get_dict. cbn [bind].
    destruct (isinstance_list (get_or_none d k)) eqn:E.
    + right. destruct (get_or_none d k) eqn:Ev; try discriminate.
      exists [], k, keys, l. repeat split; auto. intros k' [].
    + destruct IH as [[H1 H2]|(before & k0 & after & l & -> & H1 & H2 & H3)].
      * left. split; [exact H1|]. intros k' [<-|Hk']; [exact E | now apply H2].
      * right. exists (k :: before), k0, after, l. repeat split; auto.
        intros k' [<-|Hk']; [exact E | now apply H3].
Qed.

Lemma nested_list_under_spec (sub : list (string * value)) (ks : list string) :
  nested_list_under (VDict sub) ks = Ok VNone \/
  exists k l, In k ks /\ nested_list_under (VDict sub) ks = Ok (VList l) /\
              get_or_none sub k = VList l.
Proof.
  induction ks as [|k ks IH]; [now left|].
  cbn [nested_list_under]. rewrite get_dict. cbn [bind].
  destruct (isinstance_list (get_or_none sub k)) eqn:E.
  - right. destruct (get_or_none sub k) eqn:Ev; try discriminate.
    exists k, l. repeat split; auto. now left.
  - destruct IH as [H|(k0 & l & Hin & H1 & H2)]; [now left|].
    right. exists k0, l. repeat split; auto. now right.
Qed.

Lemma scan_values_spec (vs : list value) :
  scan_values vs = Ok VNone \/
  exists sub k l, In (VDict sub) vs /\ In k nested_aliases /\
                  scan_values vs = Ok (VList l) /\ get_or_none sub k = VList l.
Proof.
  induction vs as [|v vs IH]; [now left|].
  cbn [scan_values].
  assert (Hrest : (x <- Ok VNone ;; (if negb (is_none x) then Ok x else scan_values vs))
                  = scan_values vs) by reflexivity.
  assert (Hskip : scan_values vs = Ok VNone \/
                  exists sub k l, In (VDict sub) (v :: vs) /\ In k nested_aliases /\
                                  scan_values vs = Ok (VList l) /\
                                  get_or_none sub k = VList l).
  { destruct IH as [H|(sub & k & l & Hin & Hk & H1 & H2)]; [now left|].
    right. exists sub, k, l. repeat split; auto. now right. }
  destruct v as [| | | | |d]; cbn [isinstance_dict]; try (rewrite Hrest; exact Hskip).
  destruct (nested_list_under_spec d nested_aliases) as [H|(k & l & Hk & H1 & H2)].
  - unfold nested_aliases in H. rewrite H. exact Hskip.
  - unfold nested_aliases in H1. rewrite H1. cbn [bind is_none negb].
    right. exists d, k, l. repeat split; auto. now left.
Qed.

(** X8: on a root that is an object, the search for the list of
    mahadasha periods raises nothing, and what it returns is none or a
    list that stands under one of the six alias keys of the root, or,
    only when no alias key of the root holds a list, a list that stands
    under [periods], [dasha_periods] or [mahadasha] in one of the
    objects the root holds.  A list under [dasha], [maha_dasha] or [md]
    of a nested object is never taken. *)
Theorem top_level_periods_origin (d : list (string * value)) :
  exists v, top_level_periods (VDict d) = Ok v /\
    (v = VNone \/
     (exists k l, In k period_aliases /\ get_or_none d k = VList l /\ v = VList l) \/
     (exists sub k l,
         In (VDict sub) (map snd d) /\ In k nested_aliases /\
         get_or_none sub k = VList l /\ v = VList l /\
         forall k', In k' period_aliases -> holds_list d k' = false)).
Proof.
  unfold top_level_periods.
  destruct (first_list_under_spec d period_aliases)
    as [[H1 H2]|(before & k & after & l & Hk & H1 & H2 & H3)];
    unfold period_aliases in H1; rewrite H1; cbn [bind is_none values].
  - destruct (scan_values_spec (map snd d)) as [H|(sub & k & l & Hin & Hk & Hs & Hl)];
      rewrite ?H, ?Hs; eexists; (split; [reflexivity|]); [now left|].
    right; right. exists sub, k, l. repeat split; auto.
  - eexists; split; [reflexivity|]. right; left. exists k, l. repeat split; auto.
    rewrite Hk. apply in_or_app. right. now left.
Qed.

(** X9: the alias keys of the root are tried in their order, and the
    first that holds a list decides: its list is returned whatever
    stands under the later aliases and in nested objects, even when it
    is empty. *)
Theorem first_alias_list_wins (d : list (string * value))
    (before : list string) (k : string) (after : list string) (l : list value) :
  period_aliases = before ++ k :: after ->
  (forall k', In k' before -> holds_list d k' = false) ->
  get_or_none d k = VList l ->
  top_level_periods (VDict d) = Ok (VList l).
Proof.
  intros Hk Hb Hl. unfold top_level_periods. fold period_aliases. rewrite Hk.
  now rewrite (first_list_under_first d before k after l Hb Hl).
Qed.

Lemma first_alias_list_wins_witness :
  top_level_periods (VDict nested_before_alias) = Ok (VList [VStr "direct"]).
Proof.
  apply (first_alias_list_wins nested_before_alias
           ["periods"; "dasha_periods"; "dasha"; "mahadasha"; "maha_dasha"] "md" []).
  - reflexivity.
  - intros k' H. simpl in H.
    repeat (destruct H as [<-|H]; [reflexivity|]). destruct H.
  - reflexivity.
Defined.

Lemma row_of_falsy (level : string) (obj : value) :
  truthy obj = false -> Dasha.row level obj = Ok (blank_row level).
Proof. intros H. unfold Dasha.row. now rewrite H. Qed.

Lemma row_of_dict (level : string) (d : list (string * value)) :
  truthy (VDict d) = true ->
  Dasha.row level (VDict d) =
  (name <- (Ok (get_or_none d "name")
            or (pl <- (Ok (get_or_none d "planet") or Ok (VDict [])) ;; get pl "vedic_name")
            or (pl <- (Ok (get_or_none d "planet") or Ok (VDict [])) ;; get pl "name")) ;;
   Ok {| Level := level; Lord := name;
         Start := first_truthy_in d ["start"; "start_time"; "from"];
         End_ := first_truthy_in d ["end"; "end_time"; "to"] |}).
Proof.
  intros H. unfold Dasha.row. rewrite H. cbn [negb]. rewrite !or3_dict, !get_dict.
  destruct (_ or _ or _); reflexivity.
Qed.

(** What the local [row] does with a period. *)
Lemma row_cases (level : string) (obj : value) :
  (displayable obj /\
   exists r, Dasha.row level obj = Ok r /\ Level r = level /\
             (truthy obj = false -> says_nothing r)) \/
  (~ displayable obj /\ Dasha.row level obj = Raise AttributeError).
Proof.
  unfold displayable.
  destruct (truthy obj) eqn:Et.
  2:{ left. split; [now left|]. exists (blank_row level).
      rewrite (row_of_falsy _ _ Et). repeat split. }
  destruct obj as [| | | | |d];
    try (right; split; [intros [H|(d & H & _)]; discriminate |
                        unfold Dasha.row; rewrite Et; reflexivity]).
  rewrite (row_of_dict level d Et). unfold or_else; cbn [bind].
  destruct (truthy (get_or_none d "name")) eqn:En.
  { left. split; [right; exists d; auto|].
    eexists. split; [reflexivity|]. split; [reflexivity|]. discriminate. }
  destruct (truthy (get_or_none d "planet")) eqn:Ep.
  2:{ left. split; [right; exists d; auto|].
      eexists. split; [reflexivity|]. split; [reflexivity|]. discriminate. }
  destruct (get_or_none d "planet") as [| | | | |pl] eqn:Epl;
    try (right; split; [|reflexivity];
         intros [H|(d' & H & [H'|[H'|H']])]; try discriminate;
         injection H as <-; rewrite ?Epl in H'; simpl in *; congruence).
  left. split; [right; exists d; rewrite Epl; auto|].
  cbn [bind]. rewrite !get_dict. cbn [bind].
  destruct (truthy (get_or_none pl "vedic_name"));
    (eexists; split; [reflexivity|]; split; [reflexivity|]; discriminate).
Qed.

(** X10: [dasha_rows_for_display] fails on a period exactly when the
    period is truthy and is not an object, or is an object without a
    (truthy) name whose [planet] is truthy and not an object; the
    failure is an AttributeError.  Otherwise it returns three rows, for
    the levels Mahadasha, Antardasha and Pratyantardasha in this order,
    and the row of a period that is none or empty says nothing. *)
Theorem dasha_rows_when_displayable (md ad pd_ : value) :
  (displayable md /\ displayable ad /\ displayable pd_ ->
   exists r1 r2 r3,
     dasha_rows_for_display md ad pd_ = Ok [r1; r2; r3] /\
     Level r1 = "Mahadasha"%string /\ Level r2 = "Antardasha"%string /\
     Level r3 = "Pratyantardasha"%string /\
     (truthy md = false -> says_nothing r1) /\
     (truthy ad = false -> says_nothing r2) /\
     (truthy pd_ = false -> says_nothing r3)) /\
  (~ (displayable md /\ displayable ad /\ displayable pd_) ->
   dasha_rows_for_display md ad pd_ = Raise AttributeError).
Proof.
  unfold dasha_rows_for_display.
  destruct (row_cases "Mahadasha" md) as [(D1 & r1 & -> & L1 & N1)|[D1 ->]];
    [|split; [tauto | reflexivity]].
  destruct (row_cases "Antardasha" ad) as [(D2 & r2 & -> & L2 & N2)|[D2 ->]];
    [|split; [tauto | reflexivity]].
  destruct (row_cases "Pratyantardasha" pd_) as [(D3 & r3 & -> & L3 & N3)|[D3 ->]];
    [|split; [tauto | reflexivity]].
  split; [|tauto]. intros _. exists r1, r2, r3.
  split; [reflexivity|]. auto 10.
Qed.

Lemma dasha_rows_when_displayable_witness :
  exists r1 r2 r3,
    dasha_rows_for_display
      (VDict [("planet", VDict [("name", VStr "Ketu")]); ("start", VStr "2000-01-01")])
      VNone (VDict []) = Ok [r1; r2; r3] /\
    Level r1 = "Mahadasha"%string /\ Level r2 = "Antardasha"%string /\
    Level r3 = "Pratyantardasha"%string /\
    (truthy (VDict [("planet", VDict [("name", VStr "Ketu")]); ("start", VStr "2000-01-01")])
       = false -> says_nothing r1) /\
    (truthy VNone = false -> says_nothing r2) /\
    (truthy (VDict []) = false -> says_nothing r3).
Proof.
  apply (proj1 (dasha_rows_when_displayable _ _ _)).
  split; [|split]; [|now left|now left].
  right. eexists. split; [reflexivity|]. right; right. reflexivity.
Defined.

Section DisplayedBounds.
Context {pandas : Pandas}.

(** The bounds a row shows are the values the lookup compared. *)
Lemma row_of_covering (level : string) (p : value) (t : Timestamp) (r : level_row) :
  p = VNone \/ covers p t = Ok true ->
  Dasha.row level p = Ok r ->
  says_nothing r \/
  exists s e, _parse_dt (Start r) = Some s /\ _parse_dt (End_ r) = Some e /\
              ts_le s t = Ok true /\ ts_le t e = Ok true.
Proof.
  intros [->|Hc] Hr.
  - left. injection Hr as <-. repeat split.
  - destruct (covers_true_dict _ _ Hc) as (d & ->).
    destruct (truthy (VDict d)) eqn:Et.
    2:{ left. rewrite (row_of_falsy _ _ Et) in Hr. injection Hr as <-. repeat split. }
    right. rewrite (row_of_dict _ _ Et) in Hr. rewrite covers_dict in Hc.
    set (sv := first_truthy_in d ["start"; "start_time"; "from"]) in *.
    set (ev := first_truthy_in d ["end"; "end_time"; "to"]) in *.
    apply bind_ok_inv in Hr as (name & _ & Hr). injection Hr as <-. cbn [Start End_].
    destruct (_parse_dt sv) as [s|]; [|discriminate].
    destruct (_parse_dt ev) as [e|]; [|discriminate].
    exists s, e. split; [reflexivity|]. split; [reflexivity|]. now apply between_true.
Qed.

End DisplayedBounds.

(** X11: when the chain of [current_dasha_chain] is given to
    [dasha_rows_for_display], every row that names a period shows a
    start and an end that parse and have the instant between them:
    the table reads its bounds through the same keys, in the same
    order, as the lookup that chose the period. *)
Theorem displayed_bounds_contain_instant (pandas : Pandas) (resp : value)
    (t : Timestamp) (c : chain) (rows : list level_row) :
  current_dasha_chain resp t = Ok c ->
  dasha_rows_for_display (current_md c) (current_ad c) (current_pd c) = Ok rows ->
  Forall (fun r =>
            says_nothing r \/
            exists s e, _parse_dt (Start r) = Some s /\ _parse_dt (End_ r) = Some e /\
                        ts_le s t = Ok true /\ ts_le t e = Ok true)
         rows.
Proof.
  unfold current_dasha_chain. intros H Hrows.
  apply bind_ok_inv in H as (root & _ & H).
  apply bind_ok_inv in H as (periods & _ & H).
  apply bind_ok_inv in H as (md & Hmd & H).
  apply bind_ok_inv in H as (ads & Hads & H).
  apply bind_ok_inv in H as (ad & Had & H).
  apply bind_ok_inv in H as (pds & Hpds & H).
  apply bind_ok_inv in H as (pd_ & Hpd & H).
  apply bind_ok_inv in H as (balance & _ & H). injection H as <-. simpl in Hrows.
  assert (Hcov : forall l v, find_if_any l t = Ok v -> v = VNone \/ covers v t = Ok true).
  { intros l v Hf. apply find_if_any_result in Hf as [->|(items & _ & _ & Hc)]; auto. }
  unfold dasha_rows_for_display in Hrows.
  apply bind_ok_inv in Hrows as (r1 & H1 & Hrows).
  apply bind_ok_inv in Hrows as (r2 & H2 & Hrows).
  apply bind_ok_inv in Hrows as (r3 & H3 & Hrows). injection Hrows as <-.
  apply Forall_cons; [exact (row_of_covering _ md t r1 (Hcov _ _ Hmd) H1)|].
  apply Forall_cons; [exact (row_of_covering _ ad t r2 (Hcov _ _ Had) H2)|].
  apply Forall_cons; [exact (row_of_covering _ pd_ t r3 (Hcov _ _ Hpd) H3)|].
  apply Forall_nil.
Qed.

Lemma displayed_bounds_contain_instant_witness :
  exists c rows,
    current_dasha_chain (pandas := IsoDates) ketu_venus_tree 20010601 = Ok c /\
    dasha_rows_for_display (current_md c) (current_ad c) (current_pd c) = Ok rows /\
    Forall (fun r =>
              says_nothing r \/
              exists s e, _parse_dt (pandas := IsoDates) (Start r) = Some s /\
                          _parse_dt (pandas := IsoDates) (End_ r) = Some e /\
                          ts_le s 20010601 = Ok true /\ ts_le 20010601 e = Ok true)
           rows.
Proof.
  eexists. eexists. split; [reflexivity|]. split; [reflexivity|].
  apply (displayed_bounds_contain_instant IsoDates ketu_venus_tree 20010601 _ _
           eq_refl eq_refl).
Defined.

(* ================================================================== *)
(** * Further properties: the token cache                              *)
(* ================================================================== *)

Section TokenFacts.
Context {builtins : Builtins}.

Lemma and_then_returns {A B : Type} (m : outcome A) (k : A -> outcome B) (b : B) :
  and_then m k = Returns b -> exists a, m = Returns a /\ k a = Returns b.
Proof. destruct m as [a|e]; simpl; [eauto | discriminate]. Qed.

Lemma lift_returns {A : Type} (r : result A) (a : A) :
  lift r = Returns a -> r = Ok a.
Proof. destruct r; simpl; intros H; [now injection H as -> | discriminate]. Qed.

Lemma lift_never_overflows {A : Type} (r : result A) : lift r <> Raises OverflowError.
Proof. destruct r; discriminate. Qed.

(** A call that finds the token in the cache sends nothing and changes
    nothing. *)
Lemma get_token_hit (post : result Response) (now : Z) (c : cache) :
  cache_hit c now = true ->
  _get_token post now c
  = {| result_of := Returns (access_token c); cache_after := c; posted := false |}.
Proof. intros H. unfold _get_token. now rewrite H. Qed.

Lemma get_token_posted (post : result Response) (now : Z) (c : cache) :
  posted (_get_token post now c) = negb (cache_hit c now).
Proof.
  unfold _get_token. destruct (cache_hit c now); [reflexivity|]. cbn [negb].
  destruct (and_then (lift post) _) as [[token n]|e]; [|reflexivity].
  destruct (and_then (timedelta_seconds _) _); reflexivity.
Qed.

(** A call that fetched a token, read backwards from its result. *)
Lemma get_token_fetched (post : result Response) (now : Z) (c : cache) (token : value) :
  posted (_get_token post now c) = true ->
  result_of (_get_token post now c) = Returns token ->
  exists resp data n,
    post = Ok resp /\ raise_for_status resp = Ok tt /\ json resp = Ok data /\
    subscript data "access_token" = Returns token /\
    and_then (lift (get_default data "expires_in" (VInt 3600))) py_int = Returns n /\
    cache_after (_get_token post now c)
    = {| access_token := token; expires_at := Some (now + (n - 60) * 1000000) |}.
Proof.
  rewrite get_token_posted. unfold _get_token.
  destruct (cache_hit c now); [discriminate|]. intros _.
  destruct (and_then (lift post) _) as [[token' n]|e] eqn:E; [|discriminate].
  apply and_then_returns in E as (resp & Hpost & E).
  apply and_then_returns in E as ([] & Hst & E).
  apply and_then_returns in E as (data & Hjson & E).
  apply and_then_returns in E as (tok & Htok & E).
  apply and_then_returns in E as (n' & Hn & E). injection E as E1 E2. subst tok n'.
  destruct (and_then (timedelta_seconds (n - 60)) (datetime_add now)) as [e|] eqn:Ee;
    [|discriminate].
  cbn [result_of cache_after]. intros H; injection H as <-.
  exists resp, data, n.
  apply lift_returns in Hpost, Hst, Hjson.
  repeat split; auto.
  apply and_then_returns in Ee as (delta & Hd & Ha).
  unfold timedelta_seconds in Hd. destruct (_ && _) in Hd; [|discriminate].
  injection Hd as <-.
  unfold datetime_add in Ha. destruct (_ && _) in Ha; [|discriminate].
  now injection Ha as <-.
Qed.

End TokenFacts.

(** X12: a token that was fetched is stored with the instant
    [now + (expires_in - 60)] seconds, where [expires_in] is what [int]
    makes of the field of that name, 3600 when the field is absent.
    Until that instant every call returns the stored token without
    sending a request and without touching the cache, provided the
    token is truthy. *)
Theorem token_reused_until_expiry (builtins : Builtins)
    (post : result Response) (now : Z) (c : cache) (token : value) :
  posted (_get_token post now c) = true ->
  result_of (_get_token post now c) = Returns token ->
  exists resp data n,
    post = Ok resp /\ json resp = Ok data /\
    and_then (lift (get_default data "expires_in" (VInt 3600))) py_int = Returns n /\
    cache_after (_get_token post now c)
    = {| access_token := token; expires_at := Some (now + (n - 60) * 1000000) |} /\
    forall post' now',
      truthy token = true -> now' < now + (n - 60) * 1000000 ->
      _get_token post' now' (cache_after (_get_token post now c))
      = {| result_of := Returns token;
           cache_after := cache_after (_get_token post now c);
           posted := false |}.
Proof.
  intros Hp Hr.
  destruct (get_token_fetched post now c token Hp Hr)
    as (resp & data & n & Hpost & _ & Hjson & _ & Hn & Hc).
  exists resp, data, n. repeat split; auto.
  intros post' now' Ht Hlt. rewrite Hc.
  apply get_token_hit. unfold cache_hit; cbn [access_token expires_at].
  rewrite Ht. now apply Z.ltb_lt.
Qed.

Lemma token_reused_until_expiry_witness :
  exists resp data n,
    Ok (token_response "abc" 3600) = Ok resp /\ json resp = Ok data /\
    and_then (lift (get_default data "expires_in" (VInt 3600))) (py_int (builtins := PlainInt))
      = Returns n /\
    cache_after (_get_token (builtins := PlainInt)
                   (Ok (token_response "abc" 3600)) 1000 empty_cache)
    = {| access_token := VStr "abc"; expires_at := Some (1000 + (n - 60) * 1000000) |} /\
    forall post' now',
      truthy (VStr "abc") = true -> now' < 1000 + (n - 60) * 1000000 ->
      _get_token (builtins := PlainInt) post' now'
        (cache_after (_get_token (builtins := PlainInt)
                        (Ok (token_response "abc" 3600)) 1000 empty_cache))
      = {| result_of := Returns (VStr "abc");
           cache_after := cache_after (_get_token (builtins := PlainInt)
                                         (Ok (token_response "abc" 3600)) 1000 empty_cache);
           posted := false |}.
Proof.
  apply (token_reused_until_expiry PlainInt (Ok (token_response "abc" 3600)) 1000
           empty_cache (VStr "abc")); reflexivity.
Defined.

(** X13: a token whose [expires_in] is 60 seconds or less, or a token
    that is falsy (null, empty, 0), is returned to the caller but is
    never served from the cache: every call made at the same instant or
    later sends the token request again. *)
Theorem short_lived_token_fetched_again (builtins : Builtins)
    (resp : Response) (data : value) (n now : Z) (c : cache) (token : value) :
  posted (_get_token (Ok resp) now c) = true ->
  result_of (_get_token (Ok resp) now c) = Returns token ->
  json resp = Ok data ->
  and_then (lift (get_default data "expires_in" (VInt 3600))) py_int = Returns n ->
  n <= 60 \/ truthy token = false ->
  forall post' now',
    now <= now' ->
    posted (_get_token post' now' (cache_after (_get_token (Ok resp) now c))) = true.
Proof.
  intros Hp Hr Hjson Hn Hshort post' now' Hle.
  destruct (get_token_fetched (Ok resp) now c token Hp Hr)
    as (resp' & data' & n' & Hpost & _ & Hjson' & _ & Hn' & Hc).
  injection Hpost as <-. rewrite Hjson in Hjson'. injection Hjson' as <-.
  rewrite Hn in Hn'. injection Hn' as <-.
  rewrite get_token_posted, Hc. unfold cache_hit; cbn [access_token expires_at].
  destruct Hshort as [Hn60|Ht].
  - replace (now' <? now + (n - 60) * 1000000)%Z with false
      by (symmetry; apply Z.ltb_ge; lia).
    now rewrite andb_false_r.
  - now rewrite Ht.
Qed.

Lemma short_lived_token_fetched_again_witness :
  posted (_get_token (builtins := PlainInt) (Raise ConnectionError) 2000
            (cache_after (_get_token (builtins := PlainInt)
                            (Ok (token_response "abc" 60)) 1000 empty_cache))) = true.
Proof.
  apply (short_lived_token_fetched_again PlainInt (token_response "abc" 60)
           (VDict [("access_token", VStr "abc"); ("expires_in", VInt 60)]) 60 1000
           empty_cache (VStr "abc")); try reflexivity.
  - left. lia.
  - lia.
Defined.

(** X14: a call of [_get_token] that raises has sent the request and
    leaves the cache as it found it, with one exception: when the date
    arithmetic overflows, the new token is already stored, under the
    expiry of the old one. *)
Theorem failed_fetch_and_the_cache (builtins : Builtins)
    (post : result Response) (now : Z) (c : cache) (e : token_exn) :
  result_of (_get_token post now c) = Raises e ->
  posted (_get_token post now c) = true /\
  (cache_after (_get_token post now c) = c \/
   (e = OverflowError /\
    exists resp data token,
      post = Ok resp /\ json resp = Ok data /\
      subscript data "access_token" = Returns token /\
      cache_after (_get_token post now c)
      = {| access_token := token; expires_at := expires_at c |})).
Proof.
  unfold _get_token. destruct (cache_hit c now); [discriminate|].
  destruct (and_then (lift post) _) as [[token n]|e0] eqn:E.
  2:{ cbn [result_of cache_after posted]. auto. }
  apply and_then_returns in E as (resp & Hpost & E).
  apply and_then_returns in E as ([] & Hst & E).
  apply and_then_returns in E as (data & Hjson & E).
  apply and_then_returns in E as (tok & Htok & E).
  apply and_then_returns in E as (n' & Hn & E). injection E as E1 E2. subst tok n'.
  apply lift_returns in Hpost, Hjson.
  destruct (and_then (timedelta_seconds (n - 60)) (datetime_add now)) as [x|e1] eqn:Ee;
    [discriminate|].
  cbn [result_of cache_after posted]. intros H; injection H as <-.
  split; [reflexivity|]. right. split.
  - unfold and_then, timedelta_seconds, datetime_add in Ee.
    destruct (_ && _) in Ee; [|now injection Ee as <-].
    destruct (_ && _) in Ee; [discriminate | now injection Ee as <-].
  - exists resp, data, token. auto.
Qed.

Lemma failed_fetch_and_the_cache_witness :
  posted (_get_token (builtins := PlainInt)
            (Ok (token_response "abc" 100000000000000000000)) 1000 empty_cache) = true /\
  (cache_after (_get_token (builtins := PlainInt)
                  (Ok (token_response "abc" 100000000000000000000)) 1000 empty_cache)
   = empty_cache \/
   (OverflowError = OverflowError /\
    exists resp data token,
      Ok (token_response "abc" 100000000000000000000) = Ok resp /\ json resp = Ok data /\
      subscript data "access_token" = Returns token /\
      cache_after (_get_token (builtins := PlainInt)
                     (Ok (token_response "abc" 100000000000000000000)) 1000 empty_cache)
      = {| access_token := token; expires_at := expires_at empty_cache |})).
Proof.
  apply (failed_fetch_and_the_cache PlainInt
           (Ok (token_response "abc" 100000000000000000000)) 1000 empty_cache OverflowError).
  reflexivity.
Defined.

(** X15: of a response with a status outside 400-599 whose body is an
    object with an [access_token]: when the object has no [expires_in],
    the token lives 3600 seconds, so is stored until 3540 seconds from
    now; when [expires_in] is present but null, [int] refuses it, the
    call raises a TypeError and the token just received is dropped, the
    cache staying as it was. *)
Theorem expires_in_absent_or_null (builtins : Builtins)
    (resp : Response) (d : list (string * value)) (token : value) (now : Z) (c : cache) :
  cache_hit c now = false ->
  raise_for_status resp = Ok tt ->
  json resp = Ok (VDict d) ->
  lookup "access_token" d = Some token ->
  (lookup "expires_in" d = None ->
   0 <= now + 3540000000 <= datetime_max ->
   _get_token (Ok resp) now c
   = {| result_of := Returns token;
        cache_after := {| access_token := token;
                          expires_at := Some (now + 3540000000) |};
        posted := true |}) /\
  (lookup "expires_in" d = Some VNone ->
   _get_token (Ok resp) now c
   = {| result_of := Raises (Builtin TypeError); cache_after := c; posted := true |}).
Proof.
  intros Hmiss Hst Hjson Htok. unfold _get_token. rewrite Hmiss.
  cbn [lift and_then]. rewrite Hst, Hjson. cbn [lift and_then subscript get_default].
  rewrite Htok. cbn [and_then]. split.
  - intros He Hrange. rewrite He. cbn [lift and_then py_int].
    unfold timedelta_seconds, datetime_add.
    change (3600 - 60) with 3540. cbn [and_then].
    change ((-999999999 <=? 3540 / 86400)%Z && (3540 / 86400 <=? 999999999)%Z) with true.
    cbn [and_then]. change (3540 * 1000000) with 3540000000.
    destruct Hrange as [H0 H1].
    apply Z.leb_le in H0, H1. rewrite H0, H1. reflexivity.
  - intros He. rewrite He. reflexivity.
Qed.

Lemma expires_in_absent_or_null_witness :
  _get_token (builtins := PlainInt) (Ok null_expiry_response) 1000 empty_cache
  = {| result_of := Raises (Builtin TypeError); cache_after := empty_cache;
       posted := true |}.
Proof.
  apply (proj2 (expires_in_absent_or_null PlainInt null_expiry_response
                  null_expiry_body (VStr "abc") 1000 empty_cache
                  eq_refl eq_refl eq_refl eq_refl)).
  reflexivity.
Defined.

(* ================================================================== *)
(** * Further properties: the local time with its offset               *)
(* ================================================================== *)

Lemma upto_in (n k : N) : (n < k)%N -> In n (upto k).
Proof.
  intros H. unfold upto. apply in_map_iff. exists (N.to_nat n).
  split; [apply N2Nat.id|]. apply in_seq. lia.
Qed.

Lemma ascii_digits_all {unicode : UnicodeData} (n : nat) (s : ustr) :
  ascii_digits n s = true -> all_digits n s.
Proof.
  unfold ascii_digits. intros H. apply andb_true_iff in H as [Hl Hd].
  split; [now apply Nat.eqb_eq|].
  apply Forall_forall. intros c Hc. rewrite forallb_forall in Hd.
  specialize (Hd c Hc). unfold is_ascii_digit in Hd.
  apply andb_true_iff in Hd as [H1 H2].
  apply ascii_digit_is_digit. split; now apply N.leb_le.
Qed.

(** A field below 100 is written on two digits. *)
Lemma pad2_digits {unicode : UnicodeData} (n : N) : (n < 100)%N -> all_digits 2 (pad2 n).
Proof.
  intros H. apply ascii_digits_all.
  assert (Hall : forallb (fun n => ascii_digits 2 (pad2 n)) (upto 100) = true)
    by (vm_compute; reflexivity).
  rewrite forallb_forall in Hall. apply Hall. now apply upto_in.
Qed.

(** A year from 1000 to 9999 is written on four digits. *)
Lemma dec_year_digits {unicode : UnicodeData} (y : N) :
  (1000 <= y <= 9999)%N -> all_digits 4 (dec y).
Proof.
  intros H. apply ascii_digits_all.
  assert (Hall : forallb (fun n => (n <? 1000)%N || ascii_digits 4 (dec n)) (upto 10000)
                 = true)
    by (vm_compute; reflexivity).
  rewrite forallb_forall in Hall.
  specialize (Hall y (upto_in y 10000%N ltac:(lia))).
  apply orb_true_iff in Hall as [Hlt|Hd]; [apply N.ltb_lt in Hlt; lia | exact Hd].
Qed.

Lemma pad2_length_ge (n : N) : (2 <= List.length (pad2 n))%nat.
Proof. unfold pad2, zfill. rewrite length_app, repeat_length. lia. Qed.

Lemma slices_of_app (x o : ustr) :
  (2 <= List.length o)%nat ->
  but_last_two (x ++ o) = x ++ but_last_two o /\ last_two (x ++ o) = last_two o.
Proof.
  intros H. unfold but_last_two, last_two. rewrite length_app. split.
  - rewrite firstn_app, firstn_all2 by lia.
    now replace (List.length x + List.length o - 2 - List.length x)%nat
      with (List.length o - 2)%nat by lia.
  - rewrite skipn_app, skipn_all2 by lia.
    now replace (List.length x + List.length o - 2 - List.length x)%nat
      with (List.length o - 2)%nat by lia.
Qed.

Lemma slices_exact (x y : ustr) :
  List.length y = 2%nat -> but_last_two (x ++ y) = x /\ last_two (x ++ y) = y.
Proof.
  intros H. destruct (slices_of_app x y ltac:(lia)) as [H1 H2].
  rewrite H1, H2. unfold but_last_two, last_two. rewrite H. simpl.
  now rewrite app_nil_r.
Qed.

Lemma format_utcoffset_parts (off : Z) :
  format_utcoffset off
  = offset_sign off :: pad2 (offset_hours off) ++ pad2 (offset_minutes off)
      ++ (if (offset_seconds off =? 0)%N then [] else pad2 (offset_seconds off)).
Proof. reflexivity. Qed.

Lemma format_utcoffset_length (off : Z) : (2 <= List.length (format_utcoffset off))%nat.
Proof.
  rewrite format_utcoffset_parts. simpl. rewrite length_app.
  pose proof (pad2_length_ge (offset_hours off)). lia.
Qed.

Section Routes.
Context {platform : Strftime} {tzdata : TzData}.

(** Both routes end in the same text. *)
Lemma local_birth_text (d : date) (t : time) (tz_name : string) (off : Z) :
  offset_found tz_name d t off ->
  local_birth_to_iso_with_offset d t tz_name
  = Ok (stamp d t ++ with_colon (format_utcoffset off)).
Proof.
  unfold local_birth_to_iso_with_offset, with_colon.
  intros [H|[[e He] Hp]].
  - rewrite H.
    destruct (slices_of_app (stamp d t) (format_utcoffset off)
                (format_utcoffset_length off)) as [-> ->].
    now rewrite <- app_assoc.
  - rewrite He, Hp. reflexivity.
Qed.

End Routes.

Lemma offset_parts_below_a_day (off : Z) :
  Z.abs off < 86400 -> (offset_hours off < 100)%N /\ (offset_minutes off < 100)%N /\
                       (offset_seconds off < 100)%N.
Proof.
  intros H. unfold offset_hours, offset_minutes, offset_seconds.
  assert (Ha : (Z.to_N (Z.abs off) < 86400)%N) by lia.
  repeat split.
  - apply N.Div0.div_lt_upper_bound. lia.
  - pose proof (N.mod_upper_bound (Z.to_N (Z.abs off) / 60) 60 ltac:(lia)). lia.
  - pose proof (N.mod_upper_bound (Z.to_N (Z.abs off)) 60 ltac:(lia)). lia.
Qed.

Lemma offset_sign_cases (off : Z) :
  offset_sign off = N_of_ascii "+" \/ offset_sign off = N_of_ascii "-".
Proof. unfold offset_sign. destruct (off <? 0)%Z; auto. Qed.

(** X16: the two routes of [local_birth_to_iso_with_offset] write the
    same text.  Whether the offset comes from [zoneinfo], where the
    colon is put into the whole text, or from [pytz], where it is put
    into the offset alone, the result is the date and time followed by
    the offset with a colon before its last two characters. *)
Theorem both_routes_same_text (platform : Strftime) (tzdata : TzData)
    (d : date) (t : time) (tz_name : string) (off : Z) :
  offset_found tz_name d t off ->
  local_birth_to_iso_with_offset d t tz_name
  = Ok (stamp d t ++ with_colon (format_utcoffset off)).
Proof. apply local_birth_text. Qed.

Lemma both_routes_same_text_witness :
  local_birth_to_iso_with_offset (platform := Unpadded) (tzdata := fixed_offset 19800)
    default_birth_date default_birth_time "Asia/Kolkata"
  = local_birth_to_iso_with_offset (platform := Unpadded) (tzdata := pytz_only 19800)
      default_birth_date default_birth_time "Asia/Kolkata".
Proof.
  rewrite (both_routes_same_text Unpadded (fixed_offset 19800)
             default_birth_date default_birth_time "Asia/Kolkata" 19800).
  - rewrite (both_routes_same_text Unpadded (pytz_only 19800)
               default_birth_date default_birth_time "Asia/Kolkata" 19800).
    + reflexivity.
    + right. split; [exists ValueError|]; reflexivity.
  - left. reflexivity.
Defined.

Section Shape.
Context {unicode : UnicodeData} {platform : Strftime} {tzdata : TzData}.

Lemma stamp_fields (d : date) (t : time) :
  four_digit_year d -> in_range d t ->
  stamp d t = dec (year d) ++ u "-" ++ pad2 (month d) ++ u "-" ++ pad2 (day d)
                ++ u "T" ++ hms_text t /\
  all_digits 4 (dec (year d)) /\ all_digits 2 (pad2 (month d)) /\
  all_digits 2 (pad2 (day d)) /\ all_digits 2 (pad2 (hour t)) /\
  all_digits 2 (pad2 (minute t)) /\ all_digits 2 (pad2 (second t)).
Proof.
  intros Hy (Hm & Hd & Hh & Hmi & Hs). unfold stamp, hms_text.
  rewrite (year_text_four_digits _ Hy).
  repeat split; try reflexivity;
    try (apply dec_year_digits; exact Hy);
    try (apply pad2_digits; lia);
    try (apply (proj1 (pad2_digits _ ltac:(lia))));
    try (apply (proj2 (pad2_digits _ ltac:(lia)))).
Qed.

End Shape.

(** X17: for a date with a year of four digits and an offset of whole
    minutes, the text [local_birth_to_iso_with_offset] returns has the
    shape [_force_jan1] looks for: year, month, day, time of day, and
    the offset as sign, hours, colon, minutes.  So the substitution, if
    it comes to the retry, turns it into the first of January of the
    same year, time of day and offset unchanged. *)
Theorem local_birth_text_has_iso_shape (unicode : UnicodeData) (platform : Strftime)
    (tzdata : TzData) (d : date) (t : time) (tz_name : string) (off : Z) :
  offset_found tz_name d t off ->
  four_digit_year d -> in_range d t ->
  Z.abs off < 86400 -> offset_seconds off = 0%N ->
  exists s offset,
    local_birth_to_iso_with_offset d t tz_name = Ok s /\
    offset = offset_sign off :: pad2 (offset_hours off) ++ u ":"
               ++ pad2 (offset_minutes off) /\
    iso_shape s (dec (year d)) (pad2 (month d)) (pad2 (day d)) (hms_text t) offset /\
    _force_jan1 s = dec (year d) ++ u "-01-01T" ++ hms_text t ++ offset.
Proof.
  intros Hoff Hy Hr Hday Hsec.
  destruct (stamp_fields d t Hy Hr) as (Hst & Dy & Dm & Dd & Dh & Dmi & Ds).
  destruct (offset_parts_below_a_day off Hday) as (Hh & Hm & _).
  pose proof (pad2_digits _ Hh) as Doh. pose proof (pad2_digits _ Hm) as Dom.
  assert (Hfmt : with_colon (format_utcoffset off)
                 = offset_sign off :: pad2 (offset_hours off) ++ u ":"
                     ++ pad2 (offset_minutes off)).
  { rewrite format_utcoffset_parts, Hsec. cbn [N.eqb]. rewrite app_nil_r.
    unfold with_colon.
    destruct (slices_exact (offset_sign off :: pad2 (offset_hours off))
                (pad2 (offset_minutes off)) (proj1 Dom)) as [H1 H2].
    cbn [app] in H1, H2. rewrite H1, H2. reflexivity. }
  assert (Hshape : iso_shape (stamp d t ++ with_colon (format_utcoffset off))
                     (dec (year d)) (pad2 (month d)) (pad2 (day d)) (hms_text t)
                     (offset_sign off :: pad2 (offset_hours off) ++ u ":"
                        ++ pad2 (offset_minutes off))).
  { exists (pad2 (hour t)), (pad2 (minute t)), (pad2 (second t)),
      (offset_sign off), (pad2 (offset_hours off)), (pad2 (offset_minutes off)).
    repeat split; try apply Dy; try apply Dm; try apply Dd; try apply Dh;
      try apply Dmi; try apply Ds; try apply Doh; try apply Dom.
    - apply offset_sign_cases.
    - rewrite Hfmt, Hst. now repeat rewrite <- app_assoc. }
  exists (stamp d t ++ with_colon (format_utcoffset off)).
  exists (offset_sign off :: pad2 (offset_hours off) ++ u ":" ++ pad2 (offset_minutes off)).
  split; [exact (local_birth_text d t tz_name off Hoff)|].
  split; [reflexivity|]. split; [exact Hshape|].
  now apply force_jan1_on_shape with (month := pad2 (month d)) (day := pad2 (day d)).
Qed.

Lemma local_birth_text_has_iso_shape_witness :
  exists s offset,
    local_birth_to_iso_with_offset (platform := Unpadded) (tzdata := fixed_offset 19800)
      default_birth_date default_birth_time "Asia/Kolkata" = Ok s /\
    offset = offset_sign 19800 :: pad2 (offset_hours 19800) ++ u ":"
               ++ pad2 (offset_minutes 19800) /\
    iso_shape (unicode := AsciiDigits) s (dec (year default_birth_date))
      (pad2 (month default_birth_date)) (pad2 (day default_birth_date))
      (hms_text default_birth_time) offset /\
    _force_jan1 (unicode := AsciiDigits) s
    = dec (year default_birth_date) ++ u "-01-01T" ++ hms_text default_birth_time ++ offset.
Proof.
  apply (local_birth_text_has_iso_shape AsciiDigits Unpadded (fixed_offset 19800)
           default_birth_date default_birth_time "Asia/Kolkata" 19800).
  - left. reflexivity.
  - unfold four_digit_year; simpl; lia.
  - unfold in_range; simpl; lia.
  - simpl; lia.
  - reflexivity.
Defined.

(** X18: when the offset of the zone at the birth has seconds, as the
    local mean times of old dates have, the colon lands between the
    minutes and the seconds of the offset.  The text is then two
    characters longer than the pattern of [_force_jan1] allows, and the
    substitution returns it unchanged: the retry with the first of
    January would carry the birth date itself. *)
Theorem offset_with_seconds_defeats_force_jan1 (unicode : UnicodeData)
    (platform : Strftime) (tzdata : TzData)
    (d : date) (t : time) (tz_name : string) (off : Z) :
  offset_found tz_name d t off ->
  four_digit_year d -> in_range d t ->
  Z.abs off < 86400 -> offset_seconds off <> 0%N ->
  exists s,
    local_birth_to_iso_with_offset d t tz_name = Ok s /\
    s = stamp d t ++ offset_sign off :: pad2 (offset_hours off)
          ++ pad2 (offset_minutes off) ++ u ":" ++ pad2 (offset_seconds off) /\
    List.length s = 27%nat /\
    ~ exact_iso s /\
    _force_jan1 s = s.
Proof.
  intros Hoff Hy Hr Hday Hsec.
  destruct (stamp_fields d t Hy Hr) as (Hst & Dy & Dm & Dd & Dh & Dmi & Ds).
  destruct (offset_parts_below_a_day off Hday) as (Hh & Hm & Hs).
  pose proof (pad2_digits _ Hh) as [Loh _]. pose proof (pad2_digits _ Hm) as [Lom _].
  pose proof (pad2_digits _ Hs) as [Los _].
  assert (Hfmt : with_colon (format_utcoffset off)
                 = offset_sign off :: pad2 (offset_hours off)
                     ++ pad2 (offset_minutes off) ++ u ":" ++ pad2 (offset_seconds off)).
  { rewrite format_utcoffset_parts.
    destruct (N.eqb_spec (offset_seconds off) 0) as [E|_]; [contradiction|].
    unfold with_colon.
    destruct (slices_exact (offset_sign off :: pad2 (offset_hours off)
                              ++ pad2 (offset_minutes off))
                (pad2 (offset_seconds off)) Los) as [H1 H2].
    cbn [app] in H1, H2. rewrite <- app_assoc in H1, H2.
    rewrite H1, H2. cbn [app]. now rewrite <- app_assoc. }
  assert (Hlen : List.length (stamp d t ++ with_colon (format_utcoffset off)) = 27%nat).
  { rewrite Hfmt, Hst. unfold hms_text.
    repeat (rewrite ?length_app; cbn [List.length u map list_ascii_of_string]).
    rewrite (proj1 Dy), (proj1 Dm), (proj1 Dd), (proj1 Dh), (proj1 Dmi), (proj1 Ds),
      Loh, Lom, Los. reflexivity. }
  exists (stamp d t ++ with_colon (format_utcoffset off)).
  split; [exact (local_birth_text d t tz_name off Hoff)|].
  split; [now rewrite Hfmt|]. split; [exact Hlen|].
  assert (Hno : ~ exact_iso (stamp d t ++ with_colon (format_utcoffset off))).
  { intros (y & mo & dd & h & o & H). apply iso_shape_length in H. lia. }
  split; [exact Hno|].
  apply force_jan1_off_shape; [exact Hno|].
  intros s0 (y & mo & dd & h & o & H) E. apply iso_shape_length in H.
  apply (f_equal (@List.length N)) in E. rewrite Hlen, length_app, H in E.
  simpl in E. lia.
Qed.

Lemma offset_with_seconds_defeats_force_jan1_witness :
  exists s,
    local_birth_to_iso_with_offset (platform := Unpadded) (tzdata := pytz_only 19270)
      old_birth_date default_birth_time "Asia/Kolkata" = Ok s /\
    s = stamp (platform := Unpadded) old_birth_date default_birth_time
          ++ offset_sign 19270 :: pad2 (offset_hours 19270)
          ++ pad2 (offset_minutes 19270) ++ u ":" ++ pad2 (offset_seconds 19270) /\
    List.length s = 27%nat /\
    ~ exact_iso (unicode := AsciiDigits) s /\
    _force_jan1 (unicode := AsciiDigits) s = s.
Proof.
  apply (offset_with_seconds_defeats_force_jan1 AsciiDigits Unpadded (pytz_only 19270)
           old_birth_date default_birth_time "Asia/Kolkata" 19270).
  - right. split; [exists ValueError|]; reflexivity.
  - unfold four_digit_year; simpl; lia.
  - unfold in_range; simpl; lia.
  - simpl; lia.
  - discriminate.
Defined.

(* ================================================================== *)
(** * Further properties: the kundli summary                           *)
(* ================================================================== *)

Lemma or_empty_dict_falsy (d : list (string * value)) (k : string) :
  truthy (get_or_none d k) = false ->
  or_empty_dict (get (VDict d) k) = Ok (VDict []).
Proof.
  intros H. rewrite get_dict. unfold or_empty_dict, or_else; simpl. now rewrite H.
Qed.

Lemma or_empty_list_falsy (d : list (string * value)) (k : string) :
  truthy (get_or_none d k) = false ->
  or_empty_list (get (VDict d) k) = Ok (VList []).
Proof.
  intros H. rewrite get_dict. unfold or_empty_list, or_else; simpl. now rewrite H.
Qed.

(** What the three branches on [has_dosha] give. *)
Lemma mangal_of_dict (d : list (string * value)) :
  exists v,
    mangal_of (VDict d) = Ok v /\ truthy v = true /\
    (is_bool (get_or_none d "has_dosha") = false -> v = VStr em_dash) /\
    (is_bool (get_or_none d "has_dosha") = true ->
     truthy (get_or_none d "description") = true -> v = get_or_none d "description").
Proof.
  unfold mangal_of. rewrite !get_dict. cbn [bind]. unfold or_else; cbn [bind].
  destruct (get_or_none d "has_dosha") as [|[|]| | | |]; cbn [is_True is_False is_bool];
    try (eexists; split; [reflexivity|]; split; [reflexivity|];
         split; [reflexivity | discriminate]);
    destruct (truthy (get_or_none d "description")) eqn:E;
    (eexists; split; [reflexivity|]; split; [first [exact E | reflexivity]|];
     split; [discriminate|]; intros _ H; first [reflexivity | discriminate]).
Qed.

(** X19: the text about the mangal dosha is never blank.  It is the
    dash whenever [has_dosha] is not a JSON boolean - missing, null, or
    a number or a text, however truthy - and, when it is a boolean, the
    description if that is truthy. *)
Theorem mangal_text_never_blank (d : list (string * value)) :
  exists v,
    mangal_of (VDict d) = Ok v /\ truthy v = true /\
    (is_bool (get_or_none d "has_dosha") = false -> v = VStr em_dash) /\
    (is_bool (get_or_none d "has_dosha") = true ->
     truthy (get_or_none d "description") = true -> v = get_or_none d "description").
Proof. apply mangal_of_dict. Qed.

Lemma mangal_text_never_blank_witness :
  exists v,
    mangal_of (VDict [("has_dosha", VInt 1); ("description", VStr "yes")]) = Ok v /\
    v = VStr em_dash.
Proof.
  destruct (mangal_text_never_blank [("has_dosha", VInt 1); ("description", VStr "yes")])
    as (v & Hv & _ & Hdash & _).
  exists v. split; [exact Hv|]. apply Hdash. reflexivity.
Defined.

(** X20: whenever [extract_kundli_summary] returns, the summary row has
    its seventeen columns in the one order, there is one yoga row for
    each element of [yoga_details], and the mangal text is not blank. *)
Theorem summary_has_fixed_columns (resp : value) (s : summary) :
  extract_kundli_summary resp = Ok s ->
  map fst (summary_row s) = summary_columns /\
  truthy (mangal_text s) = true /\
  exists root yogas ys,
    get_default resp "data" resp = Ok root /\
    or_empty_list (get root "yoga_details") = Ok yogas /\
    iter yogas = Ok ys /\
    List.length (yoga_rows s) = List.length ys.
Proof.
  unfold extract_kundli_summary. intros H.
  apply bind_ok_inv in H as (root & Hroot & H).
  do 6 (apply bind_ok_inv in H as (? & _ & H)).
  do 17 (apply bind_ok_inv in H as (? & _ & H)).
  apply bind_ok_inv in H as (yogas & Hy & H).
  apply bind_ok_inv in H as (ys & Hys & H).
  apply bind_ok_inv in H as (rows & Hrows & H).
  apply bind_ok_inv in H as (md & Hmd & H).
  apply bind_ok_inv in H as (mangal & Hm & H). injection H as <-.
  cbn [summary_row mangal_text yoga_rows map fst].
  split; [reflexivity|]. split.
  - destruct md as [| | | | |dd]; try discriminate Hm.
    destruct (mangal_of_dict dd) as (v & Hv & Ht & _). congruence.
  - exists root, yogas, ys. repeat split; auto. now apply for_each_length in Hrows.
Qed.

Lemma summary_has_fixed_columns_witness :
  exists s,
    extract_kundli_summary (VDict [("yoga_details", VList [VDict []; VDict []])]) = Ok s /\
    map fst (summary_row s) = summary_columns /\
    truthy (mangal_text s) = true.
Proof.
  eexists. split; [reflexivity|].
  destruct (summary_has_fixed_columns
              (VDict [("yoga_details", VList [VDict []; VDict []])]) _ eq_refl)
    as (H1 & H2 & _).
  split; [exact H1 | exact H2].
Defined.

(** X21: a response whose root is an object in which
    [nakshatra_details], [yoga_details] and [mangal_dosha] are missing,
    null or empty gives a summary without an error: every one of the
    seventeen columns is none, there are no yoga rows, and the mangal
    text is the dash. *)
Theorem summary_of_bare_root (resp : value) (d : list (string * value)) :
  get_default resp "data" resp = Ok (VDict d) ->
  truthy (get_or_none d "nakshatra_details") = false ->
  truthy (get_or_none d "yoga_details") = false ->
  truthy (get_or_none d "mangal_dosha") = false ->
  extract_kundli_summary resp
  = Ok {| summary_row := map (fun c => (c, VNone)) summary_columns;
          yoga_rows := [];
          mangal_text := VStr em_dash |}.
Proof.
  intros Hroot Hn Hy Hm. unfold extract_kundli_summary.
  rewrite Hroot. cbn [bind].
  rewrite (or_empty_dict_falsy d _ Hn). cbn [bind].
  rewrite (or_empty_list_falsy d _ Hy), (or_empty_dict_falsy d _ Hm).
  reflexivity.
Qed.

Lemma summary_of_bare_root_witness :
  extract_kundli_summary (VDict [("data", VDict [("mangal_dosha", VNone)])])
  = Ok {| summary_row := map (fun c => (c, VNone)) summary_columns;
          yoga_rows := [];
          mangal_text := VStr em_dash |}.
Proof.
  apply (summary_of_bare_root _ [("mangal_dosha", VNone)]); reflexivity.
Defined.
